(** * resp-sync: the breathing-rate logger [a111_breathing_rasp_0902_v2.py]

    A shallow embedding of the frame loop of the logger (numeric extraction,
    quality estimate, validity gates, smoothing buffer, per-second emitter)
    and of the start-up code of [main], followed by the properties of the
    specification that concern them.

    Python's [float] is IEEE-754 binary64, so it is modelled by Rocq's
    primitive floats: arithmetic, comparisons and rounding are the ones the
    interpreter performs.  Python's [int] is [Z].  A frame result is a
    dynamically typed value; a [dict] is a [gmap] from strings, with the
    keys that are not strings kept beside it in the frame. *)

From Stdlib Require Import ZArith List String Ascii Bool Floats Lia.
From stdpp Require Import base option list gmap strings sorting.

Set Warnings "-inexact-float,-register-all".
Open Scope Z_scope.

(** ** Exceptions and results *)

(** The exceptions the modelled code can raise. *)
Inductive exn :=
  | AttributeError | IndexError | ZeroDivisionError
  | ValueError | OverflowError | TypeError.

(** The outcome of a piece of Python code: a value, a raised exception, or
    a loop that never ends. *)
Inductive result (A : Type) :=
  | Ok (a : A)
  | Raise (e : exn)
  | Hang.
Arguments Ok {A} a.
Arguments Raise {A} e.
Arguments Hang {A}.

#[export] Instance result_ret : MRet result := fun A a => Ok a.

#[export] Instance result_bind : MBind result := fun A B k r =>
  match r with
  | Ok a => k a
  | Raise e => Raise e
  | Hang => Hang
  end.

(** [try: body except: handler] for a body without loops. *)
Definition try_except {A} (body : result A) (handler : A) : A :=
  match body with
  | Ok a => a
  | _ => handler
  end.

(** ** Python floats *)

Module PyFloat.

Definition nan : float := PrimFloat.nan.
Definition inf : float := PrimFloat.infinity.

(** [math.isfinite] *)
Definition isfinite (x : float) : bool :=
  match Prim2SF x with
  | S754_zero _ | S754_finite _ _ _ => true
  | S754_infinity _ | S754_nan => false
  end.

Definition isnan (x : float) : bool := negb (PrimFloat.eqb x x).

(** Python comparisons on floats; any comparison with NaN is false. *)
Definition lt (x y : float) : bool := PrimFloat.ltb x y.
Definition le (x y : float) : bool := PrimFloat.leb x y.
Definition gt (x y : float) : bool := PrimFloat.ltb y x.
Definition ge (x y : float) : bool := PrimFloat.leb y x.

(** [x / y] on Python floats: raises on a zero divisor (of either sign). *)
Definition div (x y : float) : result float :=
  if PrimFloat.eqb y 0%float then Raise ZeroDivisionError
  else Ok (PrimFloat.div x y).

(** The builtin [max(a, b)]: the first argument unless the second is
    strictly greater. *)
Definition max (a b : float) : float := if gt b a then b else a.

(** The nearest binary64 value to the rational [(-1)^s * p / q], ties to
    even: the rounding of [float(int)] and of [float(str)]. *)
Definition round_ratio (s : bool) (p q : positive) : spec_float :=
  let e' := Z.min (-1074) (Z.pos (digits2_pos p) - Z.pos (digits2_pos q) - 55) in
  let '(quo, r) := Z.div_eucl (Z.shiftl (Z.pos p) (- e')) (Z.pos q) in
  binary_round_aux prec emax s quo e' (new_location (Z.pos q) r).

(** [float(n)] for an [int]: correctly rounded, [OverflowError] when the
    integer is too large. *)
Definition of_int (n : Z) : result float :=
  match n with
  | Z0 => Ok 0%float
  | Zpos p | Zneg p =>
      match round_ratio (n <? 0) p 1 with
      | S754_infinity _ => Raise OverflowError
      | sf => Ok (SF2Prim sf)
      end
  end.

(** The exact floor of a finite non-zero float [(-1)^s * m * 2^e]. *)
Definition floor_finite (s : bool) (m : positive) (e : Z) : Z :=
  let v := if s then Z.neg m else Z.pos m in
  if 0 <=? e then Z.shiftl v e else Z.shiftr v (- e).

(** [math.floor]: an [int]; raises on infinities and NaN. *)
Definition floor (x : float) : result Z :=
  match Prim2SF x with
  | S754_zero _ => Ok 0
  | S754_finite s m e => Ok (floor_finite s m e)
  | S754_infinity _ => Raise OverflowError
  | S754_nan => Raise ValueError
  end.

(** [x >= n] for a float [x] and an [int] [n]: Python compares the two
    exactly, so for an integer [n] this is [floor x >= n]. *)
Definition ge_int (x : float) (n : Z) : bool :=
  match Prim2SF x with
  | S754_zero _ => n <=? 0
  | S754_finite s m e => n <=? floor_finite s m e
  | S754_infinity s => negb s
  | S754_nan => false
  end.

(** *** [float(str)] *)

Definition code (c : ascii) : Z := Z.of_nat (nat_of_ascii c).

(** The characters [float] strips: space, tab, newline, vertical tab,
    form feed, carriage return. *)
Definition is_space (c : ascii) : bool :=
  (code c =? 32) || ((9 <=? code c) && (code c <=? 13)).

Definition is_digit (c : ascii) : bool :=
  (48 <=? code c) && (code c <=? 57).

Definition is_underscore (c : ascii) : bool := code c =? 95.

(** ASCII lower case of a letter. *)
Definition lower (c : ascii) : ascii :=
  if (65 <=? code c) && (code c <=? 90)
  then ascii_of_nat (nat_of_ascii c + 32) else c.

Fixpoint lstrip (l : list ascii) : list ascii :=
  match l with
  | c :: l' => if is_space c then lstrip l' else l
  | [] => []
  end.

Definition strip (l : list ascii) : list ascii :=
  rev (lstrip (rev (lstrip l))).

(** Every underscore stands between two digits. *)
Fixpoint underscores_ok (prev_digit : bool) (l : list ascii) : bool :=
  match l with
  | [] => true
  | c :: l' =>
      if is_underscore c
      then prev_digit
           && match l' with d :: _ => is_digit d | [] => false end
           && underscores_ok false l'
      else underscores_ok (is_digit c) l'
  end.

(** The longest prefix of digits, and the rest. *)
Fixpoint span_digits (l : list ascii) : list ascii * list ascii :=
  match l with
  | c :: l' =>
      if is_digit c
      then let '(ds, r) := span_digits l' in (c :: ds, r)
      else ([], l)
  | [] => ([], [])
  end.

Definition digits_value (ds : list ascii) : Z :=
  fold_left (fun acc c => 10 * acc + (code c - 48)) ds 0.

(** An optional sign: [true] for minus. *)
Definition take_sign (l : list ascii) : bool * list ascii :=
  match l with
  | c :: l' =>
      if code c =? 45 then (true, l')
      else if code c =? 43 then (false, l')
      else (false, l)
  | [] => (false, [])
  end.

(** [digits [. digits] [(e|E) [sign] digits]] with a digit in the
    mantissa, consumed to the end: the decimal integer [d] and the power
    of ten [k] with value [d * 10^k]. *)
Definition parse_decimal (l : list ascii) : option (Z * Z) :=
  let '(ip, r1) := span_digits l in
  let '(fp, r2) :=
    match r1 with
    | c :: r => if code c =? 46 then span_digits r else ([], r1)
    | [] => ([], r1)
    end in
  match ip ++ fp with
  | [] => None
  | ds =>
      let '(ex, r3) :=
        match r2 with
        | c :: r =>
            if code (lower c) =? 101 then
              let '(neg, r') := take_sign r in
              match span_digits r' with
              | ([], _) => (0, r2)
              | (ed, r'') =>
                  ((if neg then - digits_value ed else digits_value ed), r'')
              end
            else (0, r2)
        | [] => (0, r2)
        end in
      match r3 with
      | [] => Some (digits_value ds, ex - Z.of_nat (length fp))
      | _ :: _ => None
      end
  end.

(** The float nearest to [(-1)^s * d * 10^k]. *)
Definition of_decimal (s : bool) (d k : Z) : float :=
  match d with
  | Zpos p =>
      SF2Prim (if 0 <=? k
               then round_ratio s (p * Z.to_pos (10 ^ k)) 1
               else round_ratio s p (Z.to_pos (10 ^ (- k))))
  | _ => if s then (-0)%float else 0%float
  end.

(** [float(s)] for a [str] of ASCII characters; [ValueError] when the
    text is not a float literal. *)
Definition of_string (s : string) : result float :=
  let l := list_ascii_of_string s in
  if negb (underscores_ok false l) then Raise ValueError else
  let '(neg, body) :=
    take_sign (strip (filter (fun c => negb (is_underscore c)) l)) in
  let name := string_of_list_ascii (map lower body) in
  if (String.eqb name "inf" || String.eqb name "infinity")%bool
  then Ok (if neg then (- inf)%float else inf)
  else if String.eqb name "nan" then Ok nan
  else match parse_decimal body with
       | Some (d, k) => Ok (of_decimal neg d k)
       | None => Raise ValueError
       end.

(** *** Formatting *)

Definition digit_char (d : Z) : ascii := ascii_of_nat (48 + Z.to_nat d).

(** The decimal digits of a natural number, least significant last. *)
Fixpoint digits_go (fuel : nat) (n : Z) (acc : string) : string :=
  let acc' := String (digit_char (n mod 10)) acc in
  match fuel with
  | O => acc'
  | S fuel' => if n <? 10 then acc' else digits_go fuel' (n / 10) acc'
  end.

Definition str_nat (n : Z) : string :=
  digits_go (Z.to_nat (Z.log2 n)) n "".

(** [str(n)] for an [int]. *)
Definition str_int (n : Z) : string :=
  if n <? 0 then String "-" (str_nat (- n)) else str_nat n.

(** The integer nearest to [m * 2^e * 100], ties to even. *)
Definition round_hundredths (m : positive) (e : Z) : Z :=
  let a := Z.pos m * 100 in
  if 0 <=? e then Z.shiftl a e
  else
    let d := Z.shiftl 1 (- e) in
    let '(quo, r) := Z.div_eucl a d in
    match 2 * r ?= d with
    | Lt => quo
    | Gt => quo + 1
    | Eq => if Z.even quo then quo else quo + 1
    end.

(** [f"{x:.2f}"]: the correctly rounded decimal with two fraction digits;
    infinities and NaN by name. *)
Definition format_2f (x : float) : string :=
  match Prim2SF x with
  | S754_nan => "nan"
  | S754_infinity s => if s then "-inf" else "inf"
  | S754_zero s => if s then "-0.00" else "0.00"
  | S754_finite s m e =>
      let n := round_hundredths m e in
      ((if s then "-" else "") ++ str_nat (n / 100) ++ "."
       ++ String (digit_char (n / 10 mod 10))
            (String (digit_char (n mod 10)) ""))%string
  end.

End PyFloat.

(** ** Frame results *)

(** A Python object as a frame result can hold it.  [VStr] is a [str] of
    ASCII characters; [VList] is a one-dimensional sequence of floats, as
    the estimator's power spectrum is; [VObject] is any other object: one
    that neither [float] nor [numpy.asarray(_, dtype=float)] accepts. *)
Inductive value :=
  | VNone
  | VBool (b : bool)
  | VInt (n : Z)
  | VFloat (f : float)
  | VStr (s : string)
  | VList (l : list float)
  | VDict (d : gmap string value)
  | VObject.

(** [d.get(k)]: the default is [None]. *)
Definition dict_get (d : gmap string value) (k : string) : value :=
  default VNone (d !! k).

(** The builtin [float(x)]. *)
Definition py_float (x : value) : result float :=
  match x with
  | VBool b => Ok (if b then 1%float else 0%float)
  | VInt n => PyFloat.of_int n
  | VFloat f => Ok f
  | VStr s => PyFloat.of_string s
  | VNone | VList _ | VDict _ | VObject => Raise TypeError
  end.

(** ** Numeric extraction *)

Definition safe_float (x : value) : option float :=
  match x with
  | VBool _ => None
  | _ =>
      try_except
        (v ← py_float x;
         Ok (if PyFloat.isfinite v then Some v else None))
        None
  end.

Definition hz_keys : list string :=
  ["f_est"; "f_dft_est"; "breathing_rate_hz"; "freq_hz"; "f_hat";
   "resp_rate_hz"]%string.

Definition bpm_keys : list string :=
  ["breathing_rate_bpm"; "respiratory_rate_bpm"; "bpm"]%string.

(** [for k in ks: v = safe_float(d.get(k)); if v is not None: return f(v)];
    [None] when the loop ends without returning. *)
Fixpoint for_keys (d : gmap string value) (f : float -> float)
    (ks : list string) : option float :=
  match ks with
  | [] => None
  | k :: ks' =>
      match safe_float (dict_get d k) with
      | Some v => Some (f v)
      | None => for_keys d f ks'
      end
  end.

Definition bpm_from_res (res : value) : option float :=
  match res with
  | VDict d =>
      match for_keys d (fun v => (v * 60)%float) hz_keys with
      | Some r => Some r
      | None => for_keys d (fun v => v) bpm_keys
      end
  | _ => None
  end.

(** The caller tests the result against [None], so the result is an
    optional float here. *)
Definition norm_init_progress (res : value) : option float :=
  let raw := match res with VDict d => dict_get d "init_progress" | _ => VNone end in
  match safe_float raw with
  | None => Some 1%float
  | Some ip => Some (if PyFloat.gt ip 1 then (ip / 100)%float else ip)
  end.

(** ** The numpy operations the frame loop uses *)

Module Np.

(** An array of floats: zero-dimensional or one-dimensional. *)
Inductive ndarray :=
  | Arr0 (x : float)
  | Arr1 (l : list float).

(** [np.asarray(v, dtype=float)] *)
Definition asarray (v : value) : result ndarray :=
  match v with
  | VList l => Ok (Arr1 l)
  | VNone => Ok (Arr0 PyFloat.nan)
  | VBool _ | VInt _ | VFloat _ | VStr _ => x ← py_float v; Ok (Arr0 x)
  | VDict _ | VObject => Raise TypeError
  end.

Definition size (l : list float) : Z := Z.of_nat (length l).

(** [np.all(np.isfinite(a))] *)
Definition all_isfinite (l : list float) : bool := forallb PyFloat.isfinite l.

(** [np.any(a > 0)] *)
Definition any_positive (l : list float) : bool :=
  existsb (fun x => PyFloat.gt x 0) l.

(** The index of the first maximum, scanning from index [i] with the
    best candidate so far. *)
Fixpoint argmax_from (l : list float) (i : Z) (best_i : Z) (best : float) : Z :=
  match l with
  | [] => best_i
  | x :: l' =>
      if PyFloat.gt x best then argmax_from l' (i + 1) i x
      else argmax_from l' (i + 1) best_i best
  end.

(** [np.nanargmax(a)] on an array without NaN. *)
Definition nanargmax (l : list float) : result Z :=
  match l with
  | [] => Raise ValueError
  | x :: l' => Ok (argmax_from l' 1 0 x)
  end.

(** [a[i]] for an index within bounds. *)
Definition item (l : list float) (i : Z) : result float :=
  if (0 <=? i) && (i <? size l)
  then match l !! Z.to_nat i with Some x => Ok x | None => Raise IndexError end
  else Raise IndexError.

(** [mask = ones; mask[lo:hi] = False; a[mask]]: the elements whose
    index is outside [lo, hi). *)
Fixpoint outside_from (l : list float) (i lo hi : Z) : list float :=
  match l with
  | [] => []
  | x :: l' =>
      if (lo <=? i) && (i <? hi) then outside_from l' (i + 1) lo hi
      else x :: outside_from l' (i + 1) lo hi
  end.

Definition outside (l : list float) (lo hi : Z) : list float :=
  outside_from l 0 lo hi.

(** The order numpy sorts floats by: ascending, NaN last. *)
Definition sort_le (a b : float) : bool :=
  PyFloat.isnan b || PyFloat.le a b.

Fixpoint sort_insert (x : float) (l : list float) : list float :=
  match l with
  | [] => [x]
  | y :: l' => if sort_le x y then x :: l else y :: sort_insert x l'
  end.

(** [np.sort(a)] *)
Definition sort (l : list float) : list float :=
  fold_right sort_insert [] l.

(** [np.median(a)] on a non-empty array without NaN: the middle element
    of the sorted array, or the mean [(x + y) / 2] of the two middle
    ones. *)
Definition median (l : list float) : float :=
  let s := sort l in
  let n := length l in
  if Nat.even n
  then ((nth (n / 2 - 1) s PyFloat.nan + nth (n / 2) s PyFloat.nan) / 2)%float
  else nth (n / 2) s PyFloat.nan.

(** [np.sort(a[np.argpartition(a, -3)[-3:]])]: the three largest values
    in ascending order; [ValueError] on fewer than three elements. *)
Definition top3 (l : list float) : result (list float) :=
  if (length l <? 3)%nat then Raise ValueError
  else Ok (drop (length l - 3) (sort l)).

End Np.

(** ** Command line *)

Inductive smooth_method := Mean | Median.

(** The result of [ap.parse_args()]: one attribute per declared option,
    with the type [argparse] converts it to. *)
Record Namespace := {
  host : string;
  r0 : float;
  r1 : float;
  rate : float;
  n_dft : Z;
  f_low : float;
  f_high : float;
  snr_min : float;
  hold_last_for : float;
  smooth_window : Z;
  smooth : smooth_method;
  prominence_min : float;
  max_step_bpm : float;
  max_ratio : float;
  debug : bool;
  out : option string
}.

(** The value of an attribute of the namespace. *)
Inductive attr :=
  | AStr (s : string)
  | AFloat (f : float)
  | AInt (n : Z)
  | ABool (b : bool)
  | ANone.

(** The attributes of the namespace, by name: [argparse] derives the name
    from the long option, with [-] replaced by [_]. *)
Definition namespace_dict (args : Namespace) : list (string * attr) :=
  [ ("host", AStr (host args));
    ("r0", AFloat (r0 args));
    ("r1", AFloat (r1 args));
    ("rate", AFloat (rate args));
    ("n_dft", AInt (n_dft args));
    ("f_low", AFloat (f_low args));
    ("f_high", AFloat (f_high args));
    ("snr_min", AFloat (snr_min args));
    ("hold_last_for", AFloat (hold_last_for args));
    ("smooth_window", AInt (smooth_window args));
    ("smooth", AStr (match smooth args with Mean => "mean" | Median => "median" end));
    ("prominence_min", AFloat (prominence_min args));
    ("max_step_bpm", AFloat (max_step_bpm args));
    ("max_ratio", AFloat (max_ratio args));
    ("debug", ABool (debug args));
    ("out", match out args with Some s => AStr s | None => ANone end)
  ]%string.

Fixpoint assoc (name : string) (l : list (string * attr)) : option attr :=
  match l with
  | [] => None
  | (k, v) :: l' => if String.eqb k name then Some v else assoc name l'
  end.

(** [args.name]: [AttributeError] when the namespace has no such
    attribute. *)
Definition getattr (args : Namespace) (name : string) : result attr :=
  match assoc name (namespace_dict args) with
  | Some v => Ok v
  | None => Raise AttributeError
  end.

(** Truth value of an attribute in [if x:]. *)
Definition truthy (v : attr) : bool :=
  match v with
  | AStr s => negb (String.eqb s "")
  | AFloat f => negb (PrimFloat.eqb f 0)
  | AInt n => negb (n =? 0)
  | ABool b => b
  | ANone => false
  end.

(** The names bound in the module's global namespace when [main] runs: the
    interpreter's own, the imports at the top of the file and the four
    functions.  [import numpy as np] is inside [main], so [np] is a local
    variable of [main]. *)
Definition module_globals : list string :=
  ["__name__"; "__doc__"; "__package__"; "__loader__"; "__spec__";
   "__annotations__"; "__builtins__"; "__file__"; "__cached__";
   "argparse"; "math"; "time"; "warnings"; "deque"; "datetime";
   "Client"; "IQServiceConfig"; "sb";
   "safe_float"; "bpm_from_res"; "norm_init_progress"; "main"]%string.

(** [name in globals()] *)
Definition in_globals (name : string) : bool :=
  existsb (String.eqb name) module_globals.

(** ** Pipeline state and output records *)

(** The variables of [main] that live across iterations of the frame
    loop. *)
Record state := {
  q : list float;
  last_good_bpm : option float;
  last_good_t : float;
  next_tick : Z;
  debug_keys_printed : bool
}.

(** One iteration's input: the processor's result for the frame and the
    reading of [time.time()] taken after it.  The program looks up keys
    that are strings only, so [res] holds a [dict] by its string keys;
    the keys of the same [dict] that are not strings (integers, say) are
    in [other_keys], and they matter where the keys are sorted. *)
Record frame := {
  res : value;
  other_keys : list Z;
  now : float
}.

(** A key of a [dict]: a string or an integer. *)
Inductive key :=
  | KStr (s : string)
  | KInt (n : Z).

(** One line of output, before rendering. *)
Record record := {
  hms : string;
  unix_s : Z;
  out_bpm : string;
  note : list string
}.

(** What [main] prints or writes. *)
Inductive line :=
  | Header
  | DebugKeys (keys : list key)
  | Row (r : record).

Definition is_row (l : line) : bool :=
  match l with Row _ => true | _ => false end.

(** ['/'.join(note)] *)
Fixpoint join_slash (l : list string) : string :=
  match l with
  | [] => ""
  | [x] => x
  | x :: l' => x ++ "/" ++ join_slash l'
  end%string.

(** The text of a record: [f"{hms},{unix_s},{out_bpm},{'/'.join(note)}"] *)
Definition render (r : record) : string :=
  (hms r ++ "," ++ PyFloat.str_int (unix_s r) ++ "," ++ out_bpm r ++ ","
   ++ join_slash (note r))%string.

(** The variable [ps] after the quality estimate: [None], a
    one-dimensional array, or anything else (a zero-dimensional array, or
    the original object when the conversion raised). *)
Inductive spectrum :=
  | SNone
  | SArray (l : list float)
  | SOther.

(** [deque.append] with [maxlen]: append, then drop the oldest element
    when the length exceeds [maxlen]. *)
Definition deque_append (maxlen : Z) (q : list float) (x : float) : list float :=
  let q' := q ++ [x] in
  if maxlen <? Z.of_nat (length q') then drop 1 q' else q'.

(** The builtin [sorted] on floats without NaN: a stable sort that only
    uses [<]. *)
Fixpoint sorted_insert (x : float) (l : list float) : list float :=
  match l with
  | [] => [x]
  | y :: l' => if PyFloat.lt y x then y :: sorted_insert x l' else x :: l
  end.

Definition sorted (l : list float) : list float :=
  fold_right sorted_insert [] l.

(** The builtin [sum] on floats: left to right from the integer [0]
    (Python 3.12 and later compensate the rounding errors of the partial
    sums; the properties below only use that the sum is a function of the
    buffer). *)
Definition py_sum (l : list float) : float :=
  fold_left PrimFloat.add l 0%float.

(** [len(l)] as the float a division converts it to. *)
Definition len_float (l : list float) : result float :=
  PyFloat.of_int (Z.of_nat (length l)).

(** The smoothed value recomputed on acceptance (source lines 171-174). *)
Definition smoothed (m : smooth_method) (q : list float) : result float :=
  match m with
  | Median =>
      match sorted q !! (length q / 2)%nat with
      | Some x => Ok x
      | None => Raise IndexError
      end
  | Mean => n ← len_float q; PyFloat.div (py_sum q) n
  end.

(** [sorted(res.keys())] for a [dict] with the string keys of [d] and
    the integer keys [others]: strings sort among themselves and integers
    among themselves, and [<] between a string and an integer raises
    [TypeError]. *)
Definition sorted_keys (d : gmap string value) (others : list Z)
    : result (list key) :=
  match map fst (map_to_list d), others with
  | ks, [] => Ok (map KStr (merge_sort (fun a b => Is_true (String.leb a b)) ks))
  | [], ns => Ok (map KInt (merge_sort Z.le ns))
  | _ :: _, _ :: _ => Raise TypeError
  end.

(** The keys of the frame's result sort: it is no [dict], or its keys
    are all strings or all integers. *)
Definition keys_sortable (fr : frame) : bool :=
  match res fr with
  | VDict d =>
      match sorted_keys d (other_keys fr) with Ok _ => true | _ => false end
  | _ => true
  end.

(** ** The frame loop *)

Section Pipeline.

(** The C library's [log10] on finite positive doubles, which
    [math.log10] calls. *)
Variable libm_log10 : float -> float.

(** The local time of day, [datetime.now().strftime("%H:%M:%S")], read
    while the record of the given tick is written. *)
Variable clock_hms : Z -> string.

Variable args : Namespace.

(** [math.log10]: the library's value on finite positive arguments, the
    argument itself for NaN and positive infinity, [ValueError]
    otherwise. *)
Definition math_log10 (x : float) : result float :=
  if PyFloat.isfinite x then
    if PyFloat.gt x 0 then Ok (libm_log10 x) else Raise ValueError
  else if PyFloat.isnan x then Ok x
  else if PyFloat.gt x 0 then Ok x
  else Raise ValueError.

(** The noise set: the strictly positive values outside the window
    around the peak (source lines 127-132). *)
Definition noise_set (ps : list float) (peak_i : Z) : list float :=
  let lo := Z.max 0 (peak_i - 2) in
  let hi := Z.min (Np.size ps) (peak_i + 3) in
  filter (fun x => PyFloat.gt x 0) (Np.outside ps lo hi).

(** Source lines 125-134 for a one-dimensional [ps]; the value of [snr]
    the block leaves. *)
Definition snr_of_spectrum (ps : list float) : result (option float) :=
  if Np.all_isfinite ps && (8 <? Np.size ps) && Np.any_positive ps then
    peak_i ← Np.nanargmax ps;
    let noise := noise_set ps peak_i in
    if 0 <? Np.size noise then
      peak ← Np.item ps peak_i;
      l ← math_log10 (peak / Np.median noise)%float;
      Ok (Some (10 * l)%float)
    else Ok None
  else Ok None.

(** Source lines 119-136: the variables [ps] and [snr] after the
    [try] statement. *)
Definition spectrum_snr (res : value) : spectrum * option float :=
  match (match res with VDict d => dict_get d "power_spectrum" | _ => VNone end) with
  | VNone => (SNone, None)
  | v =>
      match Np.asarray v with
      | Ok (Np.Arr1 ps) => (SArray ps, try_except (snr_of_spectrum ps) None)
      | _ => (SOther, None)
      end
  end.

(** Source lines 138-139: the reported value when the spectrum gave
    none. *)
Definition snr_fallback (res : value) (snr : option float) : option float :=
  match snr with
  | Some _ => snr
  | None =>
      safe_float (match res with VDict d => dict_get d "snr" | _ => VBool false end)
  end.

Definition bpm_lo : float := (60 * f_low args)%float.
Definition bpm_hi : float := (60 * f_high args)%float.

(** [bpm_lo <= raw_bpm <= bpm_hi] *)
Definition in_band (raw_bpm : float) : bool :=
  PyFloat.le bpm_lo raw_bpm && PyFloat.le raw_bpm bpm_hi.

(** Source lines 145-149. *)
Definition basic_valid (ip snr raw_bpm : option float) : bool :=
  match ip with None => true | Some ip => PyFloat.ge ip 0.99 end
  && match snr with None => true | Some snr => PyFloat.ge snr (snr_min args) end
  && match raw_bpm with None => false | Some raw => in_band raw end.

(** The last element but [k] of a list: [l[-1 - k]]. *)
Definition from_end (l : list float) (k : nat) : result float :=
  match rev l !! k with
  | Some x => Ok x
  | None => Raise IndexError
  end.

(** Source lines 154-158, inside the [if] of line 153. *)
Definition prominence_body (ps : spectrum) (valid : bool) : result bool :=
  match ps with
  | SArray l =>
      tops ← Np.top3 l;
      if (2 <=? length tops)%nat then
        t2 ← from_end tops 1;
        if PyFloat.gt t2 0 then
          t1 ← from_end tops 0;
          if PyFloat.lt (t1 / t2)%float (prominence_min args)
          then Ok false else Ok valid
        else Ok valid
      else Ok valid
  | _ => Raise ValueError
  end.

(** Source lines 152-160. *)
Definition prominence_gate (ps : spectrum) (valid : bool) : bool :=
  try_except
    (if valid
        && match ps with SNone => false | _ => true end
        && in_globals "np"
     then prominence_body ps valid
     else Ok valid)
    valid.

(** Source lines 163-166. *)
Definition step_gate (last_good_bpm raw_bpm : option float) (valid : bool)
    : result bool :=
  match last_good_bpm with
  | Some last_good =>
      if valid then
        match raw_bpm with
        | None => Raise TypeError
        | Some raw =>
            r ← PyFloat.div raw (PyFloat.max 1e-6 last_good);
            if PyFloat.gt (abs (raw - last_good))%float (max_step_bpm args)
            then Ok false
            else if PyFloat.gt r (max_ratio args) then Ok false
            else
              inv ← PyFloat.div 1 (max_ratio args);
              if PyFloat.lt r inv then Ok false else Ok valid
        end
      else Ok valid
  | None => Ok valid
  end.

(** Source lines 169-175. *)
Definition update (st : state) (raw_bpm : option float) (valid : bool)
    (now : float) : result state :=
  if valid then
    match raw_bpm with
    | None => Raise TypeError
    | Some raw =>
        let q' := deque_append (smooth_window args) (q st) raw in
        v ← smoothed (smooth args) q';
        Ok {| q := q'; last_good_bpm := Some v; last_good_t := now;
              next_tick := next_tick st;
              debug_keys_printed := debug_keys_printed st |}
    end
  else Ok st.

(** The per-frame variables of the loop body that the emitter reads. *)
Record verdict := {
  ip : option float;
  snr : option float;
  raw_bpm : option float;
  valid : bool
}.

(** Source line 183. *)
Definition held (st : state) (now : float) : bool :=
  match last_good_bpm st with
  | Some _ => PyFloat.le (now - last_good_t st)%float (hold_last_for args)
  | None => false
  end.

Definition opt_token (label : string) (v : option float) : list string :=
  match v with
  | Some x => [(label ++ PyFloat.format_2f x)%string]
  | None => []
  end.

(** Source lines 196-200. *)
Definition debug_tokens (res : value) : list string :=
  if debug args then
    let field k := match res with VDict d => dict_get d k | _ => VBool false end in
    let fe := safe_float (field "f_est"%string) in
    let fd := safe_float (field "f_dft_est"%string) in
    opt_token "f_est=" (option_map (fun x => (x * 60)%float) fe)
    ++ opt_token "f_dft=" (option_map (fun x => (x * 60)%float) fd)
  else [].

(** Source lines 179-202: the record of one tick. *)
Definition make_record (st : state) (fr : frame) (vd : verdict) (tick : Z)
    : record :=
  {| hms := clock_hms tick;
     unix_s := tick;
     out_bpm :=
       match last_good_bpm st with
       | Some v => if held st (now fr) then PyFloat.format_2f v else ""
       | None => ""
       end%string;
     note :=
       (if held st (now fr) then ["held=1"%string] else [])
       ++ opt_token "snr=" (snr vd)
       ++ opt_token "init=" (ip vd)
       ++ match raw_bpm vd with
          | Some raw =>
              if negb (valid vd) && in_band raw
              then opt_token "raw=" (Some raw) else []
          | None => []
          end
       ++ debug_tokens (res fr) |}.

(** Source lines 178-205, [while now >= next_tick], with a bound on the
    number of iterations: the records written and the final
    [next_tick]. *)
Fixpoint emit_loop (fuel : nat) (st : state) (fr : frame) (vd : verdict)
    (next_tick : Z) : result (list record * Z) :=
  if PyFloat.ge_int (now fr) next_tick then
    match fuel with
    | O => Hang
    | S fuel' =>
        '(rs, nt) ← emit_loop fuel' st fr vd (next_tick + 1);
        Ok (make_record st fr vd next_tick :: rs, nt)
    end
  else Ok ([], next_tick).

(** The number of iterations the loop makes for a finite [now]. *)
Definition ticks_due (now : float) (next_tick : Z) : nat :=
  match PyFloat.floor now with
  | Ok fl => Z.to_nat (fl + 1 - next_tick)
  | _ => O
  end.

(** The emitter.  With [now] positive infinity the loop never ends. *)
Definition emit (st : state) (fr : frame) (vd : verdict)
    : result (list record * Z) :=
  emit_loop (ticks_due (now fr) (next_tick st)) st fr vd (next_tick st).

(** Source lines 110-112: the line printed and the flag afterwards, or
    the exception of [sorted]. *)
Definition debug_keys (st : state) (fr : frame) : result (list line * bool) :=
  match res fr with
  | VDict d =>
      if debug args && negb (debug_keys_printed st)
      then ks ← sorted_keys d (other_keys fr); Ok ([DebugKeys ks], true)
      else Ok ([], debug_keys_printed st)
  | _ => Ok ([], debug_keys_printed st)
  end.

(** Source lines 115-160: the extracted values and the verdict of the
    warm-up, quality, band and prominence gates. *)
Definition gates_1_4 (res : value) : verdict :=
  let ip := norm_init_progress res in
  let raw_bpm := bpm_from_res res in
  let '(ps, snr0) := spectrum_snr res in
  let snr := snr_fallback res snr0 in
  {| ip := ip; snr := snr; raw_bpm := raw_bpm;
     valid := prominence_gate ps (basic_valid ip snr raw_bpm) |}.

(** Source lines 115-166: the verdict of all five gates. *)
Definition gate (st : state) (fr : frame) : result verdict :=
  let vd := gates_1_4 (res fr) in
  valid' ← step_gate (last_good_bpm st) (raw_bpm vd) (valid vd);
  Ok {| ip := ip vd; snr := snr vd; raw_bpm := raw_bpm vd; valid := valid' |}.

(** Source lines 115-205: the records an iteration writes and the state
    it leaves. *)
Definition process (st : state) (fr : frame) : result (list record * state) :=
  vd ← gate st fr;
  st1 ← update st (raw_bpm vd) (valid vd) (now fr);
  '(rs, nt) ← emit st1 fr vd;
  Ok (rs, {| q := q st1; last_good_bpm := last_good_bpm st1;
             last_good_t := last_good_t st1; next_tick := nt;
             debug_keys_printed := debug_keys_printed st1 |}).

(** One iteration of [while True] (source lines 107-205): what it prints
    and how it ends. *)
Definition loop_body (st : state) (fr : frame) : list line * result state :=
  match debug_keys st fr with
  | Ok (dbg, printed) =>
      match process st fr with
      | Ok (rs, st') =>
          (dbg ++ map Row rs,
           Ok {| q := q st'; last_good_bpm := last_good_bpm st';
                 last_good_t := last_good_t st'; next_tick := next_tick st';
                 debug_keys_printed := printed |})
      | Raise e => (dbg, Raise e)
      | Hang => (dbg, Hang)
      end
  | Raise e => ([], Raise e)
  | Hang => ([], Hang)
  end.

(** The frame loop over the frames that arrive before the interrupt:
    everything printed, and the state at the interrupt or the way the
    loop ended before it. *)
Fixpoint run (st : state) (frames : list frame) : list line * result state :=
  match frames with
  | [] => ([], Ok st)
  | fr :: frames' =>
      match loop_body st fr with
      | (ls, Ok st') => let '(ls', r) := run st' frames' in (ls ++ ls', r)
      | (ls, r) => (ls, r)
      end
  end.

(** The state when the loop is entered (source lines 97-103).
    [deque(maxlen=n)] raises on a negative [n]; [math.floor] on a
    start time that is not finite. *)
Definition init_state (t0 : float) : result state :=
  if smooth_window args <? 0 then Raise ValueError
  else
    fl ← PyFloat.floor t0;
    Ok {| q := []; last_good_bpm := None; last_good_t := 0%float;
          next_tick := fl + 1; debug_keys_printed := false |}.

(** What a run of [main] leaves behind. *)
Record trace := {
  stdout : list line;
  csv : option (list line);
  outcome : result unit
}.

(** [main] from line 90 on (the session set-up before it talks to the
    sensor only), for a start time [t0] and the frames that arrive
    before the interrupt. *)
Definition main (t0 : float) (frames : list frame) : trace :=
  let printed := [Header] in
  match getattr args "out_csv" with
  | Raise e => {| stdout := printed; csv := None; outcome := Raise e |}
  | Hang => {| stdout := printed; csv := None; outcome := Hang |}
  | Ok out_csv =>
      let csv_fh := if truthy out_csv then Some [Header] else None in
      match init_state t0 with
      | Ok st =>
          let '(ls, r) := run st frames in
          {| stdout := printed ++ ls;
             csv := option_map
                      (fun written =>
                         written ++ filter is_row ls)
                      csv_fh;
             outcome := _ ← r; Ok tt |}
      | Raise e => {| stdout := printed; csv := csv_fh; outcome := Raise e |}
      | Hang => {| stdout := printed; csv := csv_fh; outcome := Hang |}
      end
  end.

End Pipeline.

(** ** Notions the properties are stated with *)

(** The records among the lines printed. *)
Definition rows (ls : list line) : list record :=
  omap (fun l => match l with Row r => Some r | _ => None end) ls.

(** The lower-middle element of the sorted buffer, as the specification
    words the median of an even count: of [2k] sorted values, the [k]-th
    smallest. *)
Definition spec_lower_middle (buf : list float) : option float :=
  sorted buf !! (length buf / 2 - 1)%nat.

(** The rejection condition of the plausible-step gate as the
    specification words it, with [r = raw / max(eps, last_good)]. *)
Definition spec_step_rejects (max_step max_ratio last_good raw : float) : bool :=
  let r := (raw / PyFloat.max 1e-6 last_good)%float in
  PyFloat.gt (abs (raw - last_good))%float max_step
  || PyFloat.gt r max_ratio
  || PyFloat.lt r (1 / max_ratio)%float.

Fixpoint all_digits (s : string) : bool :=
  match s with
  | EmptyString => true
  | String c s' => PyFloat.is_digit c && all_digits s'
  end.





(** The noise set in words: the bins before the window of two places to
    either side of the peak, then the bins after it, in the order of the
    spectrum, of which the strictly positive ones are kept. *)
Definition spec_noise_set (ps : list float) (peak_i : Z) : list float :=
  filter (fun x => PyFloat.gt x 0)
    (take (Z.to_nat (peak_i - 2)) ps ++ drop (Z.to_nat (peak_i + 3)) ps).

(** The quality the specification's primary path describes for a
    spectrum: ten times the base-10 logarithm of the peak over the median
    of the noise set. *)
Definition spec_quality (log10 : float -> float) (ps : list float) : option float :=
  match Np.nanargmax ps with
  | Ok peak_i =>
      match Np.item ps peak_i with
      | Ok peak =>
          Some (10 * log10 (peak / Np.median (noise_set ps peak_i)))%float
      | _ => None
      end
  | _ => None
  end.

(** The raw values of the frames the gate accepts in a run of the loop
    from a state, oldest first. *)
Fixpoint accepted (libm_log10 : float -> float) (clock_hms : Z -> string)
    (args : Namespace) (st : state) (frames : list frame) : list float :=
  match frames with
  | [] => []
  | fr :: frames' =>
      match gate libm_log10 args st fr, loop_body libm_log10 clock_hms args st fr with
      | Ok vd, (_, Ok st') =>
          match raw_bpm vd with
          | Some raw => if valid vd then [raw] else []
          | None => []
          end ++ accepted libm_log10 clock_hms args st' frames'
      | _, _ => []
      end
  end.

(** The pipeline state after a frame is consistent: nothing accepted yet,
    or the smoothed value is the configured reduction of the buffer. *)
Definition consistent (args : Namespace) (st : state) : Prop :=
  (q st = [] /\ last_good_bpm st = None)
  \/ (q st <> [] /\ exists v, smoothed (smooth args) (q st) = Ok v
                              /\ last_good_bpm st = Some v).

(** The arithmetic mean of the buffer: its values added in buffer order,
    starting from 0.0, divided by their count. *)
Definition spec_mean (buf : list float) (v : float) : Prop :=
  exists n, PyFloat.of_int (Z.of_nat (length buf)) = Ok n
            /\ v = (fold_left PrimFloat.add buf 0 / n)%float.

(** The upper-middle median of the buffer: the element at index
    [len // 2] of an ascending arrangement of its values. *)
Definition spec_upper_median (buf : list float) (v : float) : Prop :=
  exists l, l ≡ₚ buf
            /\ Sorted (fun a b => PyFloat.lt b a = false) l
            /\ l !! (length buf / 2)%nat = Some v.

(** The checks of the gate that decide a verdict, on the values of the
    frame and the smoothed value before it: warm-up, quality, band and
    plausible step.  The prominence check has no place here. *)
Definition spec_checks (args : Namespace) (last_good : option float)
    (vd : verdict) (raw : float) : Prop :=
  (exists p, ip vd = Some p /\ PyFloat.ge p 0.99 = true)
  /\ (forall s, snr vd = Some s -> PyFloat.ge s (snr_min args) = true)
  /\ raw_bpm vd = Some raw
  /\ in_band args raw = true
  /\ (forall lg, last_good = Some lg ->
        spec_step_rejects (max_step_bpm args) (max_ratio args) lg raw = false).

(** ** Instances for running examples *)

(** The defaults of the command line. *)
Definition default_args (h : string) : Namespace :=
  {| host := h; r0 := 0.40; r1 := 0.60; rate := 12.0; n_dft := 15;
     f_low := 0.12; f_high := 0.70; snr_min := 10.0; hold_last_for := 5.0;
     smooth_window := 5; smooth := Median; prominence_min := 1.6;
     max_step_bpm := 6.0; max_ratio := 1.5; debug := false; out := None |}.

(** A logarithm by series, [ln m = 2 atanh ((m - 1) / (m + 1))] on the
    mantissa, to run examples with; accurate to a few units in the last
    place, not bit for bit the C library's. *)
Fixpoint atanh_terms (n : nat) (t2 power k acc : float) : float :=
  match n with
  | O => acc
  | S n' =>
      atanh_terms n' t2 (power * t2)%float (k + 2)%float (acc + power / k)%float
  end.

Definition series_log10 (x : float) : float :=
  let '(m0, e0) := FloatOps.Z.frexp x in
  let '(m, e) :=
    if PyFloat.lt m0 0.7071067811865476 then ((2 * m0)%float, e0 - 1)
    else (m0, e0) in
  let t := ((m - 1) / (m + 1))%float in
  let ln_m := (2 * atanh_terms 30 (t * t) t 1 0)%float in
  let e_f := match PyFloat.of_int e with Ok f => f | _ => 0%float end in
  ((e_f * 0.6931471805599453 + ln_m) / 2.302585092994046)%float.

(** A frame whose only field is a breathing rate in bpm. *)
Definition bpm_frame (bpm t : float) : frame :=
  {| res := VDict (<["bpm"%string := VFloat bpm]> ∅); other_keys := [];
     now := t |}.

(** A clock that stands still at noon. *)
Definition noon (tick : Z) : string := "12:00:00".

(** ** Reading the output *)

(** [s.startswith(p)] *)
Fixpoint starts_with (p s : string) : bool :=
  match p, s with
  | EmptyString, _ => true
  | String a p', String b s' => Ascii.eqb a b && starts_with p' s'
  | String _ _, EmptyString => false
  end.

(** A note has a token that begins with the label. *)
Definition has_token (label : string) (note : list string) : bool :=
  existsb (starts_with label) note.

(** The number of occurrences of a character in a text. *)
Fixpoint count_char (c : ascii) (s : string) : nat :=
  match s with
  | EmptyString => O
  | String b s' => (if Ascii.eqb b c then 1 else 0) + count_char c s'
  end.

Definition comma : ascii := ","%char.

Definition is_debug (l : line) : bool :=
  match l with DebugKeys _ => true | _ => false end.

(** The last [n] elements of a list (all of it when it is shorter). *)
Definition take_last {A} (n : nat) (l : list A) : list A :=
  drop (length l - n) l.

(** ** The first version of the logger, [a111_breathing_rasp_0902_v1.py] *)

Module V1.

(** No test for [bool] here: [float(True)] is [1.0]. *)
Definition safe_float (x : value) : option float :=
  try_except
    (v ← py_float x;
     Ok (if PyFloat.isfinite v then Some v else None))
    None.

Fixpoint for_keys (d : gmap string value) (f : float -> float)
    (ks : list string) : option float :=
  match ks with
  | [] => None
  | k :: ks' =>
      match safe_float (dict_get d k) with
      | Some v => Some (f v)
      | None => for_keys d f ks'
      end
  end.

Definition bpm_from_res (res : value) : option float :=
  match res with
  | VDict d =>
      match for_keys d (fun v => (v * 60)%float) hz_keys with
      | Some r => Some r
      | None => for_keys d (fun v => v) bpm_keys
      end
  | _ => None
  end.

(** [isinstance(res, dict) and res.get(k)]: the field of a [dict], and
    [False] for anything else. *)
Definition field_or_false (res : value) (k : string) : value :=
  match res with
  | VDict d => dict_get d k
  | _ => VBool false
  end.

Definition norm_init_progress (res : value) : option float :=
  match safe_float (field_or_false res "init_progress") with
  | None => Some 1%float
  | Some ip => Some (if PyFloat.gt ip 1 then (ip / 100)%float else ip)
  end.

(** The options of the first version. *)
Record Namespace := {
  host : string;
  r0 : float;
  r1 : float;
  rate : float;
  n_dft : float;
  f_low : float;
  f_high : float;
  snr_min : float;
  hold_last_for : float
}.

(** The options when only [--host] is given (source lines 42-50). *)
Definition default_args (h : string) : Namespace :=
  {| host := h; r0 := 0.40; r1 := 0.60; rate := 12; n_dft := 15;
     f_low := 0.08; f_high := 0.70; snr_min := 10; hold_last_for := 5 |}.

Definition smooth_window : Z := 5.

(** The variables of [main] that live across iterations. *)
Record state := {
  q : list float;
  last_good_bpm : option float;
  last_good_t : float;
  next_tick : Z;
  first : bool
}.

Section Loop.

Variable clock_hms : Z -> string.
Variable args : Namespace.

(** Source lines 93-95: the line printed and the flag afterwards, or the
    exception of [sorted]. *)
Definition debug_keys (st : state) (fr : frame) : result (list line * bool) :=
  match res fr with
  | VDict d =>
      if first st
      then ks ← sorted_keys d (other_keys fr); Ok ([DebugKeys ks], false)
      else Ok ([], first st)
  | _ => Ok ([], first st)
  end.

(** Source lines 104-108. *)
Definition valid_of (ip snr raw_bpm : option float) : bool :=
  match ip with None => true | Some ip => PyFloat.ge ip 0.99 end
  && match snr with None => true | Some snr => PyFloat.ge snr (snr_min args) end
  && match raw_bpm with
     | None => false
     | Some raw =>
         PyFloat.le (60 * f_low args)%float raw
         && PyFloat.le raw (60 * f_high args)%float
     end.

(** Source lines 110-113. *)
Definition update (st : state) (raw_bpm : option float) (valid : bool)
    (now : float) : result state :=
  if valid then
    match raw_bpm with
    | None => Raise TypeError
    | Some raw =>
        let q' := deque_append smooth_window (q st) raw in
        v ← smoothed Mean q';
        Ok {| q := q'; last_good_bpm := Some v; last_good_t := now;
              next_tick := next_tick st; first := first st |}
    end
  else Ok st.

(** Source lines 117-132: the record of the tick. *)
Definition make_record (st : state) (now : float)
    (ip snr raw_bpm : option float) (valid : bool) (tick : Z) : record :=
  {| hms := clock_hms tick;
     unix_s := tick;
     out_bpm :=
       match last_good_bpm st with
       | Some v =>
           if PyFloat.le (now - last_good_t st)%float (hold_last_for args)
           then PyFloat.format_2f v else ""
       | None => ""
       end%string;
     note :=
       match snr with Some x => [("snr=" ++ PyFloat.format_2f x)%string] | None => [] end
       ++ match ip with Some x => [("init=" ++ PyFloat.format_2f x)%string] | None => [] end
       ++ match raw_bpm with
          | Some raw =>
              if negb valid then [("raw=" ++ PyFloat.format_2f raw)%string] else []
          | None => []
          end |}.

(** Source lines 97-134: the records an iteration writes (one at most, by
    the [if] of line 116) and the state it leaves. *)
Definition process (st : state) (fr : frame) : result (list record * state) :=
  let snr := safe_float (field_or_false (res fr) "snr") in
  let ip := norm_init_progress (res fr) in
  let raw_bpm := bpm_from_res (res fr) in
  let valid := valid_of ip snr raw_bpm in
  st1 ← update st raw_bpm valid (now fr);
  if PyFloat.ge_int (now fr) (next_tick st1) then
    Ok ([make_record st1 (now fr) ip snr raw_bpm valid (next_tick st1)],
        {| q := q st1; last_good_bpm := last_good_bpm st1;
           last_good_t := last_good_t st1; next_tick := next_tick st1 + 1;
           first := first st1 |})
  else Ok ([], st1).

(** One iteration of [while True] (source lines 90-134). *)
Definition loop_body (st : state) (fr : frame) : list line * result state :=
  match debug_keys st fr with
  | Ok (dbg, first') =>
      match process st fr with
      | Ok (rs, st') =>
          (dbg ++ map Row rs,
           Ok {| q := q st'; last_good_bpm := last_good_bpm st';
                 last_good_t := last_good_t st'; next_tick := next_tick st';
                 first := first' |})
      | Raise e => (dbg, Raise e)
      | Hang => (dbg, Hang)
      end
  | Raise e => ([], Raise e)
  | Hang => ([], Hang)
  end.

Fixpoint run (st : state) (frames : list frame) : list line * result state :=
  match frames with
  | [] => ([], Ok st)
  | fr :: frames' =>
      match loop_body st fr with
      | (ls, Ok st') => let '(ls', r) := run st' frames' in (ls ++ ls', r)
      | (ls, r) => (ls, r)
      end
  end.

(** The state when the loop is entered (source lines 78-86). *)
Definition init_state (t0 : float) : result state :=
  fl ← PyFloat.floor t0;
  Ok {| q := []; last_good_bpm := None; last_good_t := 0%float;
        next_tick := fl + 1; first := true |}.

(** [main] from line 75 on: what it prints for a start time and the
    frames that arrive before the interrupt, and how the loop ended. *)
Definition main (t0 : float) (frames : list frame) : list line * result unit :=
  match init_state t0 with
  | Ok st => let '(ls, r) := run st frames in (Header :: ls, _ ← r; Ok tt)
  | Raise e => ([Header], Raise e)
  | Hang => ([Header], Hang)
  end.

(** The verdict of lines 104-108 on a result; it does not depend on the
    state. *)
Definition accepts (res : value) : bool :=
  valid_of (norm_init_progress res) (safe_float (field_or_false res "snr"))
    (bpm_from_res res).

(** The raw values of the frames the loop accepts, oldest first. *)
Definition accepted (frames : list frame) : list float :=
  omap (fun fr => if accepts (res fr) then bpm_from_res (res fr) else None) frames.

(** The band test of line 107. *)
Definition in_band (x : float) : bool :=
  PyFloat.le (60 * f_low args)%float x && PyFloat.le x (60 * f_high args)%float.

End Loop.

End V1.

(** * Properties *)

(** ** The order of floats *)

Ltac cmp_cases :=
  repeat match goal with
  | |- context [Pos.compare_cont Eq ?a ?b] =>
      change (Pos.compare_cont Eq a b) with (Pos.compare a b)
  | H : context [Pos.compare_cont Eq ?a ?b] |- _ =>
      change (Pos.compare_cont Eq a b) with (Pos.compare a b) in H
  end;
  repeat match goal with
  | H : context [Z.compare ?a ?b] |- _ => destruct (Z.compare_spec a b)
  | H : context [Pos.compare ?a ?b] |- _ => destruct (Pos.compare_spec a b)
  | |- context [Z.compare ?a ?b] => destruct (Z.compare_spec a b)
  | |- context [Pos.compare ?a ?b] => destruct (Pos.compare_spec a b)
  end;
  simpl in *; try discriminate; try reflexivity; try (exfalso; lia).

Lemma SFltb_asym (a b : spec_float) : SFltb a b = true -> SFltb b a = false.
Proof.
  unfold SFltb, SFcompare.
  destruct a as [sa|sa| |sa ma ea], b as [sb|sb| |sb mb eb];
    try destruct sa; try destruct sb; try discriminate; try reflexivity;
    cmp_cases.
Qed.

Lemma SFltb_trans (a b c : spec_float) :
  SFltb a b = true -> SFltb b c = true -> SFltb a c = true.
Proof.
  unfold SFltb, SFcompare.
  destruct a as [sa|sa| |sa ma ea], b as [sb|sb| |sb mb eb], c as [sc|sc| |sc mc ec];
    try destruct sa; try destruct sb; try destruct sc;
    try discriminate; try reflexivity; cmp_cases.
Qed.

(** [<] on floats is asymmetric and transitive, NaN included. *)
Lemma lt_asym (x y : float) : PyFloat.lt x y = true -> PyFloat.lt y x = false.
Proof. unfold PyFloat.lt. rewrite !FloatAxioms.ltb_spec. apply SFltb_asym. Qed.

Lemma lt_trans (x y z : float) :
  PyFloat.lt x y = true -> PyFloat.lt y z = true -> PyFloat.lt x z = true.
Proof. unfold PyFloat.lt. rewrite !FloatAxioms.ltb_spec. apply SFltb_trans. Qed.

Lemma lt_irrefl (x : float) : PyFloat.lt x x = false.
Proof.
  destruct (PyFloat.lt x x) eqn:H; [|reflexivity].
  now rewrite (lt_asym _ _ H) in H.
Qed.

(** ** Numeric extraction *)

Lemma for_keys_first (d : gmap string value) (f : float -> float)
    (before after : list string) (k : string) (v : float) :
  Forall (fun k' => safe_float (dict_get d k') = None) before ->
  safe_float (dict_get d k) = Some v ->
  for_keys d f (before ++ k :: after) = Some (f v).
Proof.
  intros Hbefore Hk.
  induction Hbefore as [|k' before' Hk' _ IH]; simpl.
  - now rewrite Hk.
  - now rewrite Hk'.
Qed.

Lemma for_keys_none (d : gmap string value) (f : float -> float)
    (ks : list string) :
  Forall (fun k => safe_float (dict_get d k) = None) ks ->
  for_keys d f ks = None.
Proof.
  induction 1 as [|k ks' Hk _ IH]; simpl; [reflexivity|].
  now rewrite Hk.
Qed.

(** C9. [bpm_from_res] scans the hertz-valued keys in their fixed order and
    returns sixty times the first value [safe_float] accepts; only when no
    hertz key yields a value does it scan the bpm-valued keys, returning
    the first value unmultiplied; a frame with a hertz field 0.25 and a bpm
    field 99 gives 15.0, whichever hertz and bpm keys carry them. *)
Theorem bpm_from_res_priority :
  (forall (d : gmap string value) before after k v,
      hz_keys = before ++ k :: after ->
      Forall (fun k' => safe_float (dict_get d k') = None) before ->
      safe_float (dict_get d k) = Some v ->
      bpm_from_res (VDict d) = Some (v * 60)%float)
  /\ (forall (d : gmap string value) before after k v,
      Forall (fun k' => safe_float (dict_get d k') = None) hz_keys ->
      bpm_keys = before ++ k :: after ->
      Forall (fun k' => safe_float (dict_get d k') = None) before ->
      safe_float (dict_get d k) = Some v ->
      bpm_from_res (VDict d) = Some v)
  /\ (forall (d : gmap string value),
      Forall (fun k' => safe_float (dict_get d k') = None) (hz_keys ++ bpm_keys) ->
      bpm_from_res (VDict d) = None)
  /\ Forall (fun hk => Forall (fun bk =>
        bpm_from_res (VDict (<[hk := VFloat 0.25]> (<[bk := VInt 99]> ∅)))
        = Some 15%float) bpm_keys) hz_keys.
Proof.
  repeat split.
  - intros d before after k v Hsplit Hbefore Hk.
    unfold bpm_from_res. rewrite Hsplit.
    now rewrite (for_keys_first d _ before after k v Hbefore Hk).
  - intros d before after k v Hhz Hsplit Hbefore Hk.
    unfold bpm_from_res.
    rewrite (for_keys_none d _ hz_keys Hhz), Hsplit.
    exact (for_keys_first d _ before after k v Hbefore Hk).
  - intros d Hall. apply Forall_app in Hall as [Hhz Hbpm].
    unfold bpm_from_res.
    now rewrite (for_keys_none d _ hz_keys Hhz), (for_keys_none d _ bpm_keys Hbpm).
  - repeat constructor; vm_compute; reflexivity.
Qed.

(** The hertz field wins over a bpm field in a concrete frame. *)
Lemma bpm_from_res_priority_witness :
  bpm_from_res (VDict (<["f_dft_est"%string := VFloat 0.25]>
                         (<["bpm"%string := VFloat 99]> ∅)))
  = Some (0.25 * 60)%float.
Proof.
  apply (proj1 bpm_from_res_priority _ ["f_est"%string]
           ["breathing_rate_hz"; "freq_hz"; "f_hat"; "resp_rate_hz"]%string
           "f_dft_est"%string 0.25%float).
  - reflexivity.
  - repeat constructor.
  - vm_compute. reflexivity.
Defined.

(** ** Results *)

Lemma bind_Ok {A B} (m : result A) (k : A -> result B) (b : B) :
  m ≫= k = Ok b -> exists a, m = Ok a /\ k a = Ok b.
Proof.
  destruct m as [a| |]; simpl; intros H; try discriminate.
  now exists a.
Qed.

Ltac bind_inv H :=
  let a := fresh "a" in
  let Ha := fresh "H" a in
  apply bind_Ok in H as (a & Ha & H).

(** ** Smoothing *)

Lemma length_sorted_insert (x : float) (l : list float) :
  length (sorted_insert x l) = S (length l).
Proof.
  induction l as [|y l IH]; simpl; [reflexivity|].
  destruct (PyFloat.lt y x); simpl; congruence.
Qed.

Lemma length_sorted (l : list float) : length (sorted l) = length l.
Proof.
  induction l as [|x l IH]; simpl; [reflexivity|].
  now rewrite length_sorted_insert, IH.
Qed.

Lemma sorted_insert_perm (x : float) (l : list float) :
  sorted_insert x l ≡ₚ x :: l.
Proof.
  induction l as [|y l IH]; simpl; [reflexivity|].
  destruct (PyFloat.lt y x); [|reflexivity].
  rewrite IH. apply Permutation_swap.
Qed.

(** [sorted] rearranges the buffer: the smoothed median is one of the
    buffered values. *)
Lemma sorted_perm (l : list float) : sorted l ≡ₚ l.
Proof.
  induction l as [|x l IH]; simpl; [reflexivity|].
  now rewrite sorted_insert_perm, IH.
Qed.

(** No element of the sorted buffer is below the one before it. *)
Lemma sorted_insert_ascending (x : float) (l : list float) :
  Sorted (fun a b => PyFloat.lt b a = false) l ->
  Sorted (fun a b => PyFloat.lt b a = false) (sorted_insert x l).
Proof.
  induction l as [|y l IH]; intros Hs; simpl.
  - repeat constructor.
  - destruct (PyFloat.lt y x) eqn:Hyx.
    + apply Sorted_inv in Hs as [Hs Hhd].
      constructor; [now apply IH|].
      destruct l as [|z l]; simpl.
      * constructor. now apply lt_asym.
      * destruct (PyFloat.lt z x); constructor.
        -- now inversion Hhd.
        -- now apply lt_asym.
    + constructor; [exact Hs|]. now constructor.
Qed.

Lemma sorted_ascending (l : list float) :
  Sorted (fun a b => PyFloat.lt b a = false) (sorted l).
Proof.
  induction l as [|x l IH]; simpl; [constructor|].
  now apply sorted_insert_ascending.
Qed.

Lemma Sorted_adjacent (R : float -> float -> Prop) (l : list float) (i : nat)
    (a b : float) :
  Sorted R l -> l !! i = Some a -> l !! S i = Some b -> R a b.
Proof.
  intros Hs. revert i. induction Hs as [|x l Hs IH Hhd]; intros i Ha Hb; [easy|].
  destruct i as [|i]; simpl in *.
  - injection Ha as ->. destruct l as [|y l]; [easy|].
    simpl in Hb. injection Hb as ->. now inversion Hhd.
  - eapply IH; eassumption.
Qed.

(** On a non-empty buffer the median is defined, and is the element at
    index [len // 2] of the sorted buffer. *)
Lemma median_total :
  (forall buf : list float, buf <> [] -> exists x, smoothed Median buf = Ok x)
  /\ (forall buf x, smoothed Median buf = Ok x ->
        sorted buf !! (length buf / 2)%nat = Some x).
Proof.
  split.
  - intros buf Hne.
    destruct (lookup_lt_is_Some_2 (sorted buf) (length buf / 2)) as [x Hx].
    { rewrite length_sorted. destruct buf as [|y buf]; [congruence|].
      apply Nat.div_lt; simpl; lia. }
    exists x. unfold smoothed. now rewrite Hx.
  - intros buf x. unfold smoothed.
    destruct (sorted buf !! (length buf / 2)%nat); [congruence | discriminate].
Qed.

(** C2, as the code has it. When the smoothing method is median, the
    smoothed value is the element at index [len // 2] of the sorted buffer;
    for an even number [2k] of values that is the upper of the two middle
    elements (index [k], not below the lower-middle one at index [k - 1]);
    for the buffer [10, 12, 14, 16] the smoothed value is 14. *)
Theorem median_upper_middle :
  (forall buf : list float, buf <> [] ->
     exists x, smoothed Median buf = Ok x
               /\ sorted buf !! (length buf / 2)%nat = Some x)
  /\ (forall (buf : list float) (k : nat),
     length buf = (2 * k)%nat -> (0 < k)%nat ->
     exists lower upper,
       sorted buf !! (k - 1)%nat = Some lower
       /\ sorted buf !! k = Some upper
       /\ PyFloat.lt upper lower = false
       /\ spec_lower_middle buf = Some lower
       /\ smoothed Median buf = Ok upper)
  /\ smoothed Median [10; 12; 14; 16]%float = Ok 14%float.
Proof.
  split; [|split].
  - intros buf Hne. destruct (proj1 median_total buf Hne) as [x Hx].
    exists x. split; [exact Hx | exact (proj2 median_total buf x Hx)].
  - intros buf k Hlen Hk.
    assert (Hhalf : (length buf / 2 = k)%nat).
    { rewrite Hlen, Nat.mul_comm. apply Nat.div_mul. lia. }
    destruct (lookup_lt_is_Some_2 (sorted buf) (k - 1)) as [lower Hlo].
    { rewrite length_sorted. lia. }
    destruct (lookup_lt_is_Some_2 (sorted buf) k) as [upper Hup].
    { rewrite length_sorted. lia. }
    exists lower, upper. repeat split; try assumption.
    + apply (Sorted_adjacent _ (sorted buf) (k - 1) lower upper
               (sorted_ascending buf) Hlo).
      now replace (S (k - 1)) with k by lia.
    + unfold spec_lower_middle. now rewrite Hhalf.
    + unfold smoothed. now rewrite Hhalf, Hup.
  - vm_compute. reflexivity.
Qed.

(** C2, as the specification has it, fails on the buffer of its own
    example: the lower-middle element is 12, the smoothed value is 14. *)
Lemma median_lower_middle_counterexample :
  let buf := [10; 12; 14; 16]%float in
  Nat.even (length buf) = true
  /\ spec_lower_middle buf = Some 12%float
  /\ smoothed Median buf <> Ok 12%float.
Proof.
  repeat split.
  intros H.
  apply (f_equal (fun r => match r with Ok x => PrimFloat.eqb x 12 | _ => true end)) in H.
  vm_compute in H. discriminate.
Qed.

(** ** The clock against the tick cursor *)

Lemma ge_int_floor (x : float) (fl n : Z) :
  PyFloat.floor x = Ok fl -> PyFloat.ge_int x n = (n <=? fl).
Proof.
  unfold PyFloat.floor, PyFloat.ge_int.
  destruct (Prim2SF x); intros H; inversion H; reflexivity.
Qed.

(** The comparison [now >= n] is downward closed in [n]. *)
Lemma ge_int_mono (x : float) (n n' : Z) :
  n' <= n -> PyFloat.ge_int x n = true -> PyFloat.ge_int x n' = true.
Proof.
  unfold PyFloat.ge_int. intros Hle.
  destruct (Prim2SF x); auto; intros H; apply Z.leb_le in H; apply Z.leb_le; lia.
Qed.

Lemma ge_int_false_mono (x : float) (n n' : Z) :
  n <= n' -> PyFloat.ge_int x n = false -> PyFloat.ge_int x n' = false.
Proof.
  intros Hle Hn. destruct (PyFloat.ge_int x n') eqn:Hn'; [|reflexivity].
  rewrite (ge_int_mono x n' n Hle Hn') in Hn. discriminate.
Qed.

(** [floor t0 + 1] is the first whole second strictly after [t0]. *)
Lemma floor_succ_first_after (t0 : float) (fl : Z) :
  PyFloat.floor t0 = Ok fl ->
  PyFloat.ge_int t0 fl = true /\ PyFloat.ge_int t0 (fl + 1) = false.
Proof.
  intros H. rewrite !(ge_int_floor t0 fl _ H). split.
  - apply Z.leb_le. lia.
  - apply Z.leb_gt. lia.
Qed.

(** ** The emitter *)

Section Emitter.

Variable libm_log10 : float -> float.
Variable clock_hms : Z -> string.
Variable args : Namespace.


(** What the tick loop has done when it ends: one record per tick from
    the cursor on, each built from the same state and frame, every one
    due, none left. *)
Lemma emit_loop_spec (fuel : nat) (st : state) (fr : frame) (vd : verdict)
    (nt : Z) (rs : list record) (nt' : Z) :
  emit_loop clock_hms args fuel st fr vd nt = Ok (rs, nt') ->
  rs = map (make_record clock_hms args st fr vd) (seqZ nt (Z.of_nat (length rs)))
  /\ nt' = nt + Z.of_nat (length rs)
  /\ PyFloat.ge_int (now fr) nt' = false
  /\ Forall (fun r => PyFloat.ge_int (now fr) (unix_s r) = true) rs.
Proof.
  revert nt rs nt'.
  induction fuel as [|fuel IH]; intros nt rs nt'; simpl;
    destruct (PyFloat.ge_int (now fr) nt) eqn:Hge; try discriminate.
  - intros H; inversion H; subst. simpl. repeat split; auto. lia.
  - intros H. bind_inv H. destruct a as [rs0 nt0]. inversion H; subst.
    destruct (IH _ _ _ Ha) as (Hrs & Hnt & Hdone & Hdue).
    simpl length. rewrite Nat2Z.inj_succ, seqZ_cons by lia. simpl.
    repeat split.
    + f_equal. rewrite Z.pred_succ. exact Hrs.
    + lia.
    + exact Hdone.
    + constructor; [exact Hge | exact Hdue].
  - intros H; inversion H; subst. simpl. repeat split; auto. lia.
Qed.

(** For a clock reading that is not positive infinity the tick loop
    ends. *)
Lemma emit_terminates (st : state) (fr : frame) (vd : verdict) :
  now fr <> PyFloat.inf ->
  exists rs nt', emit clock_hms args st fr vd = Ok (rs, nt').
Proof.
  intros Hinf. unfold emit, ticks_due.
  destruct (PyFloat.floor (now fr)) as [fl|e|] eqn:Hfl.
  - generalize (next_tick st) as nt. intros nt.
    remember (Z.to_nat (fl + 1 - nt)) as fuel eqn:Hfuel.
    revert nt Hfuel.
    induction fuel as [|fuel IH]; intros nt Hfuel; simpl;
      rewrite (ge_int_floor _ _ nt Hfl);
      destruct (nt <=? fl) eqn:Hle; eauto.
    + apply Z.leb_le in Hle. lia.
    + destruct (IH (nt + 1)) as (rs & nt' & Hrec); [lia|].
      rewrite Hrec. simpl. eauto.
  - simpl. destruct (PyFloat.ge_int (now fr) (next_tick st)) eqn:Hge; eauto.
    exfalso. unfold PyFloat.floor, PyFloat.ge_int in *.
    destruct (Prim2SF (now fr)) as [| [|] | |] eqn:Hsf; try discriminate.
    apply Hinf. rewrite <- (SF2Prim_Prim2SF (now fr)), Hsf. reflexivity.
  - unfold PyFloat.floor in Hfl. destruct (Prim2SF (now fr)); discriminate.
Qed.

End Emitter.

(** ** One iteration, and a run *)

Section FrameLoop.

Variable libm_log10 : float -> float.
Variable clock_hms : Z -> string.
Variable args : Namespace.


Lemma update_next_tick (st st1 : state) (raw : option float) (v : bool) (t : float) :
  update args st raw v t = Ok st1 -> next_tick st1 = next_tick st.
Proof.
  unfold update. destruct v; [|now intros [= <-]].
  destruct raw as [r|]; [|discriminate].
  intros H. bind_inv H. now inversion H.
Qed.

(** A rejected frame leaves the state as it was. *)
Lemma update_rejected (st : state) (raw : option float) (t : float) :
  update args st raw false t = Ok st.
Proof. reflexivity. Qed.

(** The steps of an iteration that ends normally. *)
Lemma process_Ok (st : state) (fr : frame) (rs : list record) (st' : state) :
  process libm_log10 clock_hms args st fr = Ok (rs, st') ->
  exists vd st1,
    gate libm_log10 args st fr = Ok vd
    /\ update args st (raw_bpm vd) (valid vd) (now fr) = Ok st1
    /\ emit clock_hms args st1 fr vd = Ok (rs, next_tick st')
    /\ q st' = q st1
    /\ last_good_bpm st' = last_good_bpm st1
    /\ last_good_t st' = last_good_t st1.
Proof.
  unfold process. intros H.
  bind_inv H. rename a into vd. bind_inv H. rename a into st1.
  bind_inv H. destruct a as [rs0 nt]. inversion H; subst; simpl.
  exists vd, st1. repeat split; assumption.
Qed.

Lemma rows_app (l1 l2 : list line) : rows (l1 ++ l2) = rows l1 ++ rows l2.
Proof. apply omap_app. Qed.

Lemma rows_Row (rs : list record) : rows (map Row rs) = rs.
Proof.
  unfold rows. induction rs as [|r rs IH]; simpl; [reflexivity|].
  now f_equal.
Qed.

Lemma debug_keys_rows (st : state) (fr : frame) (dbg : list line) (printed : bool) :
  debug_keys args st fr = Ok (dbg, printed) -> rows dbg = [].
Proof.
  unfold debug_keys. destruct (res fr); try (now intros [= <- _]).
  destruct (debug args && negb (debug_keys_printed st)); [|now intros [= <- _]].
  destruct (sorted_keys d (other_keys fr)); simpl; [|discriminate..].
  now intros [= <- _].
Qed.

(** What an iteration prints, beside the one-off key listing, is the
    records of [process libm_log10 clock_hms args]; it ends as [process libm_log10 clock_hms args] does. *)
Lemma loop_body_Ok (st : state) (fr : frame) (ls : list line) (st' : state) :
  loop_body libm_log10 clock_hms args st fr = (ls, Ok st') ->
  exists st'',
    process libm_log10 clock_hms args st fr = Ok (rows ls, st'')
    /\ q st' = q st'' /\ last_good_bpm st' = last_good_bpm st''
    /\ last_good_t st' = last_good_t st'' /\ next_tick st' = next_tick st''.
Proof.
  unfold loop_body.
  destruct (debug_keys args st fr) as [[dbg printed]| |] eqn:Hd;
    [|intros H; inversion H..].
  apply debug_keys_rows in Hd as Hdbg.
  destruct (process libm_log10 clock_hms args st fr) as [[rs st'']| |] eqn:Hp; intros H; inversion H; subst.
  exists st''. rewrite rows_app, Hdbg, rows_Row. simpl. repeat split; reflexivity.
Qed.

Lemma loop_body_not_Ok (st : state) (fr : frame) (ls : list line) (r : result state) :
  loop_body libm_log10 clock_hms args st fr = (ls, r) -> (forall st', r <> Ok st') -> rows ls = [].
Proof.
  unfold loop_body.
  destruct (debug_keys args st fr) as [[dbg printed]| |] eqn:Hd;
    [|intros H Hr; inversion H; reflexivity..].
  apply debug_keys_rows in Hd as Hdbg.
  destruct (process libm_log10 clock_hms args st fr) as [[rs st'']| |]; intros H Hr; inversion H; subst;
    [exfalso; eapply Hr; reflexivity | assumption | assumption].
Qed.

(** Unfolding a run libm_log10 clock_hms args by its first iteration. *)
Lemma run_cons (st : state) (fr : frame) (frames : list frame)
    (ls : list line) (r : result state) :
  run libm_log10 clock_hms args st (fr :: frames) = (ls, r) ->
  (exists ls1 st1 ls2,
      loop_body libm_log10 clock_hms args st fr = (ls1, Ok st1) /\ run libm_log10 clock_hms args st1 frames = (ls2, r)
      /\ ls = ls1 ++ ls2)
  \/ (loop_body libm_log10 clock_hms args st fr = (ls, r) /\ forall st', r <> Ok st').
Proof.
  simpl. destruct (loop_body libm_log10 clock_hms args st fr) as [ls1 [st1|e|]] eqn:Hb.
  - destruct (run libm_log10 clock_hms args st1 frames) as [ls2 r2] eqn:Hr. intros [= <- <-].
    left. exists ls1, st1, ls2. auto.
  - intros [= <- <-]. right. split; [reflexivity | discriminate].
  - intros [= <- <-]. right. split; [reflexivity | discriminate].
Qed.

(** A property of the records of every iteration holds of every record of
    a run libm_log10 clock_hms args. *)
Lemma run_rows_Forall (P : record -> Prop) :
  (forall st fr rs st', process libm_log10 clock_hms args st fr = Ok (rs, st') -> Forall P rs) ->
  forall frames st ls r, run libm_log10 clock_hms args st frames = (ls, r) -> Forall P (rows ls).
Proof.
  intros Hstep frames.
  induction frames as [|fr frames IH]; intros st ls r Hrun.
  - inversion Hrun; subst. constructor.
  - apply run_cons in Hrun as [(ls1 & st1 & ls2 & Hb & Hr & ->)|[Hb Hr]].
    + rewrite rows_app. apply Forall_app. split.
      * apply loop_body_Ok in Hb as (st'' & Hp & _). exact (Hstep _ _ _ _ Hp).
      * exact (IH _ _ _ Hr).
    + rewrite (loop_body_not_Ok _ _ _ _ Hb Hr). constructor.
Qed.

(** The ticks of one iteration. *)
Lemma process_ticks (st : state) (fr : frame) (rs : list record) (st' : state) :
  process libm_log10 clock_hms args st fr = Ok (rs, st') ->
  map unix_s rs = seqZ (next_tick st) (Z.of_nat (length rs))
  /\ next_tick st' = next_tick st + Z.of_nat (length rs)
  /\ PyFloat.ge_int (now fr) (next_tick st') = false
  /\ Forall (fun r => PyFloat.ge_int (now fr) (unix_s r) = true) rs.
Proof.
  intros Hp. apply process_Ok in Hp as (vd & st1 & _ & Hu & He & _).
  apply update_next_tick in Hu. unfold emit in He.
  apply emit_loop_spec in He as (Hrs & Hnt & Hdone & Hdue).
  rewrite Hu in *. repeat split; try assumption.
  rewrite Hrs at 1. rewrite map_map. simpl. apply map_id.
Qed.

(** The ticks of a run libm_log10 clock_hms args: consecutive from the cursor, and when the run libm_log10 clock_hms args goes
    on, the cursor has moved past them and past every clock reading. *)
Lemma run_ticks (frames : list frame) (st : state) (ls : list line)
    (r : result state) :
  run libm_log10 clock_hms args st frames = (ls, r) ->
  map unix_s (rows ls) = seqZ (next_tick st) (Z.of_nat (length (rows ls)))
  /\ forall st', r = Ok st' ->
       next_tick st' = next_tick st + Z.of_nat (length (rows ls))
       /\ Forall (fun fr => PyFloat.ge_int (now fr) (next_tick st') = false) frames.
Proof.
  revert st ls r.
  induction frames as [|fr frames IH]; intros st ls r Hrun.
  - inversion Hrun; subst. simpl. split; [reflexivity|].
    intros st' [= <-]. split; [lia | constructor].
  - apply run_cons in Hrun as [(ls1 & st1 & ls2 & Hb & Hr & ->)|[Hb Hr]].
    + apply loop_body_Ok in Hb as (st'' & Hp & _ & _ & _ & Hnt1).
      apply process_ticks in Hp as (Hrs1 & Hnt & Hdone & _).
      rewrite <- Hnt1 in Hnt, Hdone.
      destruct (IH _ _ _ Hr) as (Hrs2 & Hcont).
      rewrite rows_app, map_app, length_app, Nat2Z.inj_add.
      split.
      * rewrite seqZ_app by lia. rewrite Hrs1, Hrs2, Hnt. reflexivity.
      * intros st' ->. destruct (Hcont st' eq_refl) as (Hnt' & Hall).
        split; [lia|]. constructor; [|exact Hall].
        apply (ge_int_false_mono _ (next_tick st1)); [lia | exact Hdone].
    + rewrite (loop_body_not_Ok _ _ _ _ Hb Hr). simpl.
      split; [reflexivity|]. intros st' ->. now destruct (Hr st').
Qed.

End FrameLoop.

(** ** C1: one record per second *)

Section Cadence.

Variable libm_log10 : float -> float.
Variable clock_hms : Z -> string.
Variable args : Namespace.


(** The records of one iteration differ in their tick and time of day
    only. *)
Lemma process_same_content (st : state) (fr : frame) (rs : list record)
    (st' : state) (r1 r2 : record) :
  process libm_log10 clock_hms args st fr = Ok (rs, st') -> In r1 rs -> In r2 rs ->
  out_bpm r1 = out_bpm r2 /\ note r1 = note r2.
Proof.
  intros Hp H1 H2. apply process_Ok in Hp as (vd & st1 & _ & _ & He & _).
  unfold emit in He. apply emit_loop_spec in He as (Hrs & _).
  rewrite Hrs in H1, H2.
  apply in_map_iff in H1 as (t1 & <- & _). apply in_map_iff in H2 as (t2 & <- & _).
  split; reflexivity.
Qed.

(** C1. In every run libm_log10 clock_hms args the unix seconds of the records written are
    consecutive from the first whole second strictly after the start time:
    strictly increasing, none skipped, none twice, whatever the frames and
    their clock readings are.  The cursor ends past every record and past
    every clock reading seen, so no second that was due is left out.  The
    records one iteration writes when it catches up are all due, and equal
    in bpm and note.  The tick loop ends unless the clock reads positive
    infinity. *)
Theorem one_record_per_second (t0 : float) (st0 : state) (frames : list frame)
    (ls : list line) (r : result state) :
  init_state args t0 = Ok st0 ->
  run libm_log10 clock_hms args st0 frames = (ls, r) ->
  (PyFloat.ge_int t0 (next_tick st0 - 1) = true
   /\ PyFloat.ge_int t0 (next_tick st0) = false)
  /\ map unix_s (rows ls) = seqZ (next_tick st0) (Z.of_nat (length (rows ls)))
  /\ NoDup (map unix_s (rows ls))
  /\ (forall st', r = Ok st' ->
        next_tick st' = next_tick st0 + Z.of_nat (length (rows ls))
        /\ Forall (fun fr => PyFloat.ge_int (now fr) (next_tick st') = false) frames)
  /\ (forall st fr rs st', process libm_log10 clock_hms args st fr = Ok (rs, st') ->
        Forall (fun r => PyFloat.ge_int (now fr) (unix_s r) = true) rs
        /\ forall r1 r2, In r1 rs -> In r2 rs ->
             out_bpm r1 = out_bpm r2 /\ note r1 = note r2)
  /\ (forall st fr vd, now fr <> PyFloat.inf ->
        exists rs nt, emit clock_hms args st fr vd = Ok (rs, nt)).
Proof.
  intros Hinit Hrun.
  destruct (run_ticks _ _ _ _ _ _ _ Hrun) as (Hseq & Hcursor).
  assert (Hfirst : exists fl, PyFloat.floor t0 = Ok fl /\ next_tick st0 = fl + 1).
  { unfold init_state in Hinit.
    destruct (smooth_window args <? 0); [discriminate|].
    bind_inv Hinit. inversion Hinit; subst; simpl. eauto. }
  destruct Hfirst as (fl & Hfl & Hnt).
  split.
  { rewrite Hnt. replace (fl + 1 - 1) with fl by lia.
    exact (floor_succ_first_after _ _ Hfl). }
  split; [exact Hseq|].
  split; [rewrite Hseq; apply NoDup_seqZ|].
  split; [exact Hcursor|].
  split.
  - intros st fr rs st' Hp. split.
    + apply process_ticks in Hp. tauto.
    + intros r1 r2 H1 H2. exact (process_same_content _ _ _ _ _ _ Hp H1 H2).
  - intros st fr vd Hinf. exact (emit_terminates clock_hms args st fr vd Hinf).
Qed.

End Cadence.

(** The catch-up of the specification: the program starts in second 100,
    the first frame is through at 103.4; the records of seconds 101, 102
    and 103 are written in that one iteration. *)
Lemma one_record_per_second_witness :
  let args := default_args "sensor" in
  let out := run series_log10 noon args
               {| q := []; last_good_bpm := None; last_good_t := 0;
                  next_tick := 101; debug_keys_printed := false |}
               [bpm_frame 15 103.4] in
  init_state args 100.2
  = Ok {| q := []; last_good_bpm := None; last_good_t := 0;
          next_tick := 101; debug_keys_printed := false |}
  /\ map unix_s (rows (fst out)) = [101; 102; 103]
  /\ map out_bpm (rows (fst out)) = ["15.00"; "15.00"; "15.00"]%string
  /\ NoDup (map unix_s (rows (fst out))).
Proof.
  cbv zeta.
  split; [reflexivity|]. split; [reflexivity|]. split; [reflexivity|].
  refine (proj1 (proj2 (proj2
    (one_record_per_second series_log10 noon (default_args "sensor") 100.2
       _ [bpm_frame 15 103.4] _ _ eq_refl eq_refl)))).
Defined.

(** ** Formatting *)

Lemma digit_char_is_digit (d : Z) :
  0 <= d < 10 -> PyFloat.is_digit (PyFloat.digit_char d) = true.
Proof.
  intros Hd.
  assert (H : d = 0 \/ d = 1 \/ d = 2 \/ d = 3 \/ d = 4 \/ d = 5 \/ d = 6
              \/ d = 7 \/ d = 8 \/ d = 9) by lia.
  repeat (destruct H as [-> | H]; [reflexivity|]). now subst.
Qed.

Lemma digits_go_digits (fuel : nat) (n : Z) (acc : string) :
  all_digits acc = true ->
  all_digits (PyFloat.digits_go fuel n acc) = true
  /\ PyFloat.digits_go fuel n acc <> ""%string.
Proof.
  assert (Hstep : forall m acc',
            all_digits acc' = true ->
            all_digits (String (PyFloat.digit_char (m mod 10)) acc') = true).
  { intros m acc' Hacc'. cbn [all_digits].
    rewrite Hacc', digit_char_is_digit by (apply Z.mod_pos_bound; lia).
    reflexivity. }
  revert n acc. induction fuel as [|fuel IH]; intros n acc Hacc;
    cbn [PyFloat.digits_go].
  - split; [now apply Hstep | discriminate].
  - destruct (n <? 10).
    + split; [now apply Hstep | discriminate].
    + apply IH. now apply Hstep.
Qed.

(** [format_2f] never gives the empty string. *)
Lemma format_2f_nonempty (x : float) : PyFloat.format_2f x <> ""%string.
Proof.
  unfold PyFloat.format_2f.
  destruct (Prim2SF x) as [[|]|[|]| |s m e]; try discriminate.
  destruct s; cbn [String.append]; [discriminate|].
  destruct (PyFloat.str_nat (PyFloat.round_hundredths m e / 100)); discriminate.
Qed.


(** *** The value of the [.2f] text *)



Lemma count_char_app (c : ascii) (s1 s2 : string) :
  count_char c (s1 ++ s2) = (count_char c s1 + count_char c s2)%nat.
Proof.
  induction s1 as [|b s1 IH]; simpl; [reflexivity|]. rewrite IH. lia.
Qed.






(** ** C6 and C10: what a record carries *)

Section Records.

Variable libm_log10 : float -> float.
Variable clock_hms : Z -> string.
Variable args : Namespace.


(** Every record of an iteration is built from the state the iteration
    leaves and the verdict of its gate libm_log10 args. *)
Lemma process_records (st : state) (fr : frame) (rs : list record) (st' : state) :
  process libm_log10 clock_hms args st fr = Ok (rs, st') ->
  exists vd, gate libm_log10 args st fr = Ok vd
    /\ Forall (fun r => r = make_record clock_hms args st' fr vd (unix_s r)) rs.
Proof.
  intros Hp. apply process_Ok in Hp as (vd & st1 & Hg & _ & He & Hq & Hb & Ht).
  exists vd. split; [exact Hg|].
  unfold emit in He. apply emit_loop_spec in He as (Hrs & _).
  rewrite Hrs at 1. apply Forall_forall. intros r Hr.
  apply list_elem_of_In, in_map_iff in Hr as (t & <- & _). simpl.
  unfold make_record, held. now rewrite Hb, Ht.
Qed.

Lemma out_bpm_make_record (st : state) (fr : frame) (vd : verdict) (t : Z) :
  out_bpm (make_record clock_hms args st fr vd t)
  = match last_good_bpm st with
    | Some v =>
        if PyFloat.le (now fr - last_good_t st)%float (hold_last_for args)
        then PyFloat.format_2f v else ""%string
    | None => ""%string
    end.
Proof.
  unfold make_record, held; simpl.
  now destruct (last_good_bpm st).
Qed.

Lemma gate_ip (st : state) (fr : frame) (vd : verdict) :
  gate libm_log10 args st fr = Ok vd -> ip vd = norm_init_progress (res fr).
Proof.
  unfold gate. intros H. bind_inv H. inversion H; subst; simpl.
  unfold gates_1_4. now destruct (spectrum_snr libm_log10 (res fr)).
Qed.

Lemma norm_init_progress_Some (v : value) :
  exists x, norm_init_progress v = Some x.
Proof.
  unfold norm_init_progress.
  destruct (safe_float _); eauto.
Qed.

End Records.

(** C10. [norm_init_progress] always returns a number: 1.0 when the
    progress field is absent or [safe_float] rejects it.  So the gate's
    verdict always carries a numeric progress, the warm-up check is always
    the comparison with 0.99, and every record of a run has an [init=]
    token. *)
Theorem init_progress_always_numeric :
  (forall res, exists x, norm_init_progress res = Some x)
  /\ (forall res,
      safe_float (match res with VDict d => dict_get d "init_progress" | _ => VNone end)
      = None ->
      norm_init_progress res = Some 1%float)
  /\ (forall libm_log10 args st fr vd,
      gate libm_log10 args st fr = Ok vd ->
      exists x, ip vd = Some x
        /\ forall snr raw,
             basic_valid args (ip vd) snr raw
             = PyFloat.ge x 0.99
               && basic_valid args None snr raw)
  /\ (forall libm_log10 clock_hms args st frames ls r,
      run libm_log10 clock_hms args st frames = (ls, r) ->
      Forall (fun rec => exists x,
                In ("init=" ++ PyFloat.format_2f x)%string (note rec)) (rows ls)).
Proof.
  split; [|split; [|split]].
  - exact norm_init_progress_Some.
  - intros res H. unfold norm_init_progress. now rewrite H.
  - intros libm_log10 args st fr vd Hg.
    rewrite (gate_ip _ _ _ _ _ Hg).
    destruct (norm_init_progress_Some (res fr)) as [x Hx].
    exists x. split; [exact Hx|]. intros snr raw. rewrite Hx.
    unfold basic_valid. destruct (PyFloat.ge x 0.99); reflexivity.
  - intros libm_log10 clock_hms args st frames ls r Hrun.
    eapply run_rows_Forall; [|exact Hrun].
    intros st1 fr rs st' Hp.
    apply process_records in Hp as (vd & Hg & Hrs).
    eapply Forall_impl; [exact Hrs|]. intros rec ->.
    apply gate_ip in Hg.
    destruct (norm_init_progress_Some (res fr)) as [x Hx].
    exists x. simpl. rewrite Hg, Hx.
    rewrite !in_app_iff. right. right. left. simpl. now left.
Qed.

(** ** C5: the plausible-step gate *)

(** The divisor [max(1e-6, last_good)] is never zero. *)
Lemma max_eps_nonzero (last_good : float) :
  PrimFloat.eqb (PyFloat.max 1e-6 last_good) 0 = false.
Proof.
  unfold PyFloat.max, PyFloat.gt.
  destruct (PrimFloat.ltb 1e-6 last_good) eqn:Hlt; [|reflexivity].
  rewrite FloatAxioms.ltb_spec in Hlt. rewrite FloatAxioms.eqb_spec.
  destruct (Prim2SF last_good) as [s|s| |s m e];
    vm_compute in Hlt; try discriminate; destruct s; try discriminate; reflexivity.
Qed.

Lemma div_nonzero (x y : float) :
  PrimFloat.eqb y 0 = false -> PyFloat.div x y = Ok (x / y)%float.
Proof. unfold PyFloat.div. now intros ->. Qed.

Lemma step_gate_formula (args : Namespace) (last_good raw : float) :
  PrimFloat.eqb (max_ratio args) 0 = false ->
  step_gate args (Some last_good) (Some raw) true
  = Ok (negb (spec_step_rejects (max_step_bpm args) (max_ratio args) last_good raw)).
Proof.
  intros Hratio. unfold step_gate, spec_step_rejects.
  rewrite (div_nonzero raw _ (max_eps_nonzero last_good)). simpl.
  destruct (PyFloat.gt (abs (raw - last_good)) (max_step_bpm args)); [reflexivity|].
  destruct (PyFloat.gt _ (max_ratio args)); [reflexivity|].
  rewrite (div_nonzero 1 _ Hratio). simpl.
  now destruct (PyFloat.lt _ _).
Qed.

(** C5. With a previous accepted value and a frame that passed gates 1-4,
    the step gate rejects exactly when [|raw - last_good| > max_step_bpm]
    or [r > max_ratio] or [r < 1/max_ratio], for
    [r = raw / max(1e-6, last_good)] (the reciprocal needs a non-zero
    [max_ratio]); this is the verdict of the whole gate on such a frame.
    Without a previous accepted value the gate changes nothing, so the
    first accepted value is never step-rejected.  With [last_good = 15],
    [max_step_bpm = 6] and [max_ratio = 1.5], 20 is accepted and 23 is
    rejected. *)
Theorem step_gate_rejects_iff :
  (forall args last_good raw,
      PrimFloat.eqb (max_ratio args) 0 = false ->
      step_gate args (Some last_good) (Some raw) true
      = Ok (negb (spec_step_rejects (max_step_bpm args) (max_ratio args)
                    last_good raw)))
  /\ (forall libm_log10 args st fr last_good raw,
      last_good_bpm st = Some last_good ->
      valid (gates_1_4 libm_log10 args (res fr)) = true ->
      raw_bpm (gates_1_4 libm_log10 args (res fr)) = Some raw ->
      PrimFloat.eqb (max_ratio args) 0 = false ->
      exists vd, gate libm_log10 args st fr = Ok vd
        /\ (valid vd = false <->
            spec_step_rejects (max_step_bpm args) (max_ratio args)
              last_good raw = true))
  /\ (forall libm_log10 args st fr,
      last_good_bpm st = None ->
      exists vd, gate libm_log10 args st fr = Ok vd
        /\ valid vd = valid (gates_1_4 libm_log10 args (res fr)))
  /\ (forall args,
      max_step_bpm args = 6%float -> max_ratio args = 1.5%float ->
      step_gate args (Some 15%float) (Some 20%float) true = Ok true
      /\ step_gate args (Some 15%float) (Some 23%float) true = Ok false)
  /\ (let st := {| q := [15%float]; last_good_bpm := Some 15%float;
                   last_good_t := 100; next_tick := 101;
                   debug_keys_printed := false |} in
      gate series_log10 (default_args "sensor") st (bpm_frame 20 100.5)
      = Ok {| ip := Some 1%float; snr := None; raw_bpm := Some 20%float;
              valid := true |}
      /\ gate series_log10 (default_args "sensor") st (bpm_frame 23 100.5)
         = Ok {| ip := Some 1%float; snr := None; raw_bpm := Some 23%float;
                 valid := false |}).
Proof.
  split; [|split; [|split; [|split]]]; [| | | |split; vm_compute; reflexivity].
  - exact step_gate_formula.
  - intros libm_log10 args st fr last_good raw Hlast Hvalid Hraw Hratio.
    unfold gate. rewrite Hlast, Hvalid, Hraw, (step_gate_formula _ _ _ Hratio).
    eexists. split; [reflexivity|]. simpl.
    destruct (spec_step_rejects _ _ _ _); simpl; split; congruence.
  - intros libm_log10 args st fr Hlast.
    unfold gate. rewrite Hlast. simpl. eexists. split; reflexivity.
  - intros args Hstep Hratio.
    assert (Hnz : PrimFloat.eqb (max_ratio args) 0 = false) by now rewrite Hratio.
    rewrite !(step_gate_formula _ _ _ Hnz), Hstep, Hratio. split; reflexivity.
Qed.

(** With [max_ratio = 0] the reciprocal is evaluated only when the first
    two tests fail, and then it raises. *)
Lemma step_gate_zero_ratio (args : Namespace) (last_good raw : float) :
  PrimFloat.eqb (max_ratio args) 0 = true ->
  PyFloat.gt (abs (raw - last_good))%float (max_step_bpm args) = false ->
  PyFloat.gt (raw / PyFloat.max 1e-6 last_good)%float (max_ratio args) = false ->
  step_gate args (Some last_good) (Some raw) true = Raise ZeroDivisionError.
Proof.
  intros Hzero Hstep Hratio. unfold step_gate.
  rewrite (div_nonzero raw _ (max_eps_nonzero last_good)). simpl.
  rewrite Hstep, Hratio. unfold PyFloat.div. now rewrite Hzero.
Qed.

(** ** C3: the prominence gate *)

(** The guard of the prominence gate tests for [np] among the module's
    globals, where it never is: the gate leaves every verdict as it
    finds it. *)
Lemma prominence_gate_inert (args : Namespace) (ps : spectrum) (valid : bool) :
  prominence_gate args ps valid = valid.
Proof.
  unfold prominence_gate.
  replace (in_globals "np") with false by reflexivity.
  now rewrite Bool.andb_false_r.
Qed.

(** C3, evaluated. A first frame with rate 15 bpm and the spectrum
    [1, 9, 10] passes gates 1-3 under the default options; its second
    largest value 9 is positive and the ratio 10/9 is below the prominence
    minimum 1.6, so the check of lines 154-158 rejects it; yet the gate
    accepts the frame, as it accepts every frame that passed gates 1-3.
    Likewise for ten bins with 100 and 90 over a floor of ones: the
    verdict is that of the quality gate on [10 * log10(100)] alone. *)
Theorem prominence_low_ratio_accepted :
  let args := default_args "sensor" in
  let frame_res :=
    VDict (<["bpm"%string := VFloat 15]>
             (<["power_spectrum"%string := VList [1; 9; 10]%float]> ∅)) in
  let st := {| q := []; last_good_bpm := None; last_good_t := 0;
               next_tick := 101; debug_keys_printed := false |} in
  Np.top3 [1; 9; 10]%float = Ok [1; 9; 10]%float
  /\ PyFloat.gt 9 0 = true
  /\ PyFloat.lt (10 / 9)%float (prominence_min args) = true
  /\ prominence_body args (SArray [1; 9; 10]%float) true = Ok false
  /\ in_globals "np" = false
  /\ gate series_log10 args st {| res := frame_res; other_keys := []; now := 100.5 |}
     = Ok {| ip := Some 1%float; snr := None; raw_bpm := Some 15%float;
             valid := true |}
  /\ (forall libm_log10,
      let ps := [1; 1; 1; 1; 1; 1; 1; 1; 100; 90]%float in
      let res10 :=
        VDict (<["bpm"%string := VFloat 15]>
                 (<["power_spectrum"%string := VList ps]> ∅)) in
      Np.top3 ps = Ok [1; 90; 100]%float
      /\ PyFloat.lt (100 / 90)%float (prominence_min args) = true
      /\ gate libm_log10 args st {| res := res10; other_keys := []; now := 100.5 |}
         = Ok {| ip := Some 1%float;
                 snr := Some (10 * libm_log10 100)%float;
                 raw_bpm := Some 15%float;
                 valid := PyFloat.ge (10 * libm_log10 100)%float 10 |})
  /\ (forall args' ps valid', prominence_gate args' ps valid' = valid').
Proof.
  cbv zeta. repeat split; try reflexivity.
  - vm_compute. destruct (PrimFloat.leb _ _); reflexivity.
  - exact prominence_gate_inert.
Qed.

(** ** C4: the secondary output *)

(** C4, evaluated. The option [--out] is stored as the attribute [out];
    line 93 reads the attribute [out_csv], which the namespace does not
    have.  Whatever the command line is, with a destination or without,
    [main] prints the header and ends with [AttributeError]: no file is
    opened and no record is written anywhere. *)
Theorem main_raises_on_out_csv :
  forall libm_log10 clock_hms args t0 frames,
    getattr args "out" = Ok (match out args with Some s => AStr s | None => ANone end)
    /\ getattr args "out_csv" = Raise AttributeError
    /\ main libm_log10 clock_hms args t0 frames
       = {| stdout := [Header]; csv := None; outcome := Raise AttributeError |}.
Proof.
  intros. repeat split; reflexivity.
Qed.

(** ** C8: the pipeline state *)

Lemma smoothed_nil (m : smooth_method) : forall v, smoothed m [] <> Ok v.
Proof. destruct m; intros v H; vm_compute in H; discriminate. Qed.

Lemma deque_append_suffix (maxlen : Z) (buf : list float) (x : float) :
  deque_append maxlen buf x `suffix_of` buf ++ [x].
Proof.
  unfold deque_append. destruct (maxlen <? _); [apply suffix_drop | reflexivity].
Qed.

(** The buffer never grows beyond its capacity. *)
Lemma deque_append_length (maxlen : Z) (buf : list float) (x : float) :
  0 <= maxlen -> Z.of_nat (length buf) <= maxlen ->
  Z.of_nat (length (deque_append maxlen buf x)) <= maxlen.
Proof.
  intros H0 Hlen. unfold deque_append.
  destruct (maxlen <? _) eqn:Hlt.
  - rewrite length_drop, length_app. simpl. lia.
  - apply Z.ltb_ge in Hlt. exact Hlt.
Qed.

Section Invariants.

Variable libm_log10 : float -> float.
Variable clock_hms : Z -> string.
Variable args : Namespace.


(** What acceptance does to the state. *)
Lemma update_accepted (st st1 : state) (raw : float) (t : float) :
  update args st (Some raw) true t = Ok st1 ->
  q st1 = deque_append (smooth_window args) (q st) raw
  /\ q st1 <> []
  /\ (exists v, smoothed (smooth args) (q st1) = Ok v /\ last_good_bpm st1 = Some v)
  /\ last_good_t st1 = t.
Proof.
  unfold update. intros H. bind_inv H. inversion H; subst; simpl.
  repeat split.
  - intros Hnil. rewrite Hnil in Ha. exact (smoothed_nil _ _ Ha).
  - eauto.
Qed.

(** A frame the gate libm_log10 args accepts carries a raw value, and that value is in
    band. *)
Lemma gate_valid_in_band (st : state) (fr : frame) (vd : verdict) :
  gate libm_log10 args st fr = Ok vd -> valid vd = true ->
  exists raw, raw_bpm vd = Some raw /\ in_band args raw = true.
Proof.
  unfold gate. intros H Hv. bind_inv H. inversion H; subst; simpl in *.
  subst a.
  assert (Hpre : valid (gates_1_4 libm_log10 args (res fr)) = true).
  { unfold step_gate in Ha.
    destruct (last_good_bpm st); [|congruence].
    destruct (valid (gates_1_4 libm_log10 args (res fr))); [reflexivity|congruence]. }
  clear Ha. unfold gates_1_4 in *.
  destruct (spectrum_snr libm_log10 (res fr)) as [ps snr0]. simpl in *.
  rewrite prominence_gate_inert in Hpre. unfold basic_valid in Hpre.
  destruct (bpm_from_res (res fr)) as [raw|].
  - exists raw. split; [reflexivity|].
    now apply andb_prop in Hpre as [_ Hband].
  - now rewrite Bool.andb_false_r in Hpre.
Qed.

(** The three variables of the smoothing stage after an iteration. *)
Lemma process_state (st : state) (fr : frame) (rs : list record) (st' : state) :
  process libm_log10 clock_hms args st fr = Ok (rs, st') ->
  exists vd, gate libm_log10 args st fr = Ok vd
    /\ ((valid vd = false
         /\ q st' = q st /\ last_good_bpm st' = last_good_bpm st
         /\ last_good_t st' = last_good_t st)
        \/ (valid vd = true
            /\ exists raw, raw_bpm vd = Some raw /\ in_band args raw = true
               /\ q st' = deque_append (smooth_window args) (q st) raw
               /\ q st' <> []
               /\ (exists v, smoothed (smooth args) (q st') = Ok v
                             /\ last_good_bpm st' = Some v)
               /\ last_good_t st' = now fr)).
Proof.
  intros Hp. apply process_Ok in Hp as (vd & st1 & Hg & Hu & _ & Hq & Hb & Ht).
  exists vd. split; [exact Hg|].
  rewrite Hq, Hb, Ht. destruct (valid vd) eqn:Hv.
  - right. split; [reflexivity|].
    destruct (gate_valid_in_band _ _ _ Hg Hv) as (raw & Hraw & Hband).
    exists raw. rewrite Hraw in Hu.
    apply update_accepted in Hu as (Hq1 & Hne & Hsm & Ht1). auto 10.
  - left. rewrite update_rejected in Hu. inversion Hu; subst. auto.
Qed.

(** The invariants along a run libm_log10 clock_hms args: the buffer is a suffix of what it held
    followed by the accepted libm_log10 clock_hms args values, within capacity, in band, and the
    smoothed value is the reduction of the buffer. *)
Lemma run_state (frames : list frame) (st : state) (ls : list line) (st' : state) :
  run libm_log10 clock_hms args st frames = (ls, Ok st') ->
  0 <= smooth_window args ->
  Z.of_nat (length (q st)) <= smooth_window args ->
  Forall (fun x => in_band args x = true) (q st) ->
  consistent args st ->
  q st' `suffix_of` q st ++ accepted libm_log10 clock_hms args st frames
  /\ Z.of_nat (length (q st')) <= smooth_window args
  /\ Forall (fun x => in_band args x = true) (q st')
  /\ consistent args st'.
Proof.
  revert st ls. induction frames as [|fr frames IH]; intros st ls Hrun Hw Hlen Hband Hcons.
  - inversion Hrun; subst. simpl. rewrite app_nil_r. auto.
  - apply run_cons in Hrun as [(ls1 & st1 & ls2 & Hb & Hr & ->)|[_ Hr]];
      [|now destruct (Hr st')].
    simpl. rewrite Hb.
    apply loop_body_Ok in Hb as (st'' & Hp & Hq & Hl & Ht & _).
    apply process_state in Hp as (vd & Hg & Hcase).
    rewrite Hg. rewrite <- Hq, <- Hl, <- Ht in Hcase.
    assert (Hstep : q st1 `suffix_of`
                      q st ++ match raw_bpm vd with
                              | Some raw => if valid vd then [raw] else []
                              | None => []
                              end
                    /\ Z.of_nat (length (q st1)) <= smooth_window args
                    /\ Forall (fun x => in_band args x = true) (q st1)
                    /\ consistent args st1).
    { destruct Hcase as [(Hv & Hq1 & Hl1 & _)|(Hv & raw & Hraw & Hin & Hq1 & Hne & Hsm & _)].
      - rewrite Hv, Hq1. repeat split; try assumption.
        + destruct (raw_bpm vd); rewrite app_nil_r; reflexivity.
        + unfold consistent in *. now rewrite Hq1, Hl1.
      - rewrite Hv, Hraw, Hq1. repeat split.
        + apply deque_append_suffix.
        + now apply deque_append_length.
        + destruct (deque_append_suffix (smooth_window args) (q st) raw) as [k Hk].
          assert (Hall : Forall (fun x => in_band args x = true) (q st ++ [raw])).
          { apply Forall_app. split; [assumption|]. now constructor. }
          rewrite Hk in Hall. now apply Forall_app in Hall as [_ Hall].
        + right. split; [exact Hne | exact Hsm]. }
    destruct Hstep as (Hsuf1 & Hlen1 & Hband1 & Hcons1).
    destruct (IH _ _ Hr Hw Hlen1 Hband1 Hcons1) as (Hsuf & Hlen' & Hband' & Hcons').
    repeat split; try assumption.
    etransitivity; [exact Hsuf|].
    rewrite app_assoc. now apply suffix_app.
Qed.

End Invariants.

(** With capacity for one value the buffer is not empty after an
    append. *)
Lemma deque_append_nonempty (maxlen : Z) (buf : list float) (x : float) :
  0 < maxlen -> deque_append maxlen buf x <> [].
Proof.
  intros Hpos. unfold deque_append.
  destruct (maxlen <? _) eqn:Hlt.
  - apply Z.ltb_lt in Hlt. rewrite length_app in Hlt. simpl in Hlt.
    destruct buf as [|y buf]; simpl in *; [lia|].
    destruct buf; discriminate.
  - destruct buf; discriminate.
Qed.

(** With a window of at least one value, median smoothing, a non-zero
    [max_ratio] and a clock reading other than positive infinity, an
    iteration ends normally, whatever the frame and the state. *)
Lemma process_total libm_log10 clock_hms args (st : state) (fr : frame) :
  0 < smooth_window args -> smooth args = Median ->
  PrimFloat.eqb (max_ratio args) 0 = false ->
  now fr <> PyFloat.inf ->
  exists rs st', process libm_log10 clock_hms args st fr = Ok (rs, st').
Proof.
  intros Hwin Hmed Hratio Hnow.
  assert (Hgate : exists vd, gate libm_log10 args st fr = Ok vd).
  { unfold gate.
    destruct (last_good_bpm st) as [last_good|] eqn:Hlast; [|simpl; eauto].
    destruct (valid (gates_1_4 libm_log10 args (res fr))) eqn:Hv; [|simpl; eauto].
    assert (Hraw : exists raw, raw_bpm (gates_1_4 libm_log10 args (res fr)) = Some raw).
    { unfold gates_1_4 in *.
      destruct (spectrum_snr libm_log10 (res fr)) as [ps snr0]. simpl in *.
      rewrite prominence_gate_inert in Hv. unfold basic_valid in Hv.
      destruct (bpm_from_res (res fr)); [eauto|].
      now rewrite Bool.andb_false_r in Hv. }
    destruct Hraw as [raw Hraw].
    rewrite Hraw, (step_gate_formula _ _ _ Hratio). simpl. eauto. }
  destruct Hgate as [vd Hg].
  assert (Hupd : exists st1, update args st (raw_bpm vd) (valid vd) (now fr) = Ok st1).
  { destruct (valid vd) eqn:Hv; [|simpl; eauto].
    destruct (gate_valid_in_band _ _ _ _ _ Hg Hv) as (raw & Hraw & _).
    rewrite Hraw. unfold update. rewrite Hmed.
    destruct (proj1 median_total (deque_append (smooth_window args) (q st) raw))
      as (v & Hsm); [now apply deque_append_nonempty|].
    rewrite Hsm. simpl. eauto. }
  destruct Hupd as [st1 Hu].
  destruct (emit_terminates clock_hms args st1 fr vd Hnow) as (rs & nt & He).
  unfold process. rewrite Hg. simpl. rewrite Hu. simpl. rewrite He. simpl. eauto.
Qed.

Lemma gates_1_4_fields libm_log10 args (v : value) :
  valid (gates_1_4 libm_log10 args v)
  = basic_valid args (ip (gates_1_4 libm_log10 args v))
      (snr (gates_1_4 libm_log10 args v)) (raw_bpm (gates_1_4 libm_log10 args v))
  /\ ip (gates_1_4 libm_log10 args v) = norm_init_progress v
  /\ raw_bpm (gates_1_4 libm_log10 args v) = bpm_from_res v.
Proof.
  unfold gates_1_4. destruct (spectrum_snr libm_log10 v) as [ps snr0].
  cbn [valid ip snr raw_bpm]. now rewrite prominence_gate_inert.
Qed.

(** A step the step gate lets through is none the rule rejects. *)
Lemma step_gate_passed (args : Namespace) (last_good raw : float) :
  step_gate args (Some last_good) (Some raw) true = Ok true ->
  spec_step_rejects (max_step_bpm args) (max_ratio args) last_good raw = false.
Proof.
  unfold step_gate, spec_step_rejects.
  rewrite (div_nonzero raw _ (max_eps_nonzero last_good)). simpl.
  destruct (PyFloat.gt (abs (raw - last_good)) (max_step_bpm args)); [discriminate|].
  destruct (PyFloat.gt _ (max_ratio args)); [discriminate|].
  unfold PyFloat.div.
  destruct (PrimFloat.eqb (max_ratio args) 0); [discriminate|]. simpl.
  now destruct (PyFloat.lt _ _).
Qed.

(** A frame the gate accepts has passed the warm-up, quality, band and
    step checks. *)
Lemma gate_valid_checks libm_log10 args (st : state) (fr : frame) (vd : verdict) :
  gate libm_log10 args st fr = Ok vd -> valid vd = true ->
  exists raw, spec_checks args (last_good_bpm st) vd raw.
Proof.
  intros Hg Hv.
  destruct (gates_1_4_fields libm_log10 args (res fr)) as (Hv0 & Hip0 & Hraw0).
  destruct (norm_init_progress_Some (res fr)) as [p Hp].
  unfold gate in Hg.
  set (vd0 := gates_1_4 libm_log10 args (res fr)) in *.
  bind_inv Hg. injection Hg as <-. cbn [valid ip snr raw_bpm] in *. subst a.
  assert (Hpre : valid vd0 = true).
  { unfold step_gate in Ha. destruct (last_good_bpm st); [|congruence].
    destruct (valid vd0); [reflexivity | congruence]. }
  rewrite Hpre in Hv0, Ha. symmetry in Hv0.
  rewrite Hip0, Hp in Hv0. unfold basic_valid in Hv0.
  destruct (raw_bpm vd0) as [raw|] eqn:Hraw;
    [|now rewrite Bool.andb_false_r in Hv0].
  apply andb_prop in Hv0 as [Hv0 Hband]. apply andb_prop in Hv0 as [Hwarm Hsnr].
  exists raw. unfold spec_checks. cbn [valid ip snr raw_bpm].
  rewrite Hip0, Hp.
  split; [eauto|]. split.
  { intros s Hs. now rewrite Hs in Hsnr. }
  split; [reflexivity|]. split; [exact Hband|].
  intros lg Hlg. rewrite Hlg in Ha. now apply step_gate_passed.
Qed.

(** Every value counted as accepted is the raw value of a frame of the
    run, accepted by the gate in the state the run had reached there. *)
Lemma accepted_from_frame libm_log10 clock_hms args (frames : list frame) :
  forall st x,
    In x (accepted libm_log10 clock_hms args st frames) ->
    exists pre fr post ls1 st1 vd,
      frames = pre ++ fr :: post
      /\ run libm_log10 clock_hms args st pre = (ls1, Ok st1)
      /\ gate libm_log10 args st1 fr = Ok vd
      /\ valid vd = true /\ raw_bpm vd = Some x.
Proof.
  induction frames as [|fr frames IH]; intros st x Hin; simpl in Hin; [easy|].
  destruct (gate libm_log10 args st fr) as [vd| |] eqn:Hg; try easy.
  destruct (loop_body libm_log10 clock_hms args st fr) as [ls [st'| |]] eqn:Hb;
    try easy.
  apply in_app_or in Hin as [Hhere|Hlater].
  - destruct (raw_bpm vd) as [raw|] eqn:Hraw; [|easy].
    destruct (valid vd) eqn:Hv; [|easy].
    destruct Hhere as [<-|[]].
    exists [], fr, frames, [], st, vd. simpl. auto.
  - destruct (IH _ _ Hlater) as (pre & fr1 & post & ls1 & st1 & vd1 & -> & Hr & H).
    exists (fr :: pre), fr1, post, (ls ++ ls1), st1, vd1.
    split; [reflexivity|]. split; [|exact H].
    simpl. now rewrite Hb, Hr.
Qed.

(** What the smoothed value is, by method. *)
Lemma smoothed_spec (m : smooth_method) (buf : list float) (v : float) :
  smoothed m buf = Ok v ->
  match m with
  | Mean => spec_mean buf v
  | Median => spec_upper_median buf v
  end.
Proof.
  destruct m; intros Hsm.
  - unfold smoothed, len_float in Hsm. bind_inv Hsm. rename a into n.
    exists n. split; [exact Ha|].
    unfold PyFloat.div in Hsm. destruct (PrimFloat.eqb n 0); [discriminate|].
    now injection Hsm as <-.
  - exists (sorted buf). split; [apply sorted_perm|].
    split; [apply sorted_ascending|]. exact (proj2 median_total buf v Hsm).
Qed.

(** C8, as the code has it. After every frame of a run from the start of
    the program: the buffer holds the most recent accepted values and
    nothing else, never more than the window, each the raw value of a
    frame of the run that, in the state the run had reached there, passed
    the warm-up, quality, band and step checks; the smoothed value is
    absent while the buffer is empty and otherwise the reduction of the
    buffer alone: for mean the values added in buffer order from 0.0 and
    divided by their count, for median the element at index [len // 2] of
    the buffer in ascending order (the upper middle of an even count).  A
    frame the gate rejects leaves buffer, smoothed value and acceptance
    time as they were. *)
Theorem state_invariants libm_log10 clock_hms args (t0 : float) (st0 : state)
    (frames : list frame) (ls : list line) (st' : state) :
  init_state args t0 = Ok st0 ->
  run libm_log10 clock_hms args st0 frames = (ls, Ok st') ->
  q st' `suffix_of` accepted libm_log10 clock_hms args st0 frames
  /\ (forall x, In x (q st') ->
        exists pre fr post ls1 st1 vd,
          frames = pre ++ fr :: post
          /\ run libm_log10 clock_hms args st0 pre = (ls1, Ok st1)
          /\ gate libm_log10 args st1 fr = Ok vd
          /\ valid vd = true
          /\ spec_checks args (last_good_bpm st1) vd x)
  /\ Z.of_nat (length (q st')) <= smooth_window args
  /\ ((q st' = [] /\ last_good_bpm st' = None)
      \/ (q st' <> []
          /\ exists v, last_good_bpm st' = Some v
               /\ smoothed (smooth args) (q st') = Ok v
               /\ match smooth args with
                  | Mean => spec_mean (q st') v
                  | Median => spec_upper_median (q st') v
                  end))
  /\ (forall st fr vd rs st2,
        gate libm_log10 args st fr = Ok vd -> valid vd = false ->
        process libm_log10 clock_hms args st fr = Ok (rs, st2) ->
        q st2 = q st /\ last_good_bpm st2 = last_good_bpm st
        /\ last_good_t st2 = last_good_t st).
Proof.
  intros Hinit Hrun.
  unfold init_state in Hinit.
  destruct (smooth_window args <? 0) eqn:Hw; [discriminate|].
  apply Z.ltb_ge in Hw. bind_inv Hinit. inversion Hinit; subst; clear Hinit.
  destruct (run_state libm_log10 clock_hms args _ _ _ _ Hrun Hw)
    as (Hsuf & Hlen & Hband & Hcons).
  { simpl. lia. }
  { constructor. }
  { left. split; reflexivity. }
  simpl in Hsuf.
  split; [exact Hsuf|]. split; [|split; [exact Hlen|split]].
  - intros x Hx.
    assert (Hacc : In x (accepted libm_log10 clock_hms args
                           {| q := []; last_good_bpm := None; last_good_t := 0;
                              next_tick := a + 1; debug_keys_printed := false |}
                           frames)).
    { destruct Hsuf as [k ->]. apply in_or_app. now right. }
    destruct (accepted_from_frame _ _ _ _ _ _ Hacc)
      as (pre & fr & post & ls1 & st1 & vd & Hfr & Hr & Hg & Hv & Hraw).
    exists pre, fr, post, ls1, st1, vd.
    split; [exact Hfr|]. split; [exact Hr|]. split; [exact Hg|].
    split; [exact Hv|].
    destruct (gate_valid_checks _ _ _ _ _ Hg Hv) as (raw & Hchk).
    assert (Heq : raw = x).
    { destruct Hchk as (_ & _ & H3 & _). congruence. }
    now subst raw.
  - destruct Hcons as [Hempty|(Hne & v & Hsm & Hl)]; [now left|].
    right. split; [exact Hne|]. exists v. split; [exact Hl|].
    split; [exact Hsm|]. exact (smoothed_spec _ _ _ Hsm).
  - intros st fr vd rs st2 Hg Hv Hp.
    apply process_state in Hp as (vd' & Hg' & Hcase).
    rewrite Hg in Hg'. inversion Hg'; subst vd'.
    destruct Hcase as [(_ & Hq & Hl & Ht)|(Hv' & _)]; [auto | congruence].
Qed.

(** Three frames after a start at 100.2: 15 bpm is accepted, 30 bpm is
    rejected by the step gate, 16 bpm is accepted; the buffer holds 15 and
    16, the smoothed median is 16 and, with [--smooth mean], the smoothed
    mean is 15.5. *)
Lemma state_invariants_witness :
  let args := default_args "sensor" in
  let mean_args :=
    {| host := "sensor"; r0 := 0.40; r1 := 0.60; rate := 12.0;
       n_dft := 15; f_low := 0.12; f_high := 0.70; snr_min := 10.0;
       hold_last_for := 5.0; smooth_window := 5; smooth := Mean;
       prominence_min := 1.6; max_step_bpm := 6.0; max_ratio := 1.5;
       debug := false; out := None |} in
  let frames := [bpm_frame 15 100.5; bpm_frame 30 100.9; bpm_frame 16 101.2] in
  let st0 := {| q := []; last_good_bpm := None; last_good_t := 0;
                next_tick := 101; debug_keys_printed := false |} in
  let st' := {| q := [15; 16]%float; last_good_bpm := Some 16%float;
                last_good_t := 101.2; next_tick := 102;
                debug_keys_printed := false |} in
  init_state args 100.2 = Ok st0
  /\ snd (run series_log10 noon args st0 frames) = Ok st'
  /\ accepted series_log10 noon args st0 frames = [15; 16]%float
  /\ q st' `suffix_of` accepted series_log10 noon args st0 frames
  /\ spec_upper_median (q st') 16
  /\ snd (run series_log10 noon mean_args st0 frames)
     = Ok {| q := [15; 16]%float; last_good_bpm := Some 15.5%float;
             last_good_t := 101.2; next_tick := 102;
             debug_keys_printed := false |}
  /\ spec_mean [15; 16]%float 15.5.
Proof.
  cbv zeta.
  set (args := default_args "sensor").
  set (frames := [bpm_frame 15 100.5; bpm_frame 30 100.9; bpm_frame 16 101.2]).
  set (st0 := {| q := []; last_good_bpm := None; last_good_t := 0;
                 next_tick := 101; debug_keys_printed := false |}).
  assert (Hinit : init_state args 100.2 = Ok st0) by (vm_compute; reflexivity).
  assert (Hsnd : snd (run series_log10 noon args st0 frames)
                 = Ok {| q := [15; 16]%float; last_good_bpm := Some 16%float;
                         last_good_t := 101.2; next_tick := 102;
                         debug_keys_printed := false |})
    by (vm_compute; reflexivity).
  assert (Hrun : run series_log10 noon args st0 frames
                 = (fst (run series_log10 noon args st0 frames),
                    Ok {| q := [15; 16]%float; last_good_bpm := Some 16%float;
                          last_good_t := 101.2; next_tick := 102;
                          debug_keys_printed := false |})).
  { rewrite <- Hsnd. apply surjective_pairing. }
  pose proof (state_invariants series_log10 noon args 100.2 st0 frames _ _
                Hinit Hrun) as (Hsuf & _ & _ & Hred & _).
  split; [exact Hinit|]. split; [exact Hsnd|].
  split; [vm_compute; reflexivity|].
  split; [exact Hsuf|].
  split.
  { destruct Hred as [[Hnil _]|(_ & v & Hl & _ & Hmed)]; [discriminate|].
    cbn [last_good_bpm q] in Hl, Hmed. injection Hl as <-. exact Hmed. }
  split; [vm_compute; reflexivity|].
  exists 2%float. split; vm_compute; reflexivity.
Defined.

(** C8, as the specification has it, fails twice.  By design: with two
    accepted values the median of the code is the upper middle, 16, where
    the specification's median is the lower middle, 15.  And the frame of
    C3, whose spectrum [1, 9, 10] fails the prominence check of lines
    154-158, is accepted all the same, so the buffer holds its 15. *)
Lemma state_invariants_counterexample :
  let args := default_args "sensor" in
  let st0 := {| q := []; last_good_bpm := None; last_good_t := 0;
                next_tick := 101; debug_keys_printed := false |} in
  let low_peak :=
    {| res := VDict (<["bpm"%string := VFloat 15]>
                       (<["power_spectrum"%string := VList [1; 9; 10]%float]> ∅));
       other_keys := []; now := 100.5 |} in
  snd (run series_log10 noon args st0 [bpm_frame 15 100.5; bpm_frame 16 101.2])
  = Ok {| q := [15; 16]%float; last_good_bpm := Some 16%float;
          last_good_t := 101.2; next_tick := 102; debug_keys_printed := false |}
  /\ spec_lower_middle [15; 16]%float = Some 15%float
  /\ prominence_body args (SArray [1; 9; 10]%float) true = Ok false
  /\ snd (run series_log10 noon args st0 [low_peak])
     = Ok {| q := [15%float]; last_good_bpm := Some 15%float;
             last_good_t := 100.5; next_tick := 101;
             debug_keys_printed := false |}.
Proof. cbv zeta. repeat split; vm_compute; reflexivity. Qed.

(** ** C7: the quality estimate *)

Lemma argmax_from_bounds (l : list float) (i best_i : Z) (best : float) :
  0 <= best_i < i ->
  0 <= Np.argmax_from l i best_i best < i + Z.of_nat (length l).
Proof.
  revert i best_i best. induction l as [|x l IH]; intros i best_i best Hb; simpl.
  - lia.
  - destruct (PyFloat.gt x best).
    + specialize (IH (i + 1) i x). lia.
    + specialize (IH (i + 1) best_i best). lia.
Qed.

(** The scan ends on an element that none exceeds. *)
Lemma argmax_from_max (l pre : list float) (best_i : Z) (best : float) :
  (pre ++ l) !! Z.to_nat best_i = Some best ->
  0 <= best_i < Z.of_nat (length pre) ->
  Forall (fun y => PyFloat.gt y best = false) pre ->
  exists p,
    (pre ++ l) !! Z.to_nat (Np.argmax_from l (Z.of_nat (length pre)) best_i best)
    = Some p
    /\ Forall (fun y => PyFloat.gt y p = false) (pre ++ l).
Proof.
  revert pre best_i best.
  induction l as [|x l IH]; intros pre best_i best Hbest Hi Hpre; simpl.
  - exists best. rewrite app_nil_r in *. auto.
  - replace (pre ++ x :: l) with ((pre ++ [x]) ++ l) in *
      by (now rewrite <- app_assoc).
    replace (Z.of_nat (length pre) + 1) with (Z.of_nat (length (pre ++ [x])))
      by (rewrite length_app; simpl; lia).
    destruct (PyFloat.gt x best) eqn:Hx.
    + apply IH.
      * rewrite Nat2Z.id, lookup_app_l by (rewrite length_app; simpl; lia).
        apply list_lookup_middle. reflexivity.
      * rewrite length_app. simpl. lia.
      * apply Forall_app. split.
        -- eapply Forall_impl; [exact Hpre|]. intros y Hy. simpl in Hy.
           change (PyFloat.lt best y = false) in Hy.
           change (PyFloat.lt best x = true) in Hx.
           change (PyFloat.lt x y = false).
           destruct (PyFloat.lt x y) eqn:Hxy; [|reflexivity].
           now rewrite (lt_trans _ _ _ Hx Hxy) in Hy.
        -- constructor; [apply lt_irrefl | constructor].
    + apply IH.
      * exact Hbest.
      * rewrite length_app. simpl. lia.
      * apply Forall_app. split; [exact Hpre|]. now repeat constructor.
Qed.

(** The peak index of a non-empty spectrum is an index of it, and no bin
    exceeds the peak. *)
Lemma nanargmax_item (ps : list float) :
  ps <> [] ->
  exists peak_i peak,
    Np.nanargmax ps = Ok peak_i /\ Np.item ps peak_i = Ok peak
    /\ 0 <= peak_i < Np.size ps
    /\ Forall (fun y => PyFloat.gt y peak = false) ps.
Proof.
  destruct ps as [|x l]; [congruence|]. intros _.
  pose proof (argmax_from_bounds l 1 0 x ltac:(lia)) as Hb.
  destruct (argmax_from_max l [x] 0 x) as (peak & Hpeak & Hmax).
  { reflexivity. }
  { simpl. lia. }
  { constructor; [apply lt_irrefl | constructor]. }
  change (Z.of_nat (length [x])) with 1 in Hpeak.
  change ([x] ++ l) with (x :: l) in Hpeak, Hmax.
  set (i := Np.argmax_from l 1 0 x) in *.
  assert (Hsize : 0 <= i < Np.size (x :: l)).
  { unfold Np.size. simpl length. lia. }
  exists i, peak. repeat split; try lia; try assumption.
  unfold Np.item.
  replace (0 <=? i) with true by (symmetry; apply Z.leb_le; lia).
  replace (i <? Np.size (x :: l)) with true by (symmetry; apply Z.ltb_lt; lia).
  simpl andb. cbv iota. now rewrite Hpeak.
Qed.

(** [math.log10] of a positive quotient is defined; on a finite one it is
    the library's value. *)
Lemma math_log10_positive libm_log10 (x : float) :
  PyFloat.gt x 0 = true ->
  exists l, math_log10 libm_log10 x = Ok l
    /\ (PyFloat.isfinite x = true -> l = libm_log10 x).
Proof.
  intros Hpos. unfold math_log10. rewrite Hpos.
  destruct (PyFloat.isfinite x); [eauto|].
  destruct (PyFloat.isnan x); eexists; split; eauto; discriminate.
Qed.

Section Quality.

Variable libm_log10 : float -> float.
Variable args : Namespace.

(** The quality the gate works with, for a frame that is a [dict]. *)
Lemma gates_snr (d : gmap string value) :
  snr (gates_1_4 libm_log10 args (VDict d))
  = snr_fallback (VDict d) (snd (spectrum_snr libm_log10 (VDict d))).
Proof.
  unfold gates_1_4. now destruct (spectrum_snr libm_log10 (VDict d)).
Qed.

Lemma spectrum_snr_list (d : gmap string value) (ps : list float) :
  d !! "power_spectrum"%string = Some (VList ps) ->
  spectrum_snr libm_log10 (VDict d)
  = (SArray ps, try_except (snr_of_spectrum libm_log10 ps) None).
Proof.
  intros Hps. unfold spectrum_snr, dict_get. now rewrite Hps.
Qed.

End Quality.

(** C7, as the code has it. For a frame whose power spectrum has more than
    8 bins, all finite, one at least strictly positive, with [peak] the
    value at the index of the maximum (no bin exceeds it) and the noise set the strictly
    positive values outside the window of two bins to either side of it:
    when the noise set is not empty and [math.log10] accepts the quotient
    [peak / median(noise)] (which it does when the quotient is strictly
    positive), the quality is ten times that logarithm; when the noise set
    is empty, or [math.log10] raises, or a precondition fails, or there is
    no spectrum, the quality is the frame's reported [snr] through
    [safe_float], a number or unknown.  The estimate is a value for every
    frame result: nothing it raises gets out. *)
Theorem quality_from_spectrum :
  (forall libm_log10 args (d : gmap string value) ps,
      d !! "power_spectrum"%string = Some (VList ps) ->
      8 < Np.size ps -> Np.all_isfinite ps = true -> Np.any_positive ps = true ->
      exists peak_i peak,
        Np.nanargmax ps = Ok peak_i /\ Np.item ps peak_i = Ok peak
        /\ Forall (fun x => PyFloat.gt x peak = false) ps
        /\ let noise := noise_set ps peak_i in
           let quotient := (peak / Np.median noise)%float in
           (noise <> [] -> PyFloat.gt quotient 0 = true ->
              exists l, math_log10 libm_log10 quotient = Ok l
                /\ (PyFloat.isfinite quotient = true -> l = libm_log10 quotient)
                /\ snr (gates_1_4 libm_log10 args (VDict d)) = Some (10 * l)%float)
           /\ (noise <> [] ->
               (forall l, math_log10 libm_log10 quotient <> Ok l) ->
               snr (gates_1_4 libm_log10 args (VDict d))
               = safe_float (dict_get d "snr"))
           /\ (noise = [] ->
               snr (gates_1_4 libm_log10 args (VDict d))
               = safe_float (dict_get d "snr")))
  /\ (forall libm_log10 args (d : gmap string value) ps,
      d !! "power_spectrum"%string = Some (VList ps) ->
      Np.all_isfinite ps && (8 <? Np.size ps) && Np.any_positive ps = false ->
      snr (gates_1_4 libm_log10 args (VDict d)) = safe_float (dict_get d "snr"))
  /\ (forall libm_log10 args (d : gmap string value),
      d !! "power_spectrum"%string = None ->
      snr (gates_1_4 libm_log10 args (VDict d)) = safe_float (dict_get d "snr"))
  /\ (forall libm_log10 res,
      exists ps quality, spectrum_snr libm_log10 res = (ps, quality)).
Proof.
  split; [|split; [|split]].
  - intros libm_log10 args d ps Hps Hsize Hfin Hpos.
    assert (Hne : ps <> []).
    { intros ->. unfold Np.size in Hsize. simpl in Hsize. lia. }
    destruct (nanargmax_item ps Hne) as (peak_i & peak & Hargmax & Hitem & _ & Hmax).
    exists peak_i, peak. split; [exact Hargmax|]. split; [exact Hitem|].
    split; [exact Hmax|].
    cbv zeta.
    rewrite gates_snr, (spectrum_snr_list _ _ _ Hps). simpl snd.
    unfold snr_of_spectrum.
    rewrite Hfin, Hpos. replace (8 <? Np.size ps) with true
      by (symmetry; apply Z.ltb_lt; lia).
    simpl andb. cbv iota. rewrite Hargmax. simpl mbind. unfold result_bind at 1.
    split; [|split].
    + intros Hnoise Hq.
      destruct (math_log10_positive libm_log10 _ Hq) as (l & Hl & Hlib).
      exists l. split; [exact Hl|]. split; [exact Hlib|].
      replace (0 <? Np.size (noise_set ps peak_i)) with true.
      * rewrite Hitem. simpl. rewrite Hl. reflexivity.
      * symmetry. apply Z.ltb_lt. unfold Np.size.
        destruct (noise_set ps peak_i); [congruence | simpl; lia].
    + intros Hnoise Hraise.
      replace (0 <? Np.size (noise_set ps peak_i)) with true.
      * rewrite Hitem. simpl.
        destruct (math_log10 libm_log10 _) as [l| |] eqn:Hl;
          [now destruct (Hraise l) | reflexivity | reflexivity].
      * symmetry. apply Z.ltb_lt. unfold Np.size.
        destruct (noise_set ps peak_i); [congruence | simpl; lia].
    + intros ->. reflexivity.
  - intros libm_log10 args d ps Hps Hpre.
    rewrite gates_snr, (spectrum_snr_list _ _ _ Hps). simpl snd.
    unfold snr_of_spectrum. rewrite Hpre. reflexivity.
  - intros libm_log10 args d Hps.
    rewrite gates_snr. unfold spectrum_snr, dict_get. rewrite Hps. reflexivity.
  - intros libm_log10 res. destruct (spectrum_snr libm_log10 res) as [ps quality].
    eauto.
Qed.

(** C7, as the specification has it, fails on a spectrum of nine bins of
    1.7e308: the preconditions hold and the noise set has six values, but
    their median, the mean of the two middle ones, overflows to infinity,
    the quotient is zero, [math.log10] raises, and the quality is unknown
    instead of ten times a logarithm. *)
Lemma quality_overflow_counterexample :
  let ps := repeat 1.7e308%float 9 in
  let d : gmap string value := <["power_spectrum"%string := VList ps]> ∅ in
  (8 <? Np.size ps) && Np.all_isfinite ps && Np.any_positive ps = true
  /\ Np.nanargmax ps = Ok 0
  /\ length (noise_set ps 0) = 6%nat
  /\ Np.median (noise_set ps 0) = PyFloat.inf
  /\ (1.7e308 / Np.median (noise_set ps 0))%float = 0%float
  /\ spec_quality series_log10 ps = Some (10 * series_log10 0)%float
  /\ snr (gates_1_4 series_log10 (default_args "sensor") (VDict d)) = None.
Proof.
  cbv zeta. repeat split; vm_compute; reflexivity.
Qed.

(** A spectrum of ten bins with the peak 100 in the ninth: the noise set is
    the six ones before the window, the quotient is 100, and the quality is
    ten times its logarithm. *)
Lemma quality_from_spectrum_witness :
  let ps := [1; 1; 1; 1; 1; 1; 1; 1; 100; 90]%float in
  let d : gmap string value := <["power_spectrum"%string := VList ps]> ∅ in
  8 < Np.size ps /\ Np.all_isfinite ps = true /\ Np.any_positive ps = true
  /\ noise_set ps 8 = [1; 1; 1; 1; 1; 1]%float
  /\ snr (gates_1_4 series_log10 (default_args "sensor") (VDict d))
     = Some (10 * series_log10 100)%float.
Proof.
  cbv zeta.
  set (ps := [1; 1; 1; 1; 1; 1; 1; 1; 100; 90]%float).
  set (d := <["power_spectrum"%string := VList ps]> (∅ : gmap string value)).
  assert (Hps : d !! "power_spectrum"%string = Some (VList ps))
    by (vm_compute; reflexivity).
  assert (Hsize : 8 < Np.size ps) by (vm_compute; reflexivity).
  assert (Hfin : Np.all_isfinite ps = true) by (vm_compute; reflexivity).
  assert (Hpos : Np.any_positive ps = true) by (vm_compute; reflexivity).
  split; [exact Hsize|]. split; [exact Hfin|]. split; [exact Hpos|].
  split; [vm_compute; reflexivity|].
  destruct (proj1 quality_from_spectrum series_log10 (default_args "sensor")
              d ps Hps Hsize Hfin Hpos)
    as (peak_i & peak & Hargmax & Hitem & _ & Hprimary & _).
  assert (Hi : peak_i = 8) by (vm_compute in Hargmax; congruence).
  subst peak_i.
  assert (Hp : peak = 100%float) by (vm_compute in Hitem; congruence).
  subst peak.
  destruct Hprimary as (l & Hl & _ & Hsnr).
  - vm_compute. discriminate.
  - vm_compute. reflexivity.
  - rewrite Hsnr. f_equal. f_equal.
    vm_compute in Hl. injection Hl as <-. vm_compute. reflexivity.
Defined.

(** ** C6: the bpm field *)




Section Rendering.

Variable libm_log10 : float -> float.
Variable clock_hms : Z -> string.
Variable args : Namespace.

Hypothesis band_lo_finite : PyFloat.isfinite (bpm_lo args) = true.
Hypothesis band_hi_finite : PyFloat.isfinite (bpm_hi args) = true.
Hypothesis smooth_median : smooth args = Median.



End Rendering.



(** ** Examples of the specification *)

Example safe_float_bool :
  safe_float (VBool true) = None /\ safe_float (VBool false) = None.
Proof. split; reflexivity. Qed.

Example safe_float_text : safe_float (VStr "3.25") = Some 3.25%float.
Proof. vm_compute. reflexivity. Qed.

Example safe_float_nan :
  safe_float (VFloat PyFloat.nan) = None /\ safe_float (VFloat PyFloat.inf) = None
  /\ safe_float (VStr "nan") = None /\ safe_float VNone = None.
Proof. repeat split; vm_compute; reflexivity. Qed.

Example norm_init_progress_examples :
  norm_init_progress (VDict (<["init_progress"%string := VInt 50]> ∅)) = Some 0.5%float
  /\ norm_init_progress (VDict (<["init_progress"%string := VFloat 0.5]> ∅)) = Some 0.5%float
  /\ norm_init_progress (VDict ∅) = Some 1%float
  /\ norm_init_progress VNone = Some 1%float.
Proof. repeat split; vm_compute; reflexivity. Qed.

(** A frame with reported quality 12 dB, full progress and 15 bpm is valid
    under the default options; the same frame with 100 bpm is out of
    band. *)
Example gate_band :
  let st := {| q := []; last_good_bpm := None; last_good_t := 0;
               next_tick := 101; debug_keys_printed := false |} in
  let fr bpm :=
    {| res := VDict (<["snr"%string := VFloat 12]>
                       (<["init_progress"%string := VFloat 1]>
                          (<["bpm"%string := VFloat bpm]> ∅)));
       other_keys := []; now := 100.5 |} in
  gate series_log10 (default_args "sensor") st (fr 15%float)
  = Ok {| ip := Some 1%float; snr := Some 12%float; raw_bpm := Some 15%float;
          valid := true |}
  /\ gate series_log10 (default_args "sensor") st (fr 100%float)
     = Ok {| ip := Some 1%float; snr := Some 12%float; raw_bpm := Some 100%float;
             valid := false |}.
Proof. split; vm_compute; reflexivity. Qed.

(** The text of a record. *)
Example render_record :
  render {| hms := "12:00:00"; unix_s := 1756800000; out_bpm := "15.00";
            note := ["held=1"; "snr=12.00"; "init=1.00"] |}
  = "12:00:00,1756800000,15.00,held=1/snr=12.00/init=1.00"%string.
Proof. vm_compute. reflexivity. Qed.

(** * More properties of the code *)

(** ** Numeric extraction, continued *)

(** What [safe_float] returns is a finite number that [float] gave for
    something other than a [bool]. *)
Lemma safe_float_Some (x : value) (v : float) :
  safe_float x = Some v <->
  (forall b, x <> VBool b) /\ py_float x = Ok v /\ PyFloat.isfinite v = true.
Proof.
  unfold safe_float. split.
  - destruct x; try discriminate;
      (destruct (py_float _) as [w| |] eqn:Hf; simpl; try discriminate;
       destruct (PyFloat.isfinite w) eqn:Hw; intros [= <-];
       repeat split; try assumption; discriminate).
  - intros (Hb & Hf & Hfin).
    destruct x; try (now destruct (Hb b)); rewrite Hf; simpl; now rewrite Hfin.
Qed.

Lemma for_keys_Some (d : gmap string value) (f : float -> float)
    (ks : list string) (r : float) :
  for_keys d f ks = Some r ->
  exists k v, In k ks /\ safe_float (dict_get d k) = Some v /\ r = f v.
Proof.
  induction ks as [|k ks IH]; simpl; [discriminate|].
  destruct (safe_float (dict_get d k)) as [v|] eqn:Hk.
  - intros [= <-]. exists k, v. auto.
  - intros H. destruct (IH H) as (k' & v & Hin & Hv & Hr).
    exists k', v. auto.
Qed.

Lemma for_keys_None (d : gmap string value) (f : float -> float)
    (ks : list string) :
  for_keys d f ks = None ->
  Forall (fun k => safe_float (dict_get d k) = None) ks.
Proof.
  induction ks as [|k ks IH]; simpl; [constructor|].
  destruct (safe_float (dict_get d k)) eqn:Hk; [discriminate|].
  intros H. constructor; auto.
Qed.

(** X1. Whatever [bpm_from_res] returns comes from a field of a [dict]
    under one of its nine keys, a field that is not a [bool] and converts
    to a finite float: sixty times it for a hertz key, the float itself
    (so a finite value) for a bpm key, and a bpm key only when no hertz
    key has such a field.  It returns nothing exactly when the result is
    not a [dict] or none of the nine keys has such a field. *)
Theorem bpm_from_res_sound :
  (forall res r, bpm_from_res res = Some r ->
     exists d k v,
       res = VDict d /\ safe_float (dict_get d k) = Some v
       /\ (forall b, dict_get d k <> VBool b)
       /\ PyFloat.isfinite v = true
       /\ ((In k hz_keys /\ r = (v * 60)%float)
           \/ (In k bpm_keys /\ r = v
               /\ Forall (fun k' => safe_float (dict_get d k') = None) hz_keys)))
  /\ (forall res, bpm_from_res res = None <->
        (forall d, res = VDict d ->
           Forall (fun k => safe_float (dict_get d k) = None)
             (hz_keys ++ bpm_keys))).
Proof.
  split.
  - intros res r H. destruct res as [| | | | | |d|]; try discriminate.
    unfold bpm_from_res in H.
    destruct (for_keys d _ hz_keys) as [r'|] eqn:Hhz.
    + injection H as <-.
      destruct (for_keys_Some _ _ _ _ Hhz) as (k & v & Hin & Hv & ->).
      pose proof (proj1 (safe_float_Some _ _) Hv) as (Hb & _ & Hfin).
      exists d, k, v. auto 10.
    + destruct (for_keys_Some _ _ _ _ H) as (k & v & Hin & Hv & ->).
      pose proof (proj1 (safe_float_Some _ _) Hv) as (Hb & _ & Hfin).
      exists d, k, v. repeat split; try assumption.
      right. repeat split; try assumption. now apply for_keys_None in Hhz.
  - intros res. split.
    + intros H d ->. unfold bpm_from_res in H.
      destruct (for_keys d _ hz_keys) eqn:Hhz; [discriminate|].
      apply Forall_app. split; now apply for_keys_None in H, Hhz.
    + intros H. destruct res as [| | | | | |d|]; try reflexivity.
      specialize (H d eq_refl). apply Forall_app in H as [Hhz Hbpm].
      unfold bpm_from_res.
      now rewrite (for_keys_none d _ hz_keys Hhz), (for_keys_none d _ bpm_keys Hbpm).
Qed.

(** ** The two versions of [safe_float] *)

Lemma v1_safe_float_agrees (x : value) :
  (forall b, x <> VBool b) -> V1.safe_float x = safe_float x.
Proof. intros Hb. destruct x; try reflexivity. now destruct (Hb b). Qed.

Lemma v1_for_keys_agrees (d : gmap string value) (f : float -> float)
    (ks : list string) :
  Forall (fun k => forall b, dict_get d k <> VBool b) ks ->
  V1.for_keys d f ks = for_keys d f ks.
Proof.
  induction 1 as [|k ks Hk _ IH]; simpl; [reflexivity|].
  now rewrite (v1_safe_float_agrees _ Hk), IH.
Qed.

(** X2. The first version of [safe_float] lacks the test for [bool]: it
    reads [True] as 1.0 and [False] as 0.0, where the second gives no
    value; on everything else the two agree.  So the two versions of
    [bpm_from_res] agree on every result that has no [bool] under the nine
    keys, while a result with [f_est = True] is 60 bpm for the first and
    nothing for the second. *)
Theorem safe_float_versions :
  (forall b, V1.safe_float (VBool b) = Some (if b then 1%float else 0%float)
             /\ safe_float (VBool b) = None)
  /\ (forall x, (forall b, x <> VBool b) -> V1.safe_float x = safe_float x)
  /\ (forall d : gmap string value,
        Forall (fun k => forall b, dict_get d k <> VBool b) (hz_keys ++ bpm_keys) ->
        V1.bpm_from_res (VDict d) = bpm_from_res (VDict d))
  /\ (forall res, (forall d, res <> VDict d) ->
        V1.bpm_from_res res = None /\ bpm_from_res res = None)
  /\ (let res := VDict (<["f_est"%string := VBool true]> ∅) in
      V1.bpm_from_res res = Some 60%float /\ bpm_from_res res = None).
Proof.
  split; [|split; [|split; [|split]]].
  - intros [|]; split; reflexivity.
  - exact v1_safe_float_agrees.
  - intros d Hall. apply Forall_app in Hall as [Hhz Hbpm].
    unfold V1.bpm_from_res, bpm_from_res.
    now rewrite (v1_for_keys_agrees d _ hz_keys Hhz),
                (v1_for_keys_agrees d _ bpm_keys Hbpm).
  - intros res Hres. destruct res; try (split; reflexivity). now destruct (Hres d).
  - split; vm_compute; reflexivity.
Qed.

(** ** What the records tell *)

Lemma has_token_app (label : string) (l1 l2 : list string) :
  has_token label (l1 ++ l2) = has_token label l1 || has_token label l2.
Proof. apply existsb_app. Qed.

(** The tokens of a record, by label. *)
Lemma note_tokens clock_hms args (st : state) (fr : frame) (vd : verdict) (t : Z) :
  let n := note (make_record clock_hms args st fr vd t) in
  has_token "held=" n = held args st (now fr)
  /\ has_token "snr=" n = match snr vd with Some _ => true | None => false end
  /\ has_token "init=" n = match ip vd with Some _ => true | None => false end
  /\ has_token "raw=" n
     = match raw_bpm vd with
       | Some raw => negb (valid vd) && in_band args raw
       | None => false
       end.
Proof.
  cbv zeta. unfold make_record, debug_tokens, opt_token. cbn [note].
  rewrite !has_token_app.
  destruct (held args st (now fr)), (snr vd), (ip vd), (raw_bpm vd) as [raw|],
    (debug args); try destruct (negb (valid vd) && in_band args raw);
    try destruct (safe_float _); try destruct (safe_float _);
    repeat split; reflexivity.
Qed.

(** X3. In every record of an iteration the note mirrors the iteration:
    [held=1] is there exactly when the bpm field is not empty, [snr=]
    exactly when a quality is known, [init=] always, and [raw=] exactly
    when the frame has a rate within the band and the gate's verdict is
    "invalid"; so an accepted frame and an out-of-band rate never show a
    [raw=] token. *)
Theorem note_mirrors_iteration libm_log10 clock_hms args
    (st : state) (fr : frame) (rs : list record) (st' : state) :
  process libm_log10 clock_hms args st fr = Ok (rs, st') ->
  exists vd, gate libm_log10 args st fr = Ok vd
    /\ Forall (fun r =>
         (has_token "held=" (note r) = true <-> out_bpm r <> ""%string)
         /\ (has_token "snr=" (note r) = true <-> snr vd <> None)
         /\ has_token "init=" (note r) = true
         /\ (has_token "raw=" (note r) = true <->
             exists raw, raw_bpm vd = Some raw /\ in_band args raw = true
                         /\ valid vd = false)) rs.
Proof.
  intros Hp. pose proof Hp as Hrec.
  apply process_records in Hrec as (vd & Hg & Hrs).
  exists vd. split; [exact Hg|].
  eapply Forall_impl; [exact Hrs|]. intros r ->. cbn beta.
  destruct (note_tokens clock_hms args st' fr vd
              (unix_s (make_record clock_hms args st' fr vd (unix_s r))))
    as (Hheld & Hsnr & Hinit & Hraw).
  cbv zeta in Hheld, Hsnr, Hinit, Hraw. cbn [unix_s make_record] in *.
  rewrite Hheld, Hsnr, Hinit, Hraw, out_bpm_make_record.
  destruct (norm_init_progress_Some (res fr)) as [x Hx].
  rewrite (gate_ip _ _ _ _ _ Hg), Hx.
  repeat split.
  - unfold held. destruct (last_good_bpm st'); [|discriminate].
    intros ->. apply format_2f_nonempty.
  - unfold held. destruct (last_good_bpm st'); [|congruence].
    destruct (PyFloat.le _ _); congruence.
  - destruct (snr vd); congruence.
  - destruct (snr vd); congruence.
  - destruct (raw_bpm vd) as [raw|]; [|discriminate].
    intros H. apply andb_prop in H as [Hv Hb]. exists raw.
    repeat split; try assumption. now destruct (valid vd).
  - intros (raw & -> & -> & ->). reflexivity.
Qed.

Lemma note_mirrors_iteration_witness :
  let st := {| q := [15%float]; last_good_bpm := Some 15%float;
               last_good_t := 100; next_tick := 101;
               debug_keys_printed := false |} in
  map note (fst (match process series_log10 noon (default_args "sensor") st
                         (bpm_frame 23 101.5) with
                 | Ok p => p
                 | _ => ([], st)
                 end))
  = [["held=1"; "init=1.00"; "raw=23.00"]%string]
  /\ exists vd, gate series_log10 (default_args "sensor") st (bpm_frame 23 101.5) = Ok vd
       /\ valid vd = false.
Proof.
  cbv zeta. split; [vm_compute; reflexivity|].
  set (st := {| q := [15%float]; last_good_bpm := Some 15%float;
                last_good_t := 100; next_tick := 101;
                debug_keys_printed := false |}).
  assert (Hp : exists rs st',
             process series_log10 noon (default_args "sensor") st (bpm_frame 23 101.5)
             = Ok (rs, st')) by (vm_compute; eauto).
  destruct Hp as (rs & st' & Hp).
  destruct (note_mirrors_iteration _ _ _ _ _ _ _ Hp) as (vd & Hg & _).
  exists vd. split; [exact Hg|].
  vm_compute in Hg. injection Hg as <-. reflexivity.
Defined.

(** ** Acceptance and the hold *)

(** A finite clock reading minus itself is zero. *)
Lemma sub_self (x : float) : PyFloat.isfinite x = true -> (x - x)%float = 0%float.
Proof.
  unfold PyFloat.isfinite. intros Hfin.
  apply Prim2SF_inj. rewrite FloatAxioms.sub_spec.
  destruct (Prim2SF x) as [[|]|s| |s m e]; try discriminate; try reflexivity.
  unfold SF64sub, SFsub. cbv zeta.
  set (a := cond_Zopp s (Z.pos (fst (shl_align m e (IntDef.Z.min e e))))).
  replace (IntDef.Z.sub a a) with 0 by (symmetry; exact (Z.sub_diag a)).
  reflexivity.
Qed.

(** X4. A frame the gate accepts at a finite clock reading is reported at
    once when [hold_last_for] is not negative: every record the same
    iteration writes carries the new smoothed value and [held=1], whatever
    the state before was. *)
Theorem accepted_frame_reported libm_log10 clock_hms args
    (st : state) (fr : frame) (vd : verdict) (rs : list record) (st' : state) :
  process libm_log10 clock_hms args st fr = Ok (rs, st') ->
  gate libm_log10 args st fr = Ok vd -> valid vd = true ->
  PyFloat.isfinite (now fr) = true ->
  PyFloat.le 0 (hold_last_for args) = true ->
  exists v, last_good_bpm st' = Some v
    /\ smoothed (smooth args) (q st') = Ok v
    /\ last_good_t st' = now fr
    /\ Forall (fun r => out_bpm r = PyFloat.format_2f v
                        /\ has_token "held=" (note r) = true) rs.
Proof.
  intros Hp Hg Hv Hfin Hhold.
  destruct (process_state _ _ _ _ _ _ _ Hp) as (vd' & Hg' & Hcase).
  rewrite Hg in Hg'. injection Hg' as <-.
  destruct Hcase as [(Hv' & _)|(_ & raw & _ & _ & _ & _ & (v & Hsm & Hl) & Ht)];
    [congruence|].
  exists v. repeat split; try assumption.
  apply process_records in Hp as (vd' & Hg' & Hrs).
  rewrite Hg in Hg'. injection Hg' as <-.
  eapply Forall_impl; [exact Hrs|]. intros r ->. cbn beta.
  assert (Hheld : held args st' (now fr) = true).
  { unfold held. now rewrite Hl, Ht, (sub_self _ Hfin). }
  split.
  - rewrite out_bpm_make_record, Hl, Ht, (sub_self _ Hfin), Hhold. reflexivity.
  - destruct (note_tokens clock_hms args st' fr vd
                (unix_s (make_record clock_hms args st' fr vd (unix_s r))))
      as (Htok & _).
    cbv zeta in Htok. cbn [unix_s make_record] in *. now rewrite Htok.
Qed.

(** A first frame of 15 bpm, through at 103.4, is shown in the three
    records it causes. *)
Lemma accepted_frame_reported_witness :
  let args := default_args "sensor" in
  let st := {| q := []; last_good_bpm := None; last_good_t := 0;
               next_tick := 101; debug_keys_printed := false |} in
  let p := match process series_log10 noon args st (bpm_frame 15 103.4) with
           | Ok p => p
           | _ => ([], st)
           end in
  PyFloat.isfinite 103.4 = true /\ PyFloat.le 0 (hold_last_for args) = true
  /\ length (fst p) = 3%nat
  /\ exists v, last_good_bpm (snd p) = Some v
       /\ Forall (fun r => out_bpm r = PyFloat.format_2f v
                           /\ has_token "held=" (note r) = true) (fst p).
Proof.
  cbv zeta.
  set (args := default_args "sensor").
  set (st := {| q := []; last_good_bpm := None; last_good_t := 0;
                next_tick := 101; debug_keys_printed := false |}).
  split; [reflexivity|]. split; [reflexivity|]. split; [vm_compute; reflexivity|].
  destruct (process series_log10 noon args st (bpm_frame 15 103.4))
    as [[rs st']| |] eqn:Hp; [|vm_compute in Hp; discriminate..].
  assert (Hg : gate series_log10 args st (bpm_frame 15 103.4)
               = Ok {| ip := Some 1%float; snr := None; raw_bpm := Some 15%float;
                       valid := true |}) by (vm_compute; reflexivity).
  destruct (accepted_frame_reported _ _ _ _ _ _ _ _ Hp Hg eq_refl eq_refl eq_refl)
    as (v & Hl & _ & _ & Hall).
  exists v. split; [exact Hl | exact Hall].
Defined.

(** ** Results that are not a [dict] *)

Lemma gates_non_dict libm_log10 args (res : value) :
  (forall d, res <> VDict d) ->
  gates_1_4 libm_log10 args res
  = {| ip := Some 1%float; snr := None; raw_bpm := None; valid := false |}.
Proof.
  intros Hres. destruct res; try reflexivity. now destruct (Hres d).
Qed.

(** X5. A frame whose result is not a [dict] (the processor returned
    [None], say) is rejected whatever the options and the state are: the
    gate raises nothing, buffer, smoothed value and acceptance time stay,
    and the records of the iteration carry [init=1.00] and, while the last
    value is held, [held=1] before it, and no other token. *)
Theorem non_dict_frame_rejected libm_log10 clock_hms args
    (st : state) (fr : frame) (rs : list record) (st' : state) :
  (forall d, res fr <> VDict d) ->
  process libm_log10 clock_hms args st fr = Ok (rs, st') ->
  gate libm_log10 args st fr
  = Ok {| ip := Some 1%float; snr := None; raw_bpm := None; valid := false |}
  /\ q st' = q st /\ last_good_bpm st' = last_good_bpm st
  /\ last_good_t st' = last_good_t st
  /\ Forall (fun r =>
       note r = (if held args st (now fr) then ["held=1"%string] else [])
                ++ ["init=1.00"%string]) rs.
Proof.
  intros Hres Hp.
  assert (Hg : gate libm_log10 args st fr
               = Ok {| ip := Some 1%float; snr := None; raw_bpm := None;
                       valid := false |}).
  { unfold gate. rewrite (gates_non_dict _ _ _ Hres). simpl.
    now destruct (last_good_bpm st). }
  split; [exact Hg|].
  destruct (process_state _ _ _ _ _ _ _ Hp) as (vd & Hg' & Hcase).
  rewrite Hg in Hg'. injection Hg' as <-.
  destruct Hcase as [(_ & Hq & Hl & Ht)|(Hv & _)]; [|discriminate].
  repeat split; try assumption.
  apply process_records in Hp as (vd & Hg' & Hrs).
  rewrite Hg in Hg'. injection Hg' as <-.
  eapply Forall_impl; [exact Hrs|]. intros r ->.
  unfold make_record, held, debug_tokens. cbn [note ip snr raw_bpm valid opt_token].
  rewrite Hl, Ht.
  assert (Hdbg : (if debug args
                  then opt_token "f_est="
                         (option_map (fun x => (x * 60)%float)
                            (safe_float match res fr with
                                        | VDict d => dict_get d "f_est"
                                        | _ => VBool false
                                        end))
                       ++ opt_token "f_dft="
                            (option_map (fun x => (x * 60)%float)
                               (safe_float match res fr with
                                           | VDict d => dict_get d "f_dft_est"
                                           | _ => VBool false
                                           end))
                  else []) = []).
  { destruct (debug args); [|reflexivity].
    destruct (res fr); try reflexivity. now destruct (Hres d). }
  rewrite Hdbg.
  replace (PyFloat.format_2f 1) with "1.00"%string by (vm_compute; reflexivity).
  now destruct (last_good_bpm st); [destruct (PyFloat.le _ _)|].
Qed.

(** The processor returns [None] while a value of 15 bpm is held. *)
Lemma non_dict_frame_rejected_witness :
  let st := {| q := [15%float]; last_good_bpm := Some 15%float;
               last_good_t := 100; next_tick := 101;
               debug_keys_printed := false |} in
  let p := match process series_log10 noon (default_args "sensor") st
                   {| res := VNone; other_keys := []; now := 101.2 |} with
           | Ok p => p
           | _ => ([], st)
           end in
  map note (fst p) = [["held=1"; "init=1.00"]%string]
  /\ q (snd p) = q st /\ last_good_bpm (snd p) = last_good_bpm st.
Proof.
  cbv zeta.
  set (st := {| q := [15%float]; last_good_bpm := Some 15%float;
                last_good_t := 100; next_tick := 101;
                debug_keys_printed := false |}).
  split; [vm_compute; reflexivity|].
  destruct (process series_log10 noon (default_args "sensor") st
              {| res := VNone; other_keys := []; now := 101.2 |})
    as [[rs st']| |] eqn:Hp; [|vm_compute in Hp; discriminate..].
  assert (Hres : forall d, res {| res := VNone; other_keys := []; now := 101.2 |} <> VDict d)
    by (intros d; discriminate).
  destruct (non_dict_frame_rejected _ _ _ _ _ _ _ Hres Hp) as (_ & Hq & Hl & _).
  split; [exact Hq | exact Hl].
Defined.

(** ** The text of a record *)

Lemma digit_not_comma (c : ascii) :
  PyFloat.is_digit c = true -> Ascii.eqb c comma = false.
Proof.
  intros Hd. destruct (Ascii.eqb_spec c comma) as [->|]; [|reflexivity].
  vm_compute in Hd. discriminate.
Qed.

Lemma all_digits_no_comma (s : string) :
  all_digits s = true -> count_char comma s = O.
Proof.
  induction s as [|c s IH]; simpl; [reflexivity|].
  intros H. apply andb_prop in H as [Hc Hs].
  now rewrite (digit_not_comma c Hc), IH.
Qed.

Lemma str_nat_no_comma (n : Z) : count_char comma (PyFloat.str_nat n) = O.
Proof.
  apply all_digits_no_comma.
  exact (proj1 (digits_go_digits _ n "" eq_refl)).
Qed.

(** The [.2f] text of a float has no comma. *)
Lemma format_2f_no_comma (x : float) : count_char comma (PyFloat.format_2f x) = O.
Proof.
  unfold PyFloat.format_2f.
  destruct (Prim2SF x) as [[|]|[|]| |s m e]; try reflexivity.
  set (n := PyFloat.round_hundredths m e).
  rewrite !count_char_app, str_nat_no_comma.
  assert (Hsign : count_char comma (if s then "-" else "") = O) by now destruct s.
  assert (Hfrac : count_char comma
                    (String (PyFloat.digit_char (n / 10 mod 10))
                       (String (PyFloat.digit_char (n mod 10)) "")) = O).
  { cbn [count_char].
    now rewrite !digit_not_comma
      by (apply digit_char_is_digit; apply Z.mod_pos_bound; lia). }
  rewrite Hsign, Hfrac. reflexivity.
Qed.

Lemma str_int_no_comma (n : Z) : count_char comma (PyFloat.str_int n) = O.
Proof.
  unfold PyFloat.str_int. destruct (n <? 0); [|apply str_nat_no_comma].
  cbn [count_char]. now rewrite str_nat_no_comma.
Qed.

Lemma join_slash_no_comma (l : list string) :
  Forall (fun s => count_char comma s = O) l ->
  count_char comma (join_slash l) = O.
Proof.
  induction 1 as [|s l Hs Hl IH]; [reflexivity|].
  destruct l as [|s' l]; [exact Hs|].
  change (join_slash (s :: s' :: l))
    with (s ++ "/" ++ join_slash (s' :: l))%string.
  rewrite !count_char_app, Hs, IH. reflexivity.
Qed.

Lemma opt_token_no_comma (label : string) (v : option float) :
  count_char comma label = O ->
  Forall (fun s => count_char comma s = O) (opt_token label v).
Proof.
  intros Hl. destruct v as [x|]; constructor; [|constructor].
  now rewrite count_char_app, Hl, format_2f_no_comma.
Qed.

Lemma note_no_comma clock_hms args (st : state) (fr : frame) (vd : verdict) (t : Z) :
  Forall (fun s => count_char comma s = O)
    (note (make_record clock_hms args st fr vd t)).
Proof.
  unfold make_record, debug_tokens. cbn [note].
  repeat apply Forall_app_2; try (now apply opt_token_no_comma).
  - destruct (held _ _ _); repeat constructor.
  - destruct (raw_bpm vd); [|constructor].
    destruct (_ && _); [now apply opt_token_no_comma | constructor].
  - destruct (debug args); [|constructor].
    apply Forall_app_2; now apply opt_token_no_comma.
Qed.

(** X6. The line of every record an iteration writes has exactly three
    commas beyond those of its time of day: for a clock text without a
    comma, as [%H:%M:%S] gives, the line splits at its commas into the
    four fields of the header, whatever the values are (a rate of
    infinity or NaN included). *)
Theorem record_line_four_fields libm_log10 clock_hms args
    (st : state) (fr : frame) (rs : list record) (st' : state) :
  (forall t, count_char comma (clock_hms t) = O) ->
  process libm_log10 clock_hms args st fr = Ok (rs, st') ->
  Forall (fun r => count_char comma (render r) = 3%nat) rs.
Proof.
  intros Hclock Hp. apply process_records in Hp as (vd & _ & Hrs).
  eapply Forall_impl; [exact Hrs|]. intros r ->.
  unfold render. rewrite !count_char_app.
  rewrite (join_slash_no_comma _ (note_no_comma _ _ _ _ _ _)).
  rewrite out_bpm_make_record.
  cbn [hms unix_s make_record]. rewrite Hclock, str_int_no_comma.
  destruct (last_good_bpm st') as [v|]; [destruct (PyFloat.le _ _)|];
    try rewrite format_2f_no_comma; reflexivity.
Qed.

Lemma record_line_four_fields_witness :
  let st := {| q := [15%float]; last_good_bpm := Some 15%float;
               last_good_t := 100; next_tick := 101;
               debug_keys_printed := false |} in
  let p := match process series_log10 noon (default_args "sensor") st
                   (bpm_frame 23 101.5) with
           | Ok p => p
           | _ => ([], st)
           end in
  map render (fst p) = ["12:00:00,101,15.00,held=1/init=1.00/raw=23.00"%string]
  /\ Forall (fun r => count_char comma (render r) = 3%nat) (fst p).
Proof.
  cbv zeta. split; [vm_compute; reflexivity|].
  set (st := {| q := [15%float]; last_good_bpm := Some 15%float;
                last_good_t := 100; next_tick := 101;
                debug_keys_printed := false |}).
  destruct (process series_log10 noon (default_args "sensor") st
              (bpm_frame 23 101.5))
    as [[rs st']| |] eqn:Hp; [|vm_compute in Hp; discriminate..].
  exact (record_line_four_fields _ noon _ _ _ _ _ (fun _ => eq_refl) Hp).
Defined.

(** ** The buffer, exactly *)

(** Appending to a deque that holds the last [w] of a history gives the
    last [w] of the longer history. *)
Lemma deque_append_take_last (w : nat) (acc : list float) (x : float) :
  deque_append (Z.of_nat w) (take_last w acc) x = take_last w (acc ++ [x]).
Proof.
  unfold deque_append, take_last.
  rewrite !length_app, length_drop. simpl length.
  destruct (Z.of_nat w <? _) eqn:Hlt.
  - apply Z.ltb_lt in Hlt.
    assert (Hle : (w <= length acc)%nat) by lia.
    replace (length acc + 1 - w)%nat with (S (length acc - w)) by lia.
    destruct (decide (w = 0)%nat) as [->|Hw].
    + rewrite Nat.sub_0_r.
      rewrite (drop_ge acc) by lia. simpl.
      rewrite drop_ge by (rewrite length_app; simpl; lia). reflexivity.
    + rewrite (drop_app_le (drop (length acc - w) acc) [x] 1)
        by (rewrite length_drop; lia).
      rewrite drop_drop.
      replace (length acc - w + 1)%nat with (S (length acc - w)) by lia.
      rewrite (drop_app_le acc [x]) by lia. reflexivity.
  - apply Z.ltb_ge in Hlt.
    assert (Hlen : (length acc < w)%nat) by lia.
    replace (length acc - w)%nat with O by lia.
    replace (length acc + 1 - w)%nat with O by lia.
    reflexivity.
Qed.

Lemma run_buffer_exact libm_log10 clock_hms args (frames : list frame) :
  forall (st : state) (history : list float) (ls : list line) (st' : state),
    0 <= smooth_window args ->
    q st = take_last (Z.to_nat (smooth_window args)) history ->
    run libm_log10 clock_hms args st frames = (ls, Ok st') ->
    q st' = take_last (Z.to_nat (smooth_window args))
              (history ++ accepted libm_log10 clock_hms args st frames).
Proof.
  induction frames as [|fr frames IH]; intros st history ls st' Hw Hq Hrun.
  - inversion Hrun; subst. simpl. now rewrite app_nil_r.
  - apply run_cons in Hrun as [(ls1 & st1 & ls2 & Hb & Hr & ->)|[_ Hr]];
      [|now destruct (Hr st')].
    simpl. rewrite Hb.
    apply loop_body_Ok in Hb as (st'' & Hp & Hq1 & _).
    apply process_state in Hp as (vd & Hg & Hcase). rewrite Hg.
    rewrite app_assoc. apply (IH st1 _ ls2 st' Hw); [|exact Hr].
    rewrite Hq1.
    destruct Hcase as [(Hv & Hq' & _)|(Hv & raw & Hraw & _ & Hq' & _)].
    + rewrite Hv, Hq', Hq. destruct (raw_bpm vd); now rewrite app_nil_r.
    + rewrite Hv, Hraw, Hq', Hq.
      rewrite <- (Z2Nat.id (smooth_window args)) at 1 by lia.
      apply deque_append_take_last.
Qed.

(** X7. After every frame of a run from the start of the program the
    buffer is exactly the last [smooth_window] raw values the gate
    accepted, oldest first (all of them while fewer were accepted): the
    oldest value leaves when a new one arrives at a full buffer, and
    nothing else ever does. *)
Theorem buffer_is_last_accepted libm_log10 clock_hms args (t0 : float)
    (st0 : state) (frames : list frame) (ls : list line) (st' : state) :
  init_state args t0 = Ok st0 ->
  run libm_log10 clock_hms args st0 frames = (ls, Ok st') ->
  q st' = take_last (Z.to_nat (smooth_window args))
            (accepted libm_log10 clock_hms args st0 frames)
  /\ length (q st')
     = Nat.min (Z.to_nat (smooth_window args))
         (length (accepted libm_log10 clock_hms args st0 frames)).
Proof.
  intros Hinit Hrun. unfold init_state in Hinit.
  destruct (smooth_window args <? 0) eqn:Hw; [discriminate|].
  apply Z.ltb_ge in Hw. bind_inv Hinit. inversion Hinit; subst; clear Hinit.
  match type of Hrun with
  | run _ _ _ ?s _ = _ =>
      pose proof (run_buffer_exact _ _ _ frames s [] ls st' Hw eq_refl Hrun) as Hq
  end.
  simpl in Hq. split; [exact Hq|].
  rewrite Hq. unfold take_last. rewrite length_drop. lia.
Qed.

(** Seven accepted frames with a window of five: the first two have
    left. *)
Lemma buffer_is_last_accepted_witness :
  let args := default_args "sensor" in
  let frames := map (fun k => bpm_frame k 100.5) [15; 16; 17; 18; 19; 20; 21]%float in
  let st0 := {| q := []; last_good_bpm := None; last_good_t := 0;
                next_tick := 101; debug_keys_printed := false |} in
  init_state args 100.2 = Ok st0
  /\ accepted series_log10 noon args st0 frames = [15; 16; 17; 18; 19; 20; 21]%float
  /\ match snd (run series_log10 noon args st0 frames) with
     | Ok st' => q st' = [17; 18; 19; 20; 21]%float
                 /\ q st' = take_last 5 (accepted series_log10 noon args st0 frames)
     | _ => False
     end.
Proof.
  cbv zeta.
  set (args := default_args "sensor").
  set (frames := map (fun k => bpm_frame k 100.5) [15; 16; 17; 18; 19; 20; 21]%float).
  set (st0 := {| q := []; last_good_bpm := None; last_good_t := 0;
                 next_tick := 101; debug_keys_printed := false |}).
  assert (Hinit : init_state args 100.2 = Ok st0) by (vm_compute; reflexivity).
  split; [exact Hinit|]. split; [vm_compute; reflexivity|].
  destruct (run series_log10 noon args st0 frames) as [ls [st'| |]] eqn:Hrun;
    [|vm_compute in Hrun; discriminate..].
  simpl snd.
  destruct (buffer_is_last_accepted _ _ _ _ _ _ _ _ Hinit Hrun) as [Hq _].
  split; [|exact Hq].
  vm_compute in Hrun. injection Hrun as _ <-. reflexivity.
Defined.

(** ** A run of rejected frames *)

Lemma gate_state_independent libm_log10 args (st1 st2 : state) (fr : frame) :
  last_good_bpm st1 = last_good_bpm st2 ->
  gate libm_log10 args st1 fr = gate libm_log10 args st2 fr.
Proof. unfold gate. now intros ->. Qed.

(** X8. While the gate rejects every frame, as it does when the rate has
    moved away from the smoothed value by more than the step gate allows
    and stays there, nothing of the smoothing stage changes: buffer,
    smoothed value and acceptance time after the run are those before it,
    so the gate keeps measuring against the old value and the rejection
    does not end by itself. *)
Theorem rejected_run_changes_nothing libm_log10 clock_hms args
    (frames : list frame) (st : state) (ls : list line) (st' : state) :
  Forall (fun fr => exists vd, gate libm_log10 args st fr = Ok vd
                               /\ valid vd = false) frames ->
  run libm_log10 clock_hms args st frames = (ls, Ok st') ->
  q st' = q st /\ last_good_bpm st' = last_good_bpm st
  /\ last_good_t st' = last_good_t st
  /\ accepted libm_log10 clock_hms args st frames = [].
Proof.
  revert st ls. induction frames as [|fr frames IH]; intros st ls Hrej Hrun.
  - inversion Hrun; subst. auto.
  - apply Forall_cons in Hrej as [(vd & Hg & Hv) Hrej].
    apply run_cons in Hrun as [(ls1 & st1 & ls2 & Hb & Hr & ->)|[_ Hr]];
      [|now destruct (Hr st')].
    simpl. rewrite Hb, Hg, Hv.
    apply loop_body_Ok in Hb as (st'' & Hp & Hq & Hl & Ht & _).
    apply process_state in Hp as (vd' & Hg' & Hcase).
    rewrite Hg in Hg'. injection Hg' as <-.
    destruct Hcase as [(_ & Hq' & Hl' & Ht')|(Hv' & _)]; [|congruence].
    rewrite <- Hq, <- Hl, <- Ht in *.
    destruct (IH st1 ls2) as (Hq2 & Hl2 & Ht2 & Hacc); [|exact Hr|].
    + eapply Forall_impl; [exact Hrej|]. intros fr' (vd' & Hg' & Hv').
      exists vd'. split; [|exact Hv'].
      now rewrite (gate_state_independent _ _ st1 st fr' Hl').
    + rewrite Hacc. destruct (raw_bpm vd); repeat split; congruence.
Qed.

(** After 15 bpm the rate is 25 bpm on every frame: each is rejected and
    the state of the smoothing stage stays. *)
Lemma rejected_run_changes_nothing_witness :
  let args := default_args "sensor" in
  let st := {| q := [15%float]; last_good_bpm := Some 15%float;
               last_good_t := 100; next_tick := 101;
               debug_keys_printed := false |} in
  let frames := [bpm_frame 25 100.5; bpm_frame 25 101.5; bpm_frame 25 107.5] in
  Forall (fun fr => exists vd, gate series_log10 args st fr = Ok vd
                               /\ valid vd = false) frames
  /\ map out_bpm (rows (fst (run series_log10 noon args st frames)))
     = ["15.00"; ""; ""; ""; ""; ""; ""]%string
  /\ match snd (run series_log10 noon args st frames) with
     | Ok st' => q st' = q st /\ last_good_bpm st' = Some 15%float
     | _ => False
     end.
Proof.
  cbv zeta.
  set (args := default_args "sensor").
  set (st := {| q := [15%float]; last_good_bpm := Some 15%float;
                last_good_t := 100; next_tick := 101;
                debug_keys_printed := false |}).
  set (frames := [bpm_frame 25 100.5; bpm_frame 25 101.5; bpm_frame 25 107.5]).
  assert (Hrej : Forall (fun fr => exists vd, gate series_log10 args st fr = Ok vd
                                              /\ valid vd = false) frames).
  { repeat constructor; eexists; split; vm_compute; reflexivity. }
  split; [exact Hrej|]. split; [vm_compute; reflexivity|].
  destruct (run series_log10 noon args st frames) as [ls [st'| |]] eqn:Hrun;
    [|vm_compute in Hrun; discriminate..].
  simpl snd.
  destruct (rejected_run_changes_nothing _ _ _ _ _ _ _ Hrej Hrun) as (Hq & Hl & _).
  split; [exact Hq | exact Hl].
Defined.

(** ** How many records an iteration writes *)

(** X9. An iteration whose clock reads a finite [now] writes exactly
    [floor(now) + 1 - next_tick] records when that is positive and none
    otherwise, and leaves the cursor at the larger of [next_tick] and
    [floor(now) + 1]: frames within one second add no record, and a clock
    that has stepped back makes the emitter wait until the clock has
    caught up with the cursor; it never takes a record back. *)
Theorem records_per_iteration libm_log10 clock_hms args
    (st : state) (fr : frame) (rs : list record) (st' : state) (fl : Z) :
  process libm_log10 clock_hms args st fr = Ok (rs, st') ->
  PyFloat.floor (now fr) = Ok fl ->
  length rs = Z.to_nat (fl + 1 - next_tick st)
  /\ next_tick st' = Z.max (next_tick st) (fl + 1).
Proof.
  intros Hp Hfl.
  destruct (process_ticks _ _ _ _ _ _ _ Hp) as (Hticks & Hnt & Hdone & Hdue).
  rewrite (ge_int_floor _ _ _ Hfl) in Hdone. apply Z.leb_gt in Hdone.
  assert (Hlast : rs = [] \/ next_tick st + Z.of_nat (length rs) - 1 <= fl).
  { destruct (decide (rs = [])) as [|Hne]; [now left|]. right.
    destruct (exists_last Hne) as (rs0 & r & ->).
    apply Forall_app in Hdue as [_ Hr]. apply Forall_inv in Hr.
    rewrite (ge_int_floor _ _ _ Hfl) in Hr. apply Z.leb_le in Hr.
    rewrite map_app, length_app in Hticks. simpl in Hticks.
    rewrite Nat2Z.inj_add in Hticks. simpl in Hticks.
    rewrite seqZ_app in Hticks by lia.
    apply app_inj_tail in Hticks as [_ Hu].
    rewrite length_app. simpl. lia. }
  destruct Hlast as [->|Hlast]; simpl in *; lia.
Qed.

Lemma records_per_iteration_witness :
  let st := {| q := []; last_good_bpm := None; last_good_t := 0;
               next_tick := 101; debug_keys_printed := false |} in
  let p t := match process series_log10 noon (default_args "sensor") st
                     (bpm_frame 15 t) with
             | Ok p => p
             | _ => ([], st)
             end in
  PyFloat.floor 103.4 = Ok 103
  /\ length (fst (p 103.4%float)) = 3%nat /\ next_tick (snd (p 103.4%float)) = 104
  /\ length (fst (p 99.5%float)) = 0%nat /\ next_tick (snd (p 99.5%float)) = 101.
Proof.
  cbv zeta.
  set (st := {| q := []; last_good_bpm := None; last_good_t := 0;
                next_tick := 101; debug_keys_printed := false |}).
  split; [reflexivity|].
  destruct (process series_log10 noon (default_args "sensor") st (bpm_frame 15 103.4))
    as [[rs st']| |] eqn:Hp; [|vm_compute in Hp; discriminate..].
  assert (Hfl : PyFloat.floor (now (bpm_frame 15 103.4)) = Ok 103)
    by (vm_compute; reflexivity).
  destruct (records_per_iteration _ _ _ _ _ _ _ _ Hp Hfl) as [Hlen Hnt].
  split; [exact Hlen|]. split; [exact Hnt|].
  split; vm_compute; reflexivity.
Defined.

(** ** The key listing *)

(** [sorted] gives the keys in order or raises [TypeError]. *)
Lemma sorted_keys_cases (d : gmap string value) (others : list Z) :
  (exists ks, sorted_keys d others = Ok ks)
  \/ sorted_keys d others = Raise TypeError.
Proof.
  unfold sorted_keys.
  destruct (map fst (map_to_list d)), others; eauto.
Qed.

Lemma debug_keys_cases args (st : state) (fr : frame) :
  debug_keys args st fr = Ok ([], debug_keys_printed st)
  \/ (exists d ks,
        debug_keys args st fr = Ok ([DebugKeys ks], true)
        /\ debug args = true /\ debug_keys_printed st = false
        /\ res fr = VDict d /\ sorted_keys d (other_keys fr) = Ok ks)
  \/ (exists d,
        debug_keys args st fr = Raise TypeError
        /\ debug args = true /\ debug_keys_printed st = false
        /\ res fr = VDict d
        /\ sorted_keys d (other_keys fr) = Raise TypeError).
Proof.
  unfold debug_keys. destruct (res fr); auto.
  destruct (debug args) eqn:Hd; [|auto].
  destruct (debug_keys_printed st) eqn:Hp; [auto|].
  right. simpl.
  destruct (sorted_keys_cases d (other_keys fr)) as [[ks Hks]|Hks]; rewrite Hks.
  - left. exists d, ks. simpl. auto.
  - right. exists d. simpl. auto.
Qed.

Lemma filter_is_debug_rows (rs : list record) :
  filter is_debug (map Row rs) = [].
Proof. induction rs as [|r rs IH]; [reflexivity|]. exact IH. Qed.

(** What one iteration prints of the key listing, and what it does to the
    flag. *)
Lemma loop_body_debug libm_log10 clock_hms args (st : state) (fr : frame)
    (ls : list line) (r : result state) :
  loop_body libm_log10 clock_hms args st fr = (ls, r) ->
  (filter is_debug ls = []
   /\ forall st', r = Ok st' -> debug_keys_printed st' = debug_keys_printed st)
  \/ (length (filter is_debug ls) = 1%nat
      /\ debug args = true /\ debug_keys_printed st = false
      /\ (exists d, res fr = VDict d)
      /\ forall st', r = Ok st' -> debug_keys_printed st' = true).
Proof.
  unfold loop_body. intros Hb.
  destruct (debug_keys_cases args st fr)
    as [Hk|[(d & ks & Hk & Hd & Hp & Hdict & _)|(d & Hk & _)]];
    rewrite Hk in Hb; cbv beta iota zeta in Hb.
  - left.
    destruct (process _ _ _ _ _) as [[rs st'']| |]; injection Hb as <- <-; simpl.
    + rewrite filter_is_debug_rows. split; [reflexivity|]. now intros st' [= <-].
    + split; [reflexivity | discriminate].
    + split; [reflexivity | discriminate].
  - right.
    destruct (process _ _ _ _ _) as [[rs st'']| |]; injection Hb as <- <-;
      repeat split; try assumption; try discriminate; eauto.
    + change (length (filter is_debug (DebugKeys ks :: map Row rs)) = 1%nat).
      rewrite filter_cons_True by exact I.
      now rewrite filter_is_debug_rows.
    + now intros st' [= <-].
  - left. injection Hb as <- <-. split; [reflexivity | discriminate].
Qed.

Lemma run_debug_lines libm_log10 clock_hms args (frames : list frame)
    (st : state) (ls : list line) (r : result state) :
  run libm_log10 clock_hms args st frames = (ls, r) ->
  (length (filter is_debug ls) <= 1)%nat
  /\ (debug args = false -> filter is_debug ls = [])
  /\ (debug_keys_printed st = true -> filter is_debug ls = [])
  /\ (Forall (fun fr => forall d, res fr <> VDict d) frames ->
      filter is_debug ls = []).
Proof.
  revert st ls r. induction frames as [|fr frames IH]; intros st ls r Hrun.
  - inversion Hrun; subst. simpl. repeat split; auto.
  - apply run_cons in Hrun as [(ls1 & st1 & ls2 & Hb & Hr & ->)|[Hb Hr]].
    + destruct (IH _ _ _ Hr) as (Hle & Hoff & Hset & Hnone).
      rewrite filter_app, length_app.
      destruct (loop_body_debug _ _ _ _ _ _ _ Hb)
        as [(Hnil & Hflag)|(Hone & Hd & Hp & (d & Hdict) & Hflag)].
      * rewrite Hnil. simpl. repeat split; auto.
        -- intros Hst. apply Hset. now rewrite (Hflag st1 eq_refl).
        -- intros Hall. apply Forall_cons in Hall as [_ Hall]. auto.
      * rewrite (Hset (Hflag st1 eq_refl)), app_nil_r, Hone. simpl.
        repeat split; try lia; try congruence.
        intros Hall. apply Forall_cons in Hall as [Hfr _]. now destruct (Hfr d).
    + destruct (loop_body_debug _ _ _ _ _ _ _ Hb)
        as [(Hnil & _)|(Hone & Hd & Hp & (d & Hdict) & _)].
      * rewrite Hnil. simpl. repeat split; auto.
      * rewrite Hone. repeat split; try lia; try congruence.
        intros Hall. apply Forall_cons in Hall as [Hfr _]. now destruct (Hfr d).
Qed.

(** X10. In a run the listing of the result's keys is printed at most
    once, only with [--debug], and only when some result is a [dict]; a
    run that starts with the flag set prints none.  With [--debug], when
    the first result is a [dict] whose keys sort, the listing of its
    sorted keys is the first line printed; when its keys do not sort (it
    has strings and integers among them) the run ends there with
    [TypeError] and has printed nothing. *)
Theorem key_listing_once libm_log10 clock_hms args (frames : list frame)
    (st : state) :
  let out := run libm_log10 clock_hms args st frames in
  (length (filter is_debug (fst out)) <= 1)%nat
  /\ (debug args = false -> filter is_debug (fst out) = [])
  /\ (debug_keys_printed st = true -> filter is_debug (fst out) = [])
  /\ (Forall (fun fr => forall d, res fr <> VDict d) frames ->
      filter is_debug (fst out) = [])
  /\ (forall fr frames' d,
        frames = fr :: frames' -> res fr = VDict d ->
        debug args = true -> debug_keys_printed st = false ->
        match sorted_keys d (other_keys fr) with
        | Ok ks => exists rest, fst out = DebugKeys ks :: rest
        | _ => out = ([], Raise TypeError)
        end).
Proof.
  cbv zeta.
  destruct (run libm_log10 clock_hms args st frames) as [ls r] eqn:Hrun.
  destruct (run_debug_lines _ _ _ _ _ _ _ Hrun) as (H1 & H2 & H3 & H4).
  simpl fst. repeat split; try assumption.
  intros fr frames' d -> Hd Hdebug Hflag.
  simpl in Hrun. unfold loop_body, debug_keys in Hrun.
  rewrite Hd, Hdebug, Hflag in Hrun. simpl in Hrun.
  destruct (sorted_keys_cases d (other_keys fr)) as [[ks Hks]|Hks];
    rewrite Hks in Hrun |- *; simpl in Hrun.
  - destruct (process _ _ _ _ _) as [[rs st'']| |].
    + destruct (run _ _ _ _ frames') as [ls' r'].
      injection Hrun as <- _. simpl. eauto.
    + injection Hrun as <- _. eauto.
    + injection Hrun as <- _. eauto.
  - now injection Hrun as <- <-.
Qed.

(** A first result with the keys [bpm] and [7], with [--debug]: the sort
    raises and the run ends before anything is printed. *)
Example key_listing_mixed_keys :
  let args := {| host := "sensor"; r0 := 0.40; r1 := 0.60; rate := 12.0;
                 n_dft := 15; f_low := 0.12; f_high := 0.70; snr_min := 10.0;
                 hold_last_for := 5.0; smooth_window := 5; smooth := Median;
                 prominence_min := 1.6; max_step_bpm := 6.0; max_ratio := 1.5;
                 debug := true; out := None |} in
  let st := {| q := []; last_good_bpm := None; last_good_t := 0;
               next_tick := 101; debug_keys_printed := false |} in
  run series_log10 noon args st
    [{| res := VDict (<["bpm"%string := VFloat 15]> ∅); other_keys := [7];
        now := 101.5 |}]
  = ([], Raise TypeError)
  /\ fst (run series_log10 noon args st [bpm_frame 15 101.5])
     = [DebugKeys [KStr "bpm"];
        Row {| hms := "12:00:00"; unix_s := 101; out_bpm := "15.00";
               note := ["held=1"; "init=1.00"]%string |}].
Proof. split; vm_compute; reflexivity. Qed.

(** ** A window of no value *)

(** X11. With [--smooth-window 0] the buffer can hold nothing: the first
    frame the gate accepts ends the loop with an exception, [IndexError]
    under median smoothing and [ZeroDivisionError] under mean, before any
    record of that iteration is written (the key listing of the
    iteration, when it is due and its sort succeeds, is printed
    before). *)
Theorem zero_window_raises libm_log10 clock_hms args
    (st : state) (fr : frame) (vd : verdict) :
  smooth_window args = 0 -> q st = [] ->
  gate libm_log10 args st fr = Ok vd -> valid vd = true ->
  process libm_log10 clock_hms args st fr
  = Raise (match smooth args with
           | Median => IndexError
           | Mean => ZeroDivisionError
           end)
  /\ (forall dbg printed,
        debug_keys args st fr = Ok (dbg, printed) ->
        loop_body libm_log10 clock_hms args st fr
        = (dbg,
           Raise (match smooth args with
                  | Median => IndexError
                  | Mean => ZeroDivisionError
                  end))).
Proof.
  intros Hw Hq Hg Hv.
  destruct (gate_valid_in_band _ _ _ _ _ Hg Hv) as (raw & Hraw & _).
  assert (Hp : process libm_log10 clock_hms args st fr
               = Raise (match smooth args with
                        | Median => IndexError
                        | Mean => ZeroDivisionError
                        end)).
  { unfold process. rewrite Hg. simpl. rewrite Hv, Hraw.
    unfold update. rewrite Hw, Hq.
    now destruct (smooth args). }
  split; [exact Hp|].
  intros dbg printed Hd. unfold loop_body. now rewrite Hd, Hp.
Qed.

Lemma zero_window_raises_witness :
  let args := {| host := "sensor"; r0 := 0.40; r1 := 0.60; rate := 12.0;
                 n_dft := 15; f_low := 0.12; f_high := 0.70; snr_min := 10.0;
                 hold_last_for := 5.0; smooth_window := 0; smooth := Median;
                 prominence_min := 1.6; max_step_bpm := 6.0; max_ratio := 1.5;
                 debug := false; out := None |} in
  init_state args 100.2
  = Ok {| q := []; last_good_bpm := None; last_good_t := 0;
          next_tick := 101; debug_keys_printed := false |}
  /\ run series_log10 noon args
       {| q := []; last_good_bpm := None; last_good_t := 0;
          next_tick := 101; debug_keys_printed := false |}
       [{| res := VNone; other_keys := []; now := 101.5 |}; bpm_frame 15 102.5; bpm_frame 15 103.5]
     = ([Row {| hms := "12:00:00"; unix_s := 101; out_bpm := "";
                note := ["init=1.00"%string] |}],
        Raise IndexError)
  /\ process series_log10 noon args
       {| q := []; last_good_bpm := None; last_good_t := 0;
          next_tick := 102; debug_keys_printed := false |}
       (bpm_frame 15 102.5)
     = Raise IndexError.
Proof.
  cbv zeta.
  set (args := {| host := "sensor"; r0 := 0.40; r1 := 0.60; rate := 12.0;
                  n_dft := 15; f_low := 0.12; f_high := 0.70; snr_min := 10.0;
                  hold_last_for := 5.0; smooth_window := 0; smooth := Median;
                  prominence_min := 1.6; max_step_bpm := 6.0; max_ratio := 1.5;
                  debug := false; out := None |}).
  split; [reflexivity|]. split; [vm_compute; reflexivity|].
  refine (proj1 (zero_window_raises series_log10 noon args
                   {| q := []; last_good_bpm := None; last_good_t := 0;
                      next_tick := 102; debug_keys_printed := false |}
                   (bpm_frame 15 102.5)
                   {| ip := Some 1%float; snr := None; raw_bpm := Some 15%float;
                      valid := true |} eq_refl eq_refl _ eq_refl)).
  vm_compute. reflexivity.
Defined.

(** ** The noise set *)

Lemma outside_from_In (l : list float) (i lo hi : Z) (x : float) :
  In x (Np.outside_from l i lo hi) <->
  exists j, l !! j = Some x /\ ~ (lo <= i + Z.of_nat j < hi).
Proof.
  revert i. induction l as [|y l IH]; intros i; simpl.
  - split; [easy | now intros (j & Hj & _)].
  - destruct ((lo <=? i) && (i <? hi)) eqn:Hin.
    + apply andb_prop in Hin as [H1 H2]. apply Z.leb_le in H1. apply Z.ltb_lt in H2.
      rewrite IH. split.
      * intros (j & Hj & Hout). exists (S j). split; [exact Hj | lia].
      * intros ([|j] & Hj & Hout); [lia|]. exists j. split; [exact Hj | lia].
    + assert (Hout0 : ~ (lo <= i < hi)).
      { intros [H1 H2]. apply Z.leb_le in H1. apply Z.ltb_lt in H2.
        now rewrite H1, H2 in Hin. }
      simpl. rewrite IH. split.
      * intros [<-|(j & Hj & Hout)].
        -- exists O. split; [reflexivity | simpl; lia].
        -- exists (S j). split; [exact Hj | lia].
      * intros ([|j] & Hj & Hout).
        -- left. now injection Hj.
        -- right. exists j. split; [exact Hj | lia].
Qed.

Lemma outside_from_length (l : list float) (i lo hi : Z) :
  Z.of_nat (length (Np.outside_from l i lo hi))
  = Z.of_nat (length l)
    - Z.max 0 (Z.min hi (i + Z.of_nat (length l)) - Z.max lo i).
Proof.
  revert i. induction l as [|y l IH]; intros i; simpl length.
  - simpl. lia.
  - simpl Np.outside_from. destruct ((lo <=? i) && (i <? hi)) eqn:Hin.
    + apply andb_prop in Hin as [H1 H2]. apply Z.leb_le in H1. apply Z.ltb_lt in H2.
      rewrite IH. lia.
    + assert (Hout0 : ~ (lo <= i < hi)).
      { intros [H1 H2]. apply Z.leb_le in H1. apply Z.ltb_lt in H2.
        now rewrite H1, H2 in Hin. }
      simpl length. rewrite Nat2Z.inj_succ, IH. lia.
Qed.

(** The masked array is what is before the window followed by what is
    after it. *)
Lemma outside_from_take_drop (l : list float) (lo hi : Z) :
  forall i, lo <= hi ->
    Np.outside_from l i lo hi
    = take (Z.to_nat (lo - i)) l ++ drop (Z.to_nat (hi - i)) l.
Proof.
  induction l as [|x l IH]; intros i Hle; simpl.
  - now rewrite take_nil, drop_nil.
  - rewrite (IH (i + 1) Hle).
    destruct ((lo <=? i) && (i <? hi)) eqn:Hin.
    + apply andb_prop in Hin as [H1 H2]. apply Z.leb_le in H1. apply Z.ltb_lt in H2.
      replace (Z.to_nat (lo - i)) with O by lia.
      replace (Z.to_nat (lo - (i + 1))) with O by lia.
      replace (Z.to_nat (hi - i)) with (S (Z.to_nat (hi - (i + 1)))) by lia.
      reflexivity.
    + assert (Hout : i < lo \/ hi <= i).
      { destruct (Z_lt_le_dec i lo) as [|H1]; [now left|].
        destruct (Z_lt_le_dec i hi) as [H2|]; [|now right].
        apply Z.leb_le in H1. apply Z.ltb_lt in H2. now rewrite H1, H2 in Hin. }
      destruct Hout as [Hlo|Hhi].
      * replace (Z.to_nat (lo - i)) with (S (Z.to_nat (lo - (i + 1)))) by lia.
        replace (Z.to_nat (hi - i)) with (S (Z.to_nat (hi - (i + 1)))) by lia.
        reflexivity.
      * replace (Z.to_nat (lo - i)) with O by lia.
        replace (Z.to_nat (lo - (i + 1))) with O by lia.
        replace (Z.to_nat (hi - i)) with O by lia.
        replace (Z.to_nat (hi - (i + 1))) with O by lia.
        reflexivity.
Qed.

(** X12. The noise set of the quality estimate is exactly the strictly
    positive bins more than two places away from the peak index, each as
    often as it occurs and in the order of the spectrum: what is before
    the window, then what is after it.  The peak bin and its two
    neighbours on either side never count as noise, whether the window is
    cut by an end of the spectrum or not.  Of a spectrum of three bins or
    more, between three and five are left out, so the noise set has at
    most [n - 3] values; none of them exceeds the peak. *)
Theorem noise_set_is_outside_window (ps : list float) (peak_i : Z) (peak : float) :
  Np.nanargmax ps = Ok peak_i -> Np.item ps peak_i = Ok peak ->
  noise_set ps peak_i = spec_noise_set ps peak_i
  /\ (forall x, In x (noise_set ps peak_i) <->
     exists j, ps !! j = Some x /\ PyFloat.gt x 0 = true
               /\ (Z.of_nat j < peak_i - 2 \/ peak_i + 2 < Z.of_nat j))
  /\ (3 <= Np.size ps ->
      Np.size ps - 5 <= Z.of_nat (length (Np.outside ps (Z.max 0 (peak_i - 2))
                                            (Z.min (Np.size ps) (peak_i + 3))))
      <= Np.size ps - 3
      /\ Z.of_nat (length (noise_set ps peak_i)) <= Np.size ps - 3)
  /\ Forall (fun x => PyFloat.gt x peak = false) (noise_set ps peak_i).
Proof.
  intros Hargmax Hitem.
  assert (Hne : ps <> []) by (intros ->; discriminate).
  destruct (nanargmax_item ps Hne) as (p' & peak' & Ha & Hi & Hrange & Hmax).
  rewrite Hargmax in Ha. injection Ha as <-.
  rewrite Hitem in Hi. injection Hi as <-.
  assert (Hmem : forall x, In x (noise_set ps peak_i) <->
            exists j, ps !! j = Some x /\ PyFloat.gt x 0 = true
                      /\ (Z.of_nat j < peak_i - 2 \/ peak_i + 2 < Z.of_nat j)).
  { intros x. unfold noise_set, Np.outside.
    rewrite <- list_elem_of_In, list_elem_of_filter, list_elem_of_In, outside_from_In.
    split.
    - intros (Hpos & j & Hj & Hout). exists j.
      apply Is_true_true in Hpos. repeat split; try assumption.
      apply lookup_lt_Some in Hj. unfold Np.size in *. lia.
    - intros (j & Hj & Hpos & Hout). split; [now apply Is_true_true|].
      exists j. split; [exact Hj|]. lia. }
  split.
  { unfold noise_set, spec_noise_set, Np.outside, Np.size in *. f_equal.
    rewrite outside_from_take_drop by lia.
    rewrite !Z.sub_0_r. f_equal.
    - f_equal. lia.
    - destruct (Z_lt_le_dec (peak_i + 3) (Z.of_nat (length ps))) as [Hin|Hend].
      + f_equal. lia.
      + rewrite !drop_ge by lia. reflexivity. }
  split; [exact Hmem|]. split.
  - intros Hsize.
    assert (Hout : Np.size ps - 5
                   <= Z.of_nat (length (Np.outside ps (Z.max 0 (peak_i - 2))
                                          (Z.min (Np.size ps) (peak_i + 3))))
                   <= Np.size ps - 3).
    { unfold Np.outside. rewrite outside_from_length. unfold Np.size in *. lia. }
    split; [exact Hout|].
    unfold noise_set.
    pose proof (length_filter (fun x => PyFloat.gt x 0)
                  (Np.outside ps (Z.max 0 (peak_i - 2))
                     (Z.min (Np.size ps) (peak_i + 3)))) as Hf.
    lia.
  - apply Forall_forall. intros x Hx.
    apply list_elem_of_In, Hmem in Hx as (j & Hj & _).
    rewrite Forall_forall in Hmax. apply Hmax.
    now apply list_elem_of_lookup_2 in Hj.
Qed.

(** The peak in the second of ten bins: the window is cut at the left end,
    four bins are left out, the zero bin is no noise either, and the two
    bins of 4 both count. *)
Lemma noise_set_is_outside_window_witness :
  let ps := [3; 50; 2; 1; 0; 4; 4; 6; 7; 5]%float in
  Np.nanargmax ps = Ok 1 /\ Np.item ps 1 = Ok 50%float
  /\ noise_set ps 1 = [4; 4; 6; 7; 5]%float
  /\ noise_set ps 1 = spec_noise_set ps 1
  /\ Forall (fun x => PyFloat.gt x 50 = false) (noise_set ps 1).
Proof.
  cbv zeta. split; [reflexivity|]. split; [reflexivity|].
  split; [vm_compute; reflexivity|].
  pose proof (noise_set_is_outside_window
                [3; 50; 2; 1; 0; 4; 4; 6; 7; 5]%float 1 50%float
                eq_refl eq_refl) as (Heq & _ & _ & Hmax).
  split; [exact Heq | exact Hmax].
Defined.

(** ** The first version of the loop *)

Lemma of_int_small (n : Z) :
  1 <= n <= 5 -> exists f, PyFloat.of_int n = Ok f /\ PrimFloat.eqb f 0 = false.
Proof.
  intros Hn.
  assert (Hc : n = 1 \/ n = 2 \/ n = 3 \/ n = 4 \/ n = 5) by lia.
  destruct Hc as [->|[->|[->|[->| ->]]]];
    [exists 1%float|exists 2%float|exists 3%float|exists 4%float|exists 5%float];
    split; vm_compute; reflexivity.
Qed.

(** The mean of one to five values is defined. *)
Lemma mean_total (l : list float) :
  l <> [] -> (length l <= 5)%nat -> exists v, smoothed Mean l = Ok v.
Proof.
  intros Hne Hlen. unfold smoothed, len_float.
  destruct (of_int_small (Z.of_nat (length l))) as (f & Hf & Hz).
  { destruct l; [contradiction|]. simpl in Hlen |- *. lia. }
  rewrite Hf. simpl. unfold PyFloat.div. rewrite Hz. eauto.
Qed.

Section FirstVersion.

Variable clock_hms : Z -> string.
Variable args : V1.Namespace.

Lemma v1_accepts_raw (v : value) :
  V1.accepts args v = true ->
  exists raw, V1.bpm_from_res v = Some raw /\ V1.in_band args raw = true.
Proof.
  unfold V1.accepts, V1.valid_of, V1.in_band.
  destruct (V1.bpm_from_res v) as [raw|].
  - intros H. apply andb_prop in H as [_ H]. eauto.
  - rewrite Bool.andb_false_r. discriminate.
Qed.

(** What lines 110-113 do to the state. *)
Lemma v1_update_cases (st : V1.state) (v : value) (t : float) :
  (length (V1.q st) <= 5)%nat ->
  exists st1,
    V1.update st (V1.bpm_from_res v) (V1.accepts args v) t = Ok st1
    /\ V1.next_tick st1 = V1.next_tick st
    /\ V1.first st1 = V1.first st
    /\ ((V1.accepts args v = false /\ st1 = st)
        \/ (exists raw m,
              V1.accepts args v = true /\ V1.bpm_from_res v = Some raw
              /\ V1.in_band args raw = true
              /\ V1.q st1 = deque_append 5 (V1.q st) raw
              /\ smoothed Mean (V1.q st1) = Ok m
              /\ V1.last_good_bpm st1 = Some m
              /\ V1.last_good_t st1 = t)).
Proof.
  intros Hlen.
  destruct (V1.accepts args v) eqn:Ha.
  - destruct (v1_accepts_raw v Ha) as (raw & Hraw & Hband).
    destruct (mean_total (deque_append 5 (V1.q st) raw)) as (m & Hm).
    { apply deque_append_nonempty. lia. }
    { pose proof (deque_append_length 5 (V1.q st) raw). lia. }
    rewrite Hraw. unfold V1.update, V1.smooth_window. rewrite Hm. simpl.
    eexists. split; [reflexivity|]. simpl. split; [reflexivity|].
    split; [reflexivity|]. right. exists raw, m. cbn [V1.q V1.last_good_bpm V1.last_good_t].
    repeat split; assumption.
  - exists st. repeat split; try reflexivity. left. split; reflexivity.
Qed.

(** An iteration of the first version ends normally and writes the record
    of the cursor when it is due, and nothing otherwise. *)
Lemma v1_process_cases (st : V1.state) (fr : frame) :
  (length (V1.q st) <= 5)%nat ->
  exists st1,
    V1.update st (V1.bpm_from_res (res fr)) (V1.accepts args (res fr)) (now fr)
    = Ok st1
    /\ V1.process clock_hms args st fr
       = Ok (if PyFloat.ge_int (now fr) (V1.next_tick st)
             then [V1.make_record clock_hms args st1 (now fr)
                     (V1.norm_init_progress (res fr))
                     (V1.safe_float (V1.field_or_false (res fr) "snr"))
                     (V1.bpm_from_res (res fr)) (V1.accepts args (res fr))
                     (V1.next_tick st)]
             else [],
             {| V1.q := V1.q st1; V1.last_good_bpm := V1.last_good_bpm st1;
                V1.last_good_t := V1.last_good_t st1;
                V1.next_tick :=
                  V1.next_tick st
                  + (if PyFloat.ge_int (now fr) (V1.next_tick st) then 1 else 0);
                V1.first := V1.first st |}).
Proof.
  intros Hlen.
  destruct (v1_update_cases st (res fr) (now fr) Hlen) as (st1 & Hu & Hnt & Hf & _).
  exists st1. split; [exact Hu|].
  unfold V1.process. cbv zeta.
  change (V1.valid_of args (V1.norm_init_progress (res fr))
            (V1.safe_float (V1.field_or_false (res fr) "snr"))
            (V1.bpm_from_res (res fr)))
    with (V1.accepts args (res fr)).
  rewrite Hu. simpl. rewrite Hnt, Hf.
  destruct (PyFloat.ge_int (now fr) (V1.next_tick st)); [reflexivity|].
  destruct st1; simpl in *; subst. do 3 f_equal. lia.
Qed.

Lemma v1_debug_keys_cases (st : V1.state) (fr : frame) :
  (exists dbg first', V1.debug_keys st fr = Ok (dbg, first') /\ rows dbg = []
                      /\ (V1.first st = false \/ keys_sortable fr = true))
  \/ (V1.debug_keys st fr = Raise TypeError
      /\ V1.first st = true /\ keys_sortable fr = false).
Proof.
  unfold V1.debug_keys, keys_sortable.
  destruct (res fr); try (left; eexists _, _; split; [reflexivity|]; simpl; now auto).
  destruct (V1.first st) eqn:Hf.
  - destruct (sorted_keys_cases d (other_keys fr)) as [[ks Hks]|Hks]; rewrite Hks.
    + left. eexists _, _. split; [reflexivity|]. simpl. auto.
    + right. simpl. auto.
  - left. eexists _, _. split; [reflexivity|]. simpl. auto.
Qed.

(** One iteration with the key listing: it ends normally with the record
    of the cursor when that is due, or the listing raises before anything
    is written. *)
Lemma v1_loop_body_cases (st : V1.state) (fr : frame) :
  (length (V1.q st) <= 5)%nat ->
  (exists ls st1 st',
     V1.loop_body clock_hms args st fr = (ls, Ok st')
     /\ (V1.first st = false \/ keys_sortable fr = true)
     /\ V1.update st (V1.bpm_from_res (res fr)) (V1.accepts args (res fr)) (now fr)
        = Ok st1
     /\ rows ls
        = (if PyFloat.ge_int (now fr) (V1.next_tick st)
           then [V1.make_record clock_hms args st1 (now fr)
                   (V1.norm_init_progress (res fr))
                   (V1.safe_float (V1.field_or_false (res fr) "snr"))
                   (V1.bpm_from_res (res fr)) (V1.accepts args (res fr))
                   (V1.next_tick st)]
           else [])
     /\ V1.q st' = V1.q st1
     /\ V1.last_good_bpm st' = V1.last_good_bpm st1
     /\ V1.last_good_t st' = V1.last_good_t st1
     /\ V1.next_tick st'
        = V1.next_tick st
          + (if PyFloat.ge_int (now fr) (V1.next_tick st) then 1 else 0))
  \/ (V1.loop_body clock_hms args st fr = ([], Raise TypeError)
      /\ V1.first st = true /\ keys_sortable fr = false).
Proof.
  intros Hlen.
  destruct (v1_process_cases st fr Hlen) as (st1 & Hu & Hp).
  unfold V1.loop_body.
  destruct (v1_debug_keys_cases st fr)
    as [(dbg & first' & Hd & Hdbg & Hok)|(Hd & Hf & Hbad)]; rewrite Hd.
  - left. rewrite Hp.
    eexists _, st1, _. split; [reflexivity|]. split; [exact Hok|].
    split; [exact Hu|].
    rewrite rows_app, Hdbg, rows_Row. simpl. repeat split; reflexivity.
  - right. auto.
Qed.

Lemma v1_accepted_cons (fr : frame) (frames : list frame) :
  V1.accepted args (fr :: frames)
  = (if V1.accepts args (res fr)
     then match V1.bpm_from_res (res fr) with Some raw => [raw] | None => [] end
     else [])
    ++ V1.accepted args frames.
Proof.
  unfold V1.accepted.
  change (omap ?f (fr :: frames))
    with (match f fr with Some y => y :: omap f frames | None => omap f frames end).
  cbv beta.
  destruct (V1.accepts args (res fr)); [|reflexivity].
  destruct (V1.bpm_from_res (res fr)); reflexivity.
Qed.

(** The records of a run of the first version, however it ends, and the
    state it leaves when it ends normally; the one exception it can end
    with is the [TypeError] of the key listing. *)
Lemma v1_run_spec (frames : list frame) :
  forall (st : V1.state) (history : list float),
    V1.q st = take_last 5 history ->
    Forall (fun x => V1.in_band args x = true) (V1.q st) ->
    ((V1.q st = [] /\ V1.last_good_bpm st = None)
     \/ (V1.q st <> []
         /\ exists m, smoothed Mean (V1.q st) = Ok m
                      /\ V1.last_good_bpm st = Some m)) ->
    exists ls r,
      V1.run clock_hms args st frames = (ls, r)
      /\ map unix_s (rows ls)
         = seqZ (V1.next_tick st) (Z.of_nat (length (rows ls)))
      /\ (length (rows ls) <= length frames)%nat
      /\ Forall (fun r =>
           Exists (fun fr => PyFloat.ge_int (now fr) (unix_s r) = true) frames)
           (rows ls)
      /\ ((r = Raise TypeError
           /\ Exists (fun fr => keys_sortable fr = false) frames)
          \/ exists st',
               r = Ok st'
               /\ V1.next_tick st' = V1.next_tick st + Z.of_nat (length (rows ls))
               /\ V1.q st' = take_last 5 (history ++ V1.accepted args frames)
               /\ Forall (fun x => V1.in_band args x = true) (V1.q st')
               /\ ((V1.q st' = [] /\ V1.last_good_bpm st' = None)
                   \/ (V1.q st' <> []
                       /\ exists m, smoothed Mean (V1.q st') = Ok m
                                    /\ V1.last_good_bpm st' = Some m))).
Proof.
  induction frames as [|fr frames IH]; intros st history Hq Hband Hcons.
  - exists [], (Ok st). simpl. rewrite app_nil_r.
    split; [reflexivity|]. split; [reflexivity|]. split; [lia|].
    split; [constructor|].
    right. exists st. repeat split; try assumption. lia.
  - assert (Hlen : (length (V1.q st) <= 5)%nat).
    { rewrite Hq. unfold take_last. rewrite length_drop. lia. }
    destruct (v1_loop_body_cases st fr Hlen)
      as [(ls1 & st1 & st2 & Hb & _ & Hu & Hrows & Hq2 & Hl2 & Ht2 & Hnt2)
         |(Hb & _ & Hbad)].
    2:{ exists [], (Raise TypeError). simpl. rewrite Hb.
        split; [reflexivity|]. split; [reflexivity|]. split; [lia|].
        split; [constructor|].
        left. split; [reflexivity|]. now apply Exists_cons_hd. }
    destruct (v1_update_cases st (res fr) (now fr) Hlen)
      as (st1' & Hu' & _ & _ & Hcase).
    rewrite Hu in Hu'. injection Hu' as <-.
    assert (Hhist : V1.q st2
                    = take_last 5 (history ++ V1.accepted args [fr])
                    /\ Forall (fun x => V1.in_band args x = true) (V1.q st2)
                    /\ ((V1.q st2 = [] /\ V1.last_good_bpm st2 = None)
                        \/ (V1.q st2 <> []
                            /\ exists m, smoothed Mean (V1.q st2) = Ok m
                                         /\ V1.last_good_bpm st2 = Some m))).
    { rewrite Hq2, Hl2, v1_accepted_cons.
      change (V1.accepted args []) with (@nil float). rewrite app_nil_r.
      destruct Hcase as [(Ha & ->)|(raw & m & Ha & Hraw & Hb1 & Hq1 & Hm & Hl1 & _)].
      - rewrite Ha. simpl. rewrite app_nil_r. auto.
      - rewrite Ha, Hraw. simpl. split; [|split].
        + rewrite Hq1, Hq. apply (deque_append_take_last 5).
        + rewrite Hq1. destruct (deque_append_suffix 5 (V1.q st) raw) as [k Hk].
          assert (Hall : Forall (fun x => V1.in_band args x = true)
                           (V1.q st ++ [raw])).
          { apply Forall_app. split; [exact Hband|]. now constructor. }
          rewrite Hk in Hall. apply Forall_app in Hall. tauto.
        + right. split; [|eauto].
          rewrite Hq1. apply deque_append_nonempty. lia. }
    destruct Hhist as (Hq' & Hband' & Hcons').
    destruct (IH st2 _ Hq' Hband' Hcons')
      as (ls2 & r & Hr & Hseq & Hcount & Hdue & Hend).
    exists (ls1 ++ ls2), r.
    split; [simpl; rewrite Hb, Hr; reflexivity|].
    rewrite rows_app, map_app, length_app, Nat2Z.inj_add.
    assert (Hrows1 : map unix_s (rows ls1)
                     = seqZ (V1.next_tick st) (Z.of_nat (length (rows ls1)))
                     /\ V1.next_tick st2
                        = V1.next_tick st + Z.of_nat (length (rows ls1))
                     /\ (length (rows ls1) <= 1)%nat
                     /\ Forall (fun r => PyFloat.ge_int (now fr) (unix_s r) = true)
                          (rows ls1)).
    { rewrite Hrows, Hnt2.
      destruct (PyFloat.ge_int (now fr) (V1.next_tick st)) eqn:Hge; simpl.
      - repeat split; try lia. constructor; [exact Hge | constructor].
      - repeat split; try lia. constructor. }
    destruct Hrows1 as (Hseq1 & Hnt1 & Hcount1 & Hdue1).
    split; [rewrite seqZ_app by lia; rewrite Hseq1, Hseq, Hnt1; reflexivity|].
    split; [simpl length; lia|].
    split.
    { apply Forall_app. split.
      - eapply Forall_impl; [exact Hdue1|]. intros r0 Hr1. now apply Exists_cons_hd.
      - eapply Forall_impl; [exact Hdue|]. intros r0 Hr2. now apply Exists_cons_tl. }
    destruct Hend as [(-> & Hex)|(st' & -> & Hnt & Hqf & Hbf & Hcf)].
    + left. split; [reflexivity|]. now apply Exists_cons_tl.
    + right. exists st'. split; [reflexivity|]. split; [lia|].
      split; [|split; assumption].
      rewrite Hqf. f_equal. rewrite <- app_assoc. f_equal.
      rewrite (v1_accepted_cons fr frames), (v1_accepted_cons fr []).
      change (V1.accepted args []) with (@nil float). now rewrite app_nil_r.
Qed.

Lemma all_keys_sortable (frames : list frame) :
  Forall (fun fr => keys_sortable fr = true) frames ->
  Exists (fun fr => keys_sortable fr = false) frames -> False.
Proof.
  intros Hall Hex. apply Exists_exists in Hex as (fr & Hin & Hbad).
  rewrite Forall_forall in Hall. specialize (Hall fr Hin). congruence.
Qed.

End FirstVersion.

(** X13. The loop of the first version writes at most one record per
    frame, and the one exception it can end with is the [TypeError] of the
    key listing, on a [dict] whose keys do not sort; it ends normally when
    the keys of every result sort.  After a start at a finite time the
    unix seconds of its records are consecutive from the first whole
    second after the start, each record is written on a frame whose clock
    has reached its second, and there are never more records than frames:
    seconds that fall due together on a late frame are not written at
    once. *)
Theorem v1_one_record_per_frame clock_hms args (t0 : float) (fl : Z)
    (frames : list frame) :
  PyFloat.floor t0 = Ok fl ->
  exists ls r,
    V1.main clock_hms args t0 frames = (Header :: ls, r)
    /\ (r = Ok tt
        \/ (r = Raise TypeError
            /\ Exists (fun fr => keys_sortable fr = false) frames))
    /\ (Forall (fun fr => keys_sortable fr = true) frames -> r = Ok tt)
    /\ map unix_s (rows ls) = seqZ (fl + 1) (Z.of_nat (length (rows ls)))
    /\ (length (rows ls) <= length frames)%nat
    /\ Forall (fun r =>
         Exists (fun fr => PyFloat.ge_int (now fr) (unix_s r) = true) frames)
         (rows ls).
Proof.
  intros Hfl. unfold V1.main, V1.init_state. rewrite Hfl. simpl.
  match goal with
  | |- context [V1.run _ _ ?s _] =>
      destruct (v1_run_spec clock_hms args frames s [])
        as (ls & r & Hr & Hseq & Hcount & Hdue & Hend)
  end.
  { reflexivity. }
  { constructor. }
  { left. split; reflexivity. }
  rewrite Hr.
  destruct Hend as [(-> & Hex)|(st' & -> & _)]; simpl.
  - exists ls, (Raise TypeError). repeat split; try assumption.
    + right. auto.
    + intros Hall. exfalso.
      exact (all_keys_sortable frames Hall Hex).
  - exists ls, (Ok tt). repeat split; try assumption. left. reflexivity.
Qed.

(** Started at 100.2 with the first frame through at 103.4 and the next
    at 103.6, the first version writes seconds 101 and 102; the second
    version writes 101, 102 and 103 on the first frame. *)
Lemma v1_one_record_per_frame_witness :
  let frames := [bpm_frame 15 103.4; bpm_frame 15 103.6] in
  PyFloat.floor 100.2 = Ok 100
  /\ map unix_s (rows (fst (V1.main noon (V1.default_args "sensor") 100.2 frames)))
     = [101; 102]
  /\ snd (V1.main noon (V1.default_args "sensor") 100.2 frames) = Ok tt
  /\ map unix_s
       (rows (fst (run series_log10 noon (default_args "sensor")
                     {| q := []; last_good_bpm := None; last_good_t := 0;
                        next_tick := 101; debug_keys_printed := false |}
                     frames)))
     = [101; 102; 103].
Proof.
  cbv zeta.
  assert (Hfl : PyFloat.floor 100.2 = Ok 100) by (vm_compute; reflexivity).
  split; [exact Hfl|]. split; [vm_compute; reflexivity|].
  split; [|vm_compute; reflexivity].
  destruct (v1_one_record_per_frame noon (V1.default_args "sensor") 100.2 100
              [bpm_frame 15 103.4; bpm_frame 15 103.6] Hfl)
    as (ls & r & Hmain & _ & Hok & _).
  rewrite Hmain. cbn [snd]. apply Hok.
  repeat constructor.
Defined.

(** X14. From the same start time and on the same frames, the seconds
    the first version writes are an initial part of the seconds the
    second version writes when its run goes through: the first version
    never writes a second the second version leaves out, it can only be
    behind. *)
Theorem v1_seconds_prefix_of_v2 libm_log10 clock_hms args clock_hms1 args1
    (t0 : float) (st0 : state) (frames : list frame) (ls : list line)
    (st' : state) :
  init_state args t0 = Ok st0 ->
  run libm_log10 clock_hms args st0 frames = (ls, Ok st') ->
  map unix_s (rows (fst (V1.main clock_hms1 args1 t0 frames)))
    `prefix_of` map unix_s (rows ls).
Proof.
  intros Hinit Hrun.
  assert (Hfirst : exists fl, PyFloat.floor t0 = Ok fl /\ next_tick st0 = fl + 1).
  { unfold init_state in Hinit.
    destruct (smooth_window args <? 0); [discriminate|].
    bind_inv Hinit. inversion Hinit; subst; simpl. eauto. }
  destruct Hfirst as (fl & Hfl & Hnt0).
  destruct (run_ticks _ _ _ _ _ _ _ Hrun) as (Hseq2 & Hcursor).
  destruct (Hcursor st' eq_refl) as (Hnt2 & Hpast).
  unfold V1.main, V1.init_state. rewrite Hfl. simpl.
  match goal with
  | |- context [V1.run _ _ ?s _] =>
      destruct (v1_run_spec clock_hms1 args1 frames s [])
        as (ls1 & r1 & Hr & Hseq1 & _ & Hdue & _)
  end.
  { reflexivity. }
  { constructor. }
  { left. split; reflexivity. }
  rewrite Hr. cbn [fst]. change (rows (Header :: ls1)) with (rows ls1).
  cbn [V1.next_tick] in Hseq1.
  set (n1 := Z.of_nat (length (rows ls1))) in *.
  set (n2 := Z.of_nat (length (rows ls))) in *.
  assert (Hbound : forall u, u ∈ map unix_s (rows ls1) -> u < fl + 1 + n2).
  { intros u Hu. apply list_elem_of_In, in_map_iff in Hu as (r & <- & Hin).
    rewrite Forall_forall in Hdue.
    apply list_elem_of_In in Hin. apply Hdue in Hin.
    apply Exists_exists in Hin as (fr & Hfr & Hge).
    rewrite Forall_forall in Hpast. specialize (Hpast fr Hfr).
    destruct (Z_lt_le_dec (unix_s r) (fl + 1 + n2)) as [Hlt|Hle]; [exact Hlt|].
    assert (Hcur : next_tick st' <= unix_s r) by lia.
    rewrite (ge_int_mono _ _ _ Hcur Hge) in Hpast. discriminate. }
  assert (Hle : n1 <= n2).
  { destruct (Z_le_gt_dec n1 n2) as [Hok|Hgt]; [exact Hok|].
    assert (Hin : fl + 1 + n2 ∈ map unix_s (rows ls1)).
    { rewrite Hseq1. apply elem_of_seqZ. unfold n2. lia. }
    apply Hbound in Hin. lia. }
  rewrite Hseq1, Hseq2, Hnt0.
  exists (seqZ (fl + 1 + n1) (n2 - n1)).
  rewrite <- seqZ_app by (unfold n1; lia).
  f_equal. lia.
Qed.

Lemma v1_seconds_prefix_of_v2_witness :
  let frames := [bpm_frame 15 103.4; bpm_frame 15 103.6] in
  let st0 := {| q := []; last_good_bpm := None; last_good_t := 0;
                next_tick := 101; debug_keys_printed := false |} in
  init_state (default_args "sensor") 100.2 = Ok st0
  /\ [101; 102] `prefix_of`
       map unix_s (rows (fst (run series_log10 noon (default_args "sensor") st0 frames))).
Proof.
  cbv zeta.
  set (frames := [bpm_frame 15 103.4; bpm_frame 15 103.6]).
  set (st0 := {| q := []; last_good_bpm := None; last_good_t := 0;
                 next_tick := 101; debug_keys_printed := false |}).
  assert (Hinit : init_state (default_args "sensor") 100.2 = Ok st0)
    by (vm_compute; reflexivity).
  split; [exact Hinit|].
  destruct (run series_log10 noon (default_args "sensor") st0 frames)
    as [ls [st'| |]] eqn:Hrun; [|vm_compute in Hrun; discriminate..].
  cbn [fst].
  exact (v1_seconds_prefix_of_v2 series_log10 noon (default_args "sensor")
           noon (V1.default_args "sensor") 100.2 st0 frames ls st' Hinit Hrun).
Defined.

(** X15. After every frame of a run of the first version on results whose
    keys sort (so that the key listing does not raise) the buffer is
    exactly the last five raw values the loop accepted, oldest first (all
    of them while fewer were accepted), each of them within the band; the
    smoothed value is absent while nothing was accepted and the mean
    [sum(q)/len(q)] of the buffer afterwards. *)
Theorem v1_smoothed_is_mean_of_last_five clock_hms args (t0 : float)
    (st0 : V1.state) (frames : list frame) :
  V1.init_state t0 = Ok st0 ->
  Forall (fun fr => keys_sortable fr = true) frames ->
  exists ls st',
    V1.run clock_hms args st0 frames = (ls, Ok st')
    /\ V1.q st' = take_last 5 (V1.accepted args frames)
    /\ Forall (fun x => V1.in_band args x = true) (V1.q st')
    /\ match V1.accepted args frames with
       | [] => V1.last_good_bpm st' = None
       | _ :: _ =>
           exists m, smoothed Mean (V1.q st') = Ok m
                     /\ V1.last_good_bpm st' = Some m
       end.
Proof.
  intros Hinit Hsort. unfold V1.init_state in Hinit.
  bind_inv Hinit. injection Hinit as <-.
  match goal with
  | |- context [V1.run _ _ ?s _] =>
      destruct (v1_run_spec clock_hms args frames s [])
        as (ls & r & Hr & _ & _ & _ & Hend)
  end.
  { reflexivity. }
  { constructor. }
  { left. split; reflexivity. }
  destruct Hend as [(_ & Hex)|(st' & -> & _ & Hq & Hband & Hcons)].
  { exfalso.
    exact (all_keys_sortable frames Hsort Hex). }
  exists ls, st'. simpl in Hq. repeat split; try assumption.
  destruct (V1.accepted args frames) as [|x l] eqn:Hacc.
  - destruct Hcons as [[_ Hnone]|[Hne _]]; [exact Hnone|].
    now rewrite Hq in Hne.
  - destruct Hcons as [[Hnil _]|[_ Hm]]; [|exact Hm].
    rewrite Hq in Hnil. apply (f_equal length) in Hnil.
    unfold take_last in Hnil. rewrite length_drop in Hnil. simpl in Hnil. lia.
Qed.

(** Seven frames in the band: the buffer holds the last five and the
    smoothed value is their mean, 19. *)
Lemma v1_smoothed_is_mean_of_last_five_witness :
  let args := V1.default_args "sensor" in
  let frames := map (fun k => bpm_frame k 100.5) [15; 16; 17; 18; 19; 20; 21]%float in
  let st0 := {| V1.q := []; V1.last_good_bpm := None; V1.last_good_t := 0;
                V1.next_tick := 101; V1.first := true |} in
  V1.init_state 100.2 = Ok st0
  /\ Forall (fun fr => keys_sortable fr = true) frames
  /\ V1.accepted args frames = [15; 16; 17; 18; 19; 20; 21]%float
  /\ match snd (V1.run noon args st0 frames) with
     | Ok st' => V1.q st' = take_last 5 (V1.accepted args frames)
                 /\ V1.last_good_bpm st' = Some 19%float
     | _ => False
     end.
Proof.
  cbv zeta.
  set (args := V1.default_args "sensor").
  set (frames := map (fun k => bpm_frame k 100.5) [15; 16; 17; 18; 19; 20; 21]%float).
  set (st0 := {| V1.q := []; V1.last_good_bpm := None; V1.last_good_t := 0;
                 V1.next_tick := 101; V1.first := true |}).
  assert (Hinit : V1.init_state 100.2 = Ok st0) by (vm_compute; reflexivity).
  assert (Hsort : Forall (fun fr => keys_sortable fr = true) frames)
    by (repeat constructor).
  split; [exact Hinit|]. split; [exact Hsort|]. split; [vm_compute; reflexivity|].
  destruct (v1_smoothed_is_mean_of_last_five noon args 100.2 st0 frames Hinit Hsort)
    as (ls & st' & Hrun & Hq & _).
  rewrite Hrun. cbn [snd]. split; [exact Hq|].
  vm_compute in Hrun. injection Hrun as _ <-. reflexivity.
Defined.

Lemma v1_non_dict_fields (v : value) (k : string) :
  (forall d, v <> VDict d) ->
  V1.field_or_false v k = VBool false /\ V1.bpm_from_res v = None.
Proof.
  intros Hv. destruct v; try (split; reflexivity). now destruct (Hv d).
Qed.

(** X16. The first version reads a result that is not a [dict] (the
    processor returned [None], say) as quality 0 and progress 0, through
    [float(False)]: the frame is rejected whatever the options are, the
    state keeps its buffer, smoothed value and acceptance time, and the
    record of the iteration, when one is due, carries the note
    [snr=0.00/init=0.00]. *)
Theorem v1_non_dict_frame clock_hms args (st : V1.state) (fr : frame) :
  (forall d, res fr <> VDict d) ->
  V1.accepts args (res fr) = false
  /\ exists rs st',
       V1.process clock_hms args st fr = Ok (rs, st')
       /\ V1.q st' = V1.q st
       /\ V1.last_good_bpm st' = V1.last_good_bpm st
       /\ V1.last_good_t st' = V1.last_good_t st
       /\ (length rs <= 1)%nat
       /\ Forall (fun r => join_slash (note r) = "snr=0.00/init=0.00"%string) rs.
Proof.
  intros Hres.
  destruct (v1_non_dict_fields (res fr) "snr" Hres) as [Hsnr Hraw].
  destruct (v1_non_dict_fields (res fr) "init_progress" Hres) as [Hip _].
  assert (Hip' : V1.norm_init_progress (res fr) = Some 0%float).
  { unfold V1.norm_init_progress. rewrite Hip. vm_compute. reflexivity. }
  assert (Hsnr' : V1.safe_float (V1.field_or_false (res fr) "snr") = Some 0%float).
  { rewrite Hsnr. vm_compute. reflexivity. }
  assert (Ha : V1.accepts args (res fr) = false).
  { unfold V1.accepts, V1.valid_of. rewrite Hraw. apply Bool.andb_false_r. }
  split; [exact Ha|].
  unfold V1.process. cbv zeta.
  change (V1.valid_of args (V1.norm_init_progress (res fr))
            (V1.safe_float (V1.field_or_false (res fr) "snr"))
            (V1.bpm_from_res (res fr)))
    with (V1.accepts args (res fr)).
  rewrite Ha, Hraw, Hip', Hsnr'. simpl.
  destruct (PyFloat.ge_int (now fr) (V1.next_tick st)); eexists _, _;
    (split; [reflexivity|]); cbn [V1.q V1.last_good_bpm V1.last_good_t length];
    repeat split; try lia; repeat constructor.
Qed.

(** The processor returns [None] while a value of 15 bpm is held. *)
Lemma v1_non_dict_frame_witness :
  let st := {| V1.q := [15%float]; V1.last_good_bpm := Some 15%float;
               V1.last_good_t := 100; V1.next_tick := 101; V1.first := true |} in
  let fr := {| res := VNone; other_keys := []; now := 101.2 |} in
  V1.accepts (V1.default_args "sensor") (res fr) = false
  /\ map render (fst (match V1.process noon (V1.default_args "sensor") st fr with
                      | Ok p => p
                      | _ => ([], st)
                      end))
     = ["12:00:00,101,15.00,snr=0.00/init=0.00"%string].
Proof.
  cbv zeta. split; [|vm_compute; reflexivity].
  refine (proj1 (v1_non_dict_frame noon (V1.default_args "sensor")
                   {| V1.q := [15%float]; V1.last_good_bpm := Some 15%float;
                      V1.last_good_t := 100; V1.next_tick := 101;
                      V1.first := true |}
                   {| res := VNone; other_keys := []; now := 101.2 |} _)).
  intros d. discriminate.
Defined.

(** X17. The note of the first version: every record has an [init=]
    token and none has [held=]; [snr=] is there exactly when [safe_float]
    gives the quality a value, and [raw=] exactly when the frame has a rate
    and was rejected, so a rate outside the band is shown too (the second
    version hides it).  A frame accepted at a finite clock reading is
    reported at once when [hold_last_for] is not negative: the record of
    the same iteration carries the new mean. *)
Theorem v1_note_mirrors_iteration clock_hms args (st : V1.state) (fr : frame) :
  (length (V1.q st) <= 5)%nat ->
  exists rs st',
    V1.process clock_hms args st fr = Ok (rs, st')
    /\ Forall (fun r =>
         has_token "init=" (note r) = true
         /\ has_token "held=" (note r) = false
         /\ (has_token "snr=" (note r) = true <->
             V1.safe_float (V1.field_or_false (res fr) "snr") <> None)
         /\ (has_token "raw=" (note r) = true <->
             exists raw, V1.bpm_from_res (res fr) = Some raw
                         /\ V1.accepts args (res fr) = false)
         /\ (V1.accepts args (res fr) = true ->
             PyFloat.isfinite (now fr) = true ->
             PyFloat.le 0 (V1.hold_last_for args) = true ->
             exists m, V1.last_good_bpm st' = Some m
                       /\ out_bpm r = PyFloat.format_2f m)) rs.
Proof.
  intros Hlen.
  destruct (v1_process_cases clock_hms args st fr Hlen) as (st1 & Hu & Hp).
  destruct (v1_update_cases args st (res fr) (now fr) Hlen)
    as (st1' & Hu' & _ & _ & Hcase).
  rewrite Hu in Hu'. injection Hu' as <-.
  eexists _, _. split; [exact Hp|].
  destruct (PyFloat.ge_int (now fr) (V1.next_tick st)); [|constructor].
  constructor; [|constructor].
  unfold V1.make_record. cbn [note out_bpm V1.last_good_bpm].
  assert (Hip : exists x, V1.norm_init_progress (res fr) = Some x).
  { unfold V1.norm_init_progress.
    destruct (V1.safe_float (V1.field_or_false (res fr) "init_progress")); eauto. }
  destruct Hip as [x ->].
  rewrite !has_token_app.
  split; [|split; [|split; [|split]]].
  - destruct (V1.safe_float _), (V1.bpm_from_res (res fr));
      try destruct (negb _); reflexivity.
  - destruct (V1.safe_float _), (V1.bpm_from_res (res fr));
      try destruct (negb _); reflexivity.
  - destruct (V1.safe_float _), (V1.bpm_from_res (res fr)) as [raw|];
      try destruct (negb _); split; intros H; try reflexivity;
      try discriminate; try congruence.
  - destruct (V1.safe_float _), (V1.bpm_from_res (res fr)) as [raw|],
      (V1.accepts args (res fr)); split; intros H; try reflexivity;
      try discriminate; try (destruct H as (r0 & H1 & H2); congruence);
      try (eexists; split; reflexivity).
  - intros Ha Hfin Hhold.
    destruct Hcase as [(Hrej & _)|(raw & m & _ & _ & _ & _ & _ & Hl & Ht)];
      [congruence|].
    exists m. split; [exact Hl|].
    rewrite Hl, Ht, (sub_self _ Hfin), Hhold. reflexivity.
Qed.

(** A rate of 50 bpm, above the band, while 15 bpm is held: the first
    version shows it as [raw=50.00], the second does not. *)
Lemma v1_note_mirrors_iteration_witness :
  let fr := bpm_frame 50 101.5 in
  let st1 := {| V1.q := [15%float]; V1.last_good_bpm := Some 15%float;
                V1.last_good_t := 100; V1.next_tick := 101; V1.first := false |} in
  let st2 := {| q := [15%float]; last_good_bpm := Some 15%float;
                last_good_t := 100; next_tick := 101;
                debug_keys_printed := false |} in
  (length (V1.q st1) <= 5)%nat
  /\ (exists rs st',
        V1.process noon (V1.default_args "sensor") st1 fr = Ok (rs, st')
        /\ map note rs = [["init=1.00"; "raw=50.00"]%string]
        /\ Forall (fun r => has_token "raw=" (note r) = true) rs)
  /\ map note (fst (match process series_log10 noon (default_args "sensor") st2 fr with
                    | Ok p => p
                    | _ => ([], st2)
                    end))
     = [["held=1"; "init=1.00"]%string].
Proof.
  cbv zeta.
  set (fr := bpm_frame 50 101.5).
  set (st1 := {| V1.q := [15%float]; V1.last_good_bpm := Some 15%float;
                 V1.last_good_t := 100; V1.next_tick := 101; V1.first := false |}).
  assert (Hlen : (length (V1.q st1) <= 5)%nat) by (simpl; lia).
  split; [exact Hlen|]. split; [|vm_compute; reflexivity].
  destruct (v1_note_mirrors_iteration noon (V1.default_args "sensor") st1 fr Hlen)
    as (rs & st' & Hp & Hall).
  exists rs, st'. split; [exact Hp|].
  assert (Hraw : exists raw, V1.bpm_from_res (res fr) = Some raw
                             /\ V1.accepts (V1.default_args "sensor") (res fr) = false).
  { exists 50%float. split; vm_compute; reflexivity. }
  split.
  - vm_compute in Hp. injection Hp as <- _. reflexivity.
  - eapply Forall_impl; [exact Hall|]. intros r (_ & _ & _ & Hr & _).
    apply Hr. exact Hraw.
Defined.

(** ** The verdict of the whole gate *)

(** X18. With a non-zero [max_ratio] the gate of the second version
    raises on no frame and in no state, and it accepts exactly when the
    normalised progress is at least 0.99, the quality is unknown or at
    least [snr_min], the frame has a rate within the band and, when a
    smoothed value exists, the step from it is plausible; the shape of the
    spectrum's peak has no part in the verdict. *)
Theorem gate_accepts_iff libm_log10 args (st : state) (fr : frame) :
  PrimFloat.eqb (max_ratio args) 0 = false ->
  exists vd,
    gate libm_log10 args st fr = Ok vd
    /\ ip vd = norm_init_progress (res fr)
    /\ raw_bpm vd = bpm_from_res (res fr)
    /\ (valid vd = true <->
        (exists x, ip vd = Some x /\ PyFloat.ge x 0.99 = true)
        /\ (forall s, snr vd = Some s -> PyFloat.ge s (snr_min args) = true)
        /\ exists raw,
             raw_bpm vd = Some raw /\ in_band args raw = true
             /\ forall lg, last_good_bpm st = Some lg ->
                  spec_step_rejects (max_step_bpm args) (max_ratio args) lg raw
                  = false).
Proof.
  intros Hratio.
  destruct (gates_1_4_fields libm_log10 args (res fr)) as (Hv0 & Hip0 & Hraw0).
  destruct (norm_init_progress_Some (res fr)) as [x Hx].
  unfold gate.
  set (vd0 := gates_1_4 libm_log10 args (res fr)) in *.
  assert (Hbasic : valid vd0 = true <->
            PyFloat.ge x 0.99 = true
            /\ (forall s, snr vd0 = Some s -> PyFloat.ge s (snr_min args) = true)
            /\ exists raw, raw_bpm vd0 = Some raw /\ in_band args raw = true).
  { rewrite Hv0, Hip0, Hx. unfold basic_valid.
    destruct (snr vd0) as [s|], (raw_bpm vd0) as [raw|];
      rewrite ?Bool.andb_true_iff; split.
    - intros [[H1 H2] H3]. split; [exact H1|]. split; [|eauto].
      now intros s' [= <-].
    - intros (H1 & H2 & raw' & [= <-] & H3). auto.
    - intros [_ H]. discriminate.
    - intros (_ & _ & raw' & H & _). discriminate.
    - intros [[H1 _] H3]. split; [exact H1|]. split; [|eauto]. discriminate.
    - intros (H1 & _ & raw' & [= <-] & H3). auto.
    - intros [_ H]. discriminate.
    - intros (_ & _ & raw' & H & _). discriminate. }
  destruct (last_good_bpm st) as [lg|] eqn:Hlast.
  - destruct (valid vd0) eqn:Hvalid.
    + destruct (proj1 Hbasic eq_refl) as (H1 & H2 & raw & Hraw & Hband).
      rewrite Hraw, (step_gate_formula _ _ _ Hratio). simpl.
      eexists. split; [reflexivity|]. cbn [ip snr raw_bpm valid].
      split; [exact Hip0|]. split; [congruence|].
      rewrite Hip0, Hx. split.
      * intros Hacc. split; [eauto|]. split; [exact H2|].
        exists raw. repeat split; try assumption.
        intros lg' [= <-]. now destruct (spec_step_rejects _ _ _ _).
      * intros (_ & _ & raw' & [= <-] & _ & Hstep).
        now rewrite (Hstep lg eq_refl).
    + simpl. eexists. split; [reflexivity|]. cbn [ip snr raw_bpm valid].
      split; [exact Hip0|]. split; [exact Hraw0|].
      split; [discriminate|].
      intros ((x' & Hx' & H1) & H2 & raw & Hraw & Hband & _).
      rewrite Hip0, Hx in Hx'. injection Hx' as <-.
      apply Hbasic. eauto.
  - simpl. eexists. split; [reflexivity|]. cbn [ip snr raw_bpm valid].
    split; [exact Hip0|]. split; [exact Hraw0|].
    rewrite Hbasic, Hip0, Hx. split.
    + intros (H1 & H2 & raw & Hraw & Hband). split; [eauto|]. split; [exact H2|].
      exists raw. repeat split; try assumption. discriminate.
    + intros ((x' & [= <-] & H1) & H2 & raw & Hraw & Hband & _). eauto.
Qed.

(** With 15 bpm held, 20 bpm is accepted and 23 bpm, a step of 8, is
    not. *)
Lemma gate_accepts_iff_witness :
  let args := default_args "sensor" in
  let st := {| q := [15%float]; last_good_bpm := Some 15%float;
               last_good_t := 100; next_tick := 101;
               debug_keys_printed := false |} in
  PrimFloat.eqb (max_ratio args) 0 = false
  /\ (exists vd, gate series_log10 args st (bpm_frame 20 100.5) = Ok vd
                 /\ valid vd = true)
  /\ spec_step_rejects (max_step_bpm args) (max_ratio args) 15 20 = false
  /\ spec_step_rejects (max_step_bpm args) (max_ratio args) 15 23 = true.
Proof.
  cbv zeta.
  set (args := default_args "sensor").
  set (st := {| q := [15%float]; last_good_bpm := Some 15%float;
                last_good_t := 100; next_tick := 101;
                debug_keys_printed := false |}).
  assert (Hratio : PrimFloat.eqb (max_ratio args) 0 = false)
    by (vm_compute; reflexivity).
  split; [exact Hratio|]. split; [|split; vm_compute; reflexivity].
  destruct (gate_accepts_iff series_log10 args st (bpm_frame 20 100.5) Hratio)
    as (vd & Hg & Hip & Hraw & Hiff).
  exists vd. split; [exact Hg|]. apply Hiff.
  rewrite Hip, Hraw.
  split; [exists 1%float; split; vm_compute; reflexivity|].
  split.
  - intros s Hs. vm_compute in Hg. injection Hg as <-. discriminate.
  - exists 20%float. split; [vm_compute; reflexivity|].
    split; [vm_compute; reflexivity|].
    intros lg [= <-]. vm_compute. reflexivity.
Defined.
